(** * The handle registry and callback dispatcher of pjsua.py

    A shallow embedding of the bookkeeping part of
    [pjsip-apps/src/python/pjsua.py]: the dictionaries of class [Lib] that map
    engine handles to [Call], [Account] and [Buddy] objects, the constructors
    and destructors that maintain them, and the [_cb_on_*] methods that
    re-dispatch engine callbacks to the handler installed on an object.

    The engine [_pjsua] is a parameter of the world.  Further parts cover
    the URI encoder, the account and codec configurations, and the life
    cycle of the library instance with its worker thread.  Left out are the
    other configuration classes, which copy fields, and the module-level
    functions [_cb_on_*], each of which only forwards to the method of the
    same name of the one [Lib] instance.

    Naming: method [m] of class [C] is the definition [C_m], so that
    [Lib._lookup_call] is [Lib__lookup_call] and [Call.__del__] is
    [Call___del__].  The attributes of a class live in a module of its name
    ([Call._id], [Lib.buddy_by_uri]). *)

From Stdlib Require Import Ascii String.
From stdpp Require Import gmap strings list fin_maps.

Local Open Scope Z_scope.

(** ** Values, exceptions and events *)

(** A Python object is known by its address; [==] on the old-style instances
    of this file (no [__eq__], no [__cmp__]) compares addresses. *)
Definition loc := positive.

Inductive pyval :=
| VNone
| VInt (z : Z)
| VStr (s : string)
| VRef (l : loc).

Inductive exn :=
| TypeError
| AttributeError
| KeyError
| Error (op_name : string) (obj : option loc) (err_code : Z) (err_msg : string).

(** One constructor per notification method of the three callback classes,
    with the arguments the dispatcher passes. *)
Inductive AccountCallback_method :=
| Acc_on_reg_state
| Acc_on_incoming_call (call : loc)
| Acc_on_pager (from_uri contact mime_type body : string)
| Acc_on_pager_status (to_uri body : string) (im_id code : Z) (reason : string)
| Acc_on_typing (from_uri contact : string) (is_typing : bool).

Inductive CallCallback_method :=
| Call_on_state
| Call_on_media_state
| Call_on_dtmf_digit (digits : string)
| Call_on_transfer_request (dst : string) (code : Z)
| Call_on_transfer_status (code : Z) (reason : string) (final cont : bool)
| Call_on_replace_request (code : Z) (reason : string)
| Call_on_replaced (new_call : loc)
| Call_on_pager (mime_type body : string)
| Call_on_pager_status (body : string) (im_id code : Z) (reason : string)
| Call_on_typing (is_typing : bool).

Inductive BuddyCallback_method :=
| Buddy_on_state
| Buddy_on_pager (mime_type body : string)
| Buddy_on_pager_status (body : string) (im_id code : Z) (reason : string)
| Buddy_on_typing (is_typing : bool).

(** What the wrapper does to the outside: it invokes a method of a handler
    object (the receiver is the address of the handler), or it asks the
    engine to hang a call up.  The body of an application handler is not
    modelled; the invocation is recorded.  The methods of the callback
    classes themselves do nothing, but for [AccountCallback.on_incoming_call],
    which is modelled. *)
Inductive event :=
| EvAccountCb (cb : loc) (m : AccountCallback_method)
| EvCallCb (cb : loc) (m : CallCallback_method)
| EvBuddyCb (cb : loc) (m : BuddyCallback_method)
| EvCallHangup (call_id code : Z).

(** ** Objects *)

Module AccountCallback.
(** A handler is an instance of [AccountCallback] or of a class an
    application derives from it.  [overrides_on_incoming_call] tells whether
    the class of the instance defines [on_incoming_call] itself; otherwise
    the method of [AccountCallback] runs, which hangs the call up. *)
Record t := { account : option loc; overrides_on_incoming_call : bool }.

(** [AccountCallback(account)] *)
Definition __init__ (a : option loc) : t :=
  {| account := a; overrides_on_incoming_call := false |}.
End AccountCallback.

Module CallCallback.
(** The three notifications whose result goes back to the engine are
    functions of the handler; the class itself returns the suggested
    value. *)
Record t := {
  call : option loc;
  on_transfer_request : string -> Z -> Z;
  on_transfer_status : Z -> string -> bool -> bool -> bool;
  on_replace_request : Z -> string -> Z * string }.

Definition __init__ (c : option loc) : t :=
  {| call := c;
     on_transfer_request := fun _ code => code;
     on_transfer_status := fun _ _ _ cont => cont;
     on_replace_request := fun code reason => (code, reason) |}.
End CallCallback.

Module BuddyCallback.
Record t := { buddy : option loc }.
End BuddyCallback.

(** Instance attributes.  A new instance shows the attributes of its class
    until [__init__] assigns them. *)
Module Account.
Record t := { _id : Z; _cb : option loc; _obj_name : string }.
End Account.

Module Call.
Record t := { _id : Z; _cb : option loc; _obj_name : string }.
End Call.

Module Buddy.
Record t := { _id : Z; _cb : option loc; _obj_name : string; _acc : option loc }.
End Buddy.

Inductive object :=
| OAccount (a : Account.t)
| OCall (c : Call.t)
| OBuddy (b : Buddy.t)
| OAccountCallback (cb : AccountCallback.t)
| OCallCallback (cb : CallCallback.t)
| OBuddyCallback (cb : BuddyCallback.t).

(** ** The native engine [_pjsua]

    The extension module is not part of the Python file; the functions the
    registry calls are taken as parameters, with the fields it reads. *)
Record pjsua_buddy_info := { bi_uri : string; bi_contact : string }.
Record pjsua_acc_info := { ai_acc_uri : string }.
Record pjsua_call_info :=
  { ci_acc_id : Z; ci_local_info : string; ci_remote_info : string }.

Record Engine := {
  parse_simple_uri : string -> string * string * string * Z * string;
  buddy_get_info : Z -> option pjsua_buddy_info;
  acc_get_info : Z -> option pjsua_acc_info;
  call_get_info : Z -> option pjsua_call_info;
  (* the status [call_hangup(call_id, code, ...)] answers *)
  call_hangup : Z -> Z -> Z }.

(** ** The dictionaries of [Lib] *)

(** [buddy_by_uri] is written under tuples [(user, host)] and asked for a
    plain string: a key is one or the other. *)
Definition dict_key : Type := (string * string) + string.
Definition tuple_key (user host : string) : dict_key := inl (user, host).
Definition str_key (s : string) : dict_key := inr s.

Module Lib.
Record t := {
  call : gmap Z loc;
  account : gmap Z loc;
  buddy : gmap Z loc;
  buddy_by_uri : gmap dict_key loc }.

Definition empty : t :=
  {| call := ∅; account := ∅; buddy := ∅; buddy_by_uri := ∅ |}.

Definition set_call (f : gmap Z loc -> gmap Z loc) (l : t) : t :=
  {| call := f (call l); account := account l; buddy := buddy l;
     buddy_by_uri := buddy_by_uri l |}.
Definition set_account (f : gmap Z loc -> gmap Z loc) (l : t) : t :=
  {| call := call l; account := f (account l); buddy := buddy l;
     buddy_by_uri := buddy_by_uri l |}.
Definition set_buddy (f : gmap Z loc -> gmap Z loc) (l : t) : t :=
  {| call := call l; account := account l; buddy := f (buddy l);
     buddy_by_uri := buddy_by_uri l |}.
Definition set_buddy_by_uri (f : gmap dict_key loc -> gmap dict_key loc) (l : t) : t :=
  {| call := call l; account := account l; buddy := buddy l;
     buddy_by_uri := f (buddy_by_uri l) |}.
End Lib.

(** ** The world and the monad of Python code

    [heap] holds the objects, [lib] the class-level dictionaries of [Lib]
    (one set for the process), [trace] what the wrapper did to handlers and
    engine, oldest first, and [stdout] the lines of the [print] statements. *)
Record World := {
  heap : gmap loc object;
  lib : Lib.t;
  engine : Engine;
  trace : list event;
  stdout : list (list pyval) }.

Inductive outcome (A : Type) :=
| Return (a : A)
| Raise (e : exn).
Arguments Return {A} a.
Arguments Raise {A} e.

(** A statement runs in a world and leaves a world, also when it raises. *)
Definition M (A : Type) : Type := World -> outcome A * World.

Definition ret {A} (a : A) : M A := fun w => (Return a, w).
Definition raise {A} (e : exn) : M A := fun w => (Raise e, w).
Definition bind {A B} (m : M A) (k : A -> M B) : M B :=
  fun w => match m w with
           | (Return a, w') => k a w'
           | (Raise e, w') => (Raise e, w')
           end.

Notation "'let*' x ':=' m 'in' k" := (bind m (fun x => k))
  (at level 10, x name, m at level 100, k at level 200).
Notation "m ';;' k" := (bind m (fun _ => k))
  (at level 100, k at level 200, right associativity).

Definition value {A} (m : M A) (w : World) : outcome A := fst (m w).
Definition exec {A} (m : M A) (w : World) : World := snd (m w).

Definition gets {A} (f : World -> A) : M A := fun w => (Return (f w), w).

Definition set_heap (f : gmap loc object -> gmap loc object) : M unit :=
  fun w => (Return tt,
            {| heap := f (heap w); lib := lib w; engine := engine w;
               trace := trace w; stdout := stdout w |}).

Definition set_lib (f : Lib.t -> Lib.t) : M unit :=
  fun w => (Return tt,
            {| heap := heap w; lib := f (lib w); engine := engine w;
               trace := trace w; stdout := stdout w |}).

Definition emit (e : event) : M unit :=
  fun w => (Return tt,
            {| heap := heap w; lib := lib w; engine := engine w;
               trace := trace w ++ [e]; stdout := stdout w |}).

(** [print a, b, ...] *)
Definition print (items : list pyval) : M unit :=
  fun w => (Return tt,
            {| heap := heap w; lib := lib w; engine := engine w;
               trace := trace w; stdout := stdout w ++ [items] |}).

(** Creation of an instance: a fresh address, showing the class attributes. *)
Definition alloc (o : object) : M loc :=
  fun w => let l := fresh (dom (heap w)) in
           (Return l,
            {| heap := <[l := o]> (heap w); lib := lib w; engine := engine w;
               trace := trace w; stdout := stdout w |}).

(** Truth value of a string: empty is false. *)
Definition str_true (s : string) : bool := negb (String.eqb s EmptyString).

(** Truth value of an optional argument that defaults to [None]. *)
Definition arg_true (s : option string) : bool :=
  match s with
  | Some u => str_true u
  | None => false
  end.

(** The instance attributes of an object that the code takes for an
    instance of one class: [self] in a method of the class, the result of a
    lookup in a dispatcher. *)
Definition Account_get (self : loc) : M Account.t :=
  let* o := gets (fun w => heap w !! self) in
  match o with
  | Some (OAccount a) => ret a
  | _ => raise AttributeError
  end.

Definition Call_get (self : loc) : M Call.t :=
  let* o := gets (fun w => heap w !! self) in
  match o with
  | Some (OCall c) => ret c
  | _ => raise AttributeError
  end.

Definition Buddy_get (self : loc) : M Buddy.t :=
  let* o := gets (fun w => heap w !! self) in
  match o with
  | Some (OBuddy b) => ret b
  | _ => raise AttributeError
  end.

(** [x._id] where the class of [x] is not known: the three wrapper classes
    have the attribute, the handler classes have not. *)
Definition object__id (o : object) : option Z :=
  match o with
  | OAccount a => Some (Account._id a)
  | OCall c => Some (Call._id c)
  | OBuddy b => Some (Buddy._id b)
  | _ => None
  end.

Definition get__id (x : loc) : M Z :=
  let* o := gets (fun w => heap w !! x) in
  match o ≫= object__id with
  | Some i => ret i
  | None => raise AttributeError
  end.

(** Binding of positional arguments to a method that declares one parameter
    next to [self]; any other number of arguments is a [TypeError], raised
    before the body runs. *)
Definition call_method1 {A} (f : pyval -> M A) (args : list pyval) : M A :=
  match args with
  | [a] => f a
  | _ => raise TypeError
  end.

(** A parameter used as an object ([x._id]): only a reference has
    attributes of an instance. *)
Definition as_object {A} (f : loc -> M A) (v : pyval) : M A :=
  match v with
  | VRef l => f l
  | _ => raise AttributeError
  end.

(** ** Helper classes *)

Module SIPUri.
Record t := {
  scheme : string; user : string; host : string; port : Z; transport : string }.
End SIPUri.

(** The class attributes of [SIPUri], seen on an instance that never decoded. *)
Definition SIPUri_class : SIPUri.t :=
  {| SIPUri.scheme := EmptyString; SIPUri.user := EmptyString; SIPUri.host := EmptyString; SIPUri.port := 0;
     SIPUri.transport := EmptyString |}.

Definition SIPUri_decode (e : Engine) (uri : string) : SIPUri.t :=
  let '(scheme, user, host, port, transport) := parse_simple_uri e uri in
  {| SIPUri.scheme := scheme; SIPUri.user := user; SIPUri.host := host;
     SIPUri.port := port; SIPUri.transport := transport |}.

Definition SIPUri___init__ (e : Engine) (uri : option string) : SIPUri.t :=
  match uri with
  | Some u => if str_true u then SIPUri_decode e u else SIPUri_class
  | None => SIPUri_class
  end.

Module BuddyInfo.
Record t := { uri : string; contact : string }.
End BuddyInfo.

Definition BuddyInfo___init__ (pjsua_bi : option pjsua_buddy_info) : BuddyInfo.t :=
  match pjsua_bi with
  | Some inf => {| BuddyInfo.uri := bi_uri inf; BuddyInfo.contact := bi_contact inf |}
  | None => {| BuddyInfo.uri := EmptyString; BuddyInfo.contact := EmptyString |}
  end.

Module AccountInfo.
Record t := { uri : string }.
End AccountInfo.

Definition AccountInfo___init__ (ai : option pjsua_acc_info) : M AccountInfo.t :=
  match ai with
  | Some i => ret {| AccountInfo.uri := ai_acc_uri i |}
  | None => raise AttributeError
  end.

Definition Lib__err_check (op_name : string) (obj : option loc) (err_code : Z)
    (err_msg : string) : M unit :=
  if decide (err_code ≠ 0) then raise (Error op_name obj err_code err_msg)
  else ret tt.

Definition Buddy_info (self : loc) : M BuddyInfo.t :=
  let* b := Buddy_get self in
  let* e := gets engine in
  ret (BuddyInfo___init__ (buddy_get_info e (Buddy._id b))).

Definition Account_info (self : loc) : M AccountInfo.t :=
  let* a := Account_get self in
  let* e := gets engine in
  let ai := acc_get_info e (Account._id a) in
  (if decide (ai = None)
   then Lib__err_check "info()" (Some self) (-1) "Invalid account"
   else ret tt) ;;
  AccountInfo___init__ ai.

(** ** Dictionary manipulation for calls, accounts and buddies

    [d.has_key(k) and d[k] or None] is the entry under [k] or [None]: the
    values are instances of classes without [__nonzero__] or [__len__],
    which are true.  [del d[k]] raises [KeyError] on a missing key. *)

Definition Lib__associate_call (call_id : Z) (call : loc) : M unit :=
  set_lib (Lib.set_call <[call_id := call]>).

Definition Lib__lookup_call (call_id : Z) : M (option loc) :=
  gets (fun w => Lib.call (lib w) !! call_id).

Definition del_call (call_id : Z) : M unit :=
  let* d := gets (fun w => Lib.call (lib w)) in
  match d !! call_id with
  | Some _ => set_lib (Lib.set_call (delete call_id))
  | None => raise KeyError
  end.

Definition Lib__disassociate_call (call : loc) : M unit :=
  let* id := get__id call in
  let* found := Lib__lookup_call id in
  if decide (found = Some call) then del_call id else ret tt.

Definition Lib__associate_account (acc_id : Z) (account : loc) : M unit :=
  set_lib (Lib.set_account <[acc_id := account]>).

Definition Lib__lookup_account (acc_id : Z) : M (option loc) :=
  gets (fun w => Lib.account (lib w) !! acc_id).

Definition del_account (acc_id : Z) : M unit :=
  let* d := gets (fun w => Lib.account (lib w)) in
  match d !! acc_id with
  | Some _ => set_lib (Lib.set_account (delete acc_id))
  | None => raise KeyError
  end.

Definition Lib__disassociate_account (account : loc) : M unit :=
  let* id := get__id account in
  let* found := Lib__lookup_account id in
  if decide (found = Some account) then del_account id else ret tt.

Module CallInfo.
Record t := { account : option loc; uri : string; remote_uri : string }.
End CallInfo.

Definition CallInfo__cvt_from_pjsua (ci : pjsua_call_info) : M CallInfo.t :=
  let* account := Lib__lookup_account (ci_acc_id ci) in
  ret {| CallInfo.account := account; CallInfo.uri := ci_local_info ci;
         CallInfo.remote_uri := ci_remote_info ci |}.

Definition CallInfo___init__ (ci : option pjsua_call_info) : M CallInfo.t :=
  match ci with
  | Some c => CallInfo__cvt_from_pjsua c
  | None => ret {| CallInfo.account := None; CallInfo.uri := EmptyString;
                   CallInfo.remote_uri := EmptyString |}
  end.

Definition Call_info (self : loc) : M CallInfo.t :=
  let* c := Call_get self in
  let* e := gets engine in
  let ci := call_get_info e (Call._id c) in
  (if decide (ci = None)
   then Lib__err_check "info" (Some self) (-1) "Invalid call"
   else ret tt) ;;
  CallInfo___init__ ci.

(** [x.info().uri] where the class of [x] is not known: each wrapper class
    has an [info] method whose result has a [uri]. *)
Definition info_uri (x : loc) : M string :=
  let* o := gets (fun w => heap w !! x) in
  match o with
  | Some (OBuddy _) => let* i := Buddy_info x in ret (BuddyInfo.uri i)
  | Some (OAccount _) => let* i := Account_info x in ret (AccountInfo.uri i)
  | Some (OCall _) => let* i := Call_info x in ret (CallInfo.uri i)
  | _ => raise AttributeError
  end.

Definition Lib__associate_buddy (buddy_id : Z) (buddy : loc) : M unit :=
  set_lib (Lib.set_buddy <[buddy_id := buddy]>) ;;
  let* u := info_uri buddy in
  let* e := gets engine in
  let uri := SIPUri___init__ e (Some u) in
  set_lib (Lib.set_buddy_by_uri
             <[tuple_key (SIPUri.user uri) (SIPUri.host uri) := buddy]>).

Definition Lib__lookup_buddy (buddy_id : Z) (uri : option string) : M (option loc) :=
  print [VStr "lookup_buddy, id="; VInt buddy_id] ;;
  let* buddy := gets (fun w => Lib.buddy (lib w) !! buddy_id) in
  if arg_true uri && bool_decide (buddy = None) then
    let* e := gets engine in
    let sip_uri := SIPUri___init__ e uri in
    print [VStr "lookup_buddy, uri="; VStr (SIPUri.user sip_uri);
           VStr (SIPUri.host sip_uri)] ;;
    gets (fun w => Lib.buddy_by_uri (lib w)
                     !! tuple_key (SIPUri.user sip_uri) (SIPUri.host sip_uri))
  else ret buddy.

Definition del_buddy (buddy_id : Z) : M unit :=
  let* d := gets (fun w => Lib.buddy (lib w)) in
  match d !! buddy_id with
  | Some _ => set_lib (Lib.set_buddy (delete buddy_id))
  | None => raise KeyError
  end.

Definition del_buddy_by_uri (k : dict_key) : M unit :=
  let* d := gets (fun w => Lib.buddy_by_uri (lib w)) in
  match d !! k with
  | Some _ => set_lib (Lib.set_buddy_by_uri (delete k))
  | None => raise KeyError
  end.

Definition Lib__disassociate_buddy (buddy : loc) : M unit :=
  let* id := get__id buddy in
  let* found := Lib__lookup_buddy id None in
  (if decide (found = Some buddy) then del_buddy id else ret tt) ;;
  let* uri := info_uri buddy in
  let* d := gets (fun w => Lib.buddy_by_uri (lib w)) in
  if bool_decide (is_Some (d !! str_key uri)) then
    let* uri' := info_uri buddy in
    del_buddy_by_uri (str_key uri')
  else ret tt.

(** ** The wrapper classes *)

(** The callback object made once, when class [Account] is defined:
    [_cb = AccountCallback(None)].  Every account shows it until an
    assignment to [self._cb]. *)
Definition Account__cb : loc := 1%positive.

Definition Account_class : Account.t :=
  {| Account._id := -1; Account._cb := Some Account__cb; Account._obj_name := EmptyString |}.
Definition Call_class : Call.t :=
  {| Call._id := -1; Call._cb := None; Call._obj_name := EmptyString |}.
Definition Buddy_class : Buddy.t :=
  {| Buddy._id := -1; Buddy._cb := None; Buddy._obj_name := EmptyString; Buddy._acc := None |}.

(** Assignments [self.x = v]. *)
Definition Account_set (self : loc) (f : Account.t -> Account.t) : M unit :=
  let* a := Account_get self in set_heap <[self := OAccount (f a)]>.
Definition Call_set (self : loc) (f : Call.t -> Call.t) : M unit :=
  let* c := Call_get self in set_heap <[self := OCall (f c)]>.
Definition Buddy_set (self : loc) (f : Buddy.t -> Buddy.t) : M unit :=
  let* b := Buddy_get self in set_heap <[self := OBuddy (f b)]>.

Definition Account_with_id (v : Z) (a : Account.t) : Account.t :=
  {| Account._id := v; Account._cb := Account._cb a;
     Account._obj_name := Account._obj_name a |}.
Definition Account_with_cb (v : option loc) (a : Account.t) : Account.t :=
  {| Account._id := Account._id a; Account._cb := v;
     Account._obj_name := Account._obj_name a |}.
Definition Account_with_obj_name (v : string) (a : Account.t) : Account.t :=
  {| Account._id := Account._id a; Account._cb := Account._cb a;
     Account._obj_name := v |}.

Definition Call_with_id (v : Z) (c : Call.t) : Call.t :=
  {| Call._id := v; Call._cb := Call._cb c; Call._obj_name := Call._obj_name c |}.
Definition Call_with_cb (v : option loc) (c : Call.t) : Call.t :=
  {| Call._id := Call._id c; Call._cb := v; Call._obj_name := Call._obj_name c |}.
Definition Call_with_obj_name (v : string) (c : Call.t) : Call.t :=
  {| Call._id := Call._id c; Call._cb := Call._cb c; Call._obj_name := v |}.

Definition Buddy_with_id (v : Z) (b : Buddy.t) : Buddy.t :=
  {| Buddy._id := v; Buddy._cb := Buddy._cb b;
     Buddy._obj_name := Buddy._obj_name b; Buddy._acc := Buddy._acc b |}.
Definition Buddy_with_cb (v : option loc) (b : Buddy.t) : Buddy.t :=
  {| Buddy._id := Buddy._id b; Buddy._cb := v;
     Buddy._obj_name := Buddy._obj_name b; Buddy._acc := Buddy._acc b |}.
Definition Buddy_with_obj_name (v : string) (b : Buddy.t) : Buddy.t :=
  {| Buddy._id := Buddy._id b; Buddy._cb := Buddy._cb b;
     Buddy._obj_name := v; Buddy._acc := Buddy._acc b |}.
Definition Buddy_with_acc (v : option loc) (b : Buddy.t) : Buddy.t :=
  {| Buddy._id := Buddy._id b; Buddy._cb := Buddy._cb b;
     Buddy._obj_name := Buddy._obj_name b; Buddy._acc := v |}.

(** *** Account *)

Definition Account___init__ (self : loc) (id : Z) : M unit :=
  (* [_cb = AccountCallback(self)] binds a local name of [__init__] *)
  let* _cb := alloc (OAccountCallback (AccountCallback.__init__ (Some self))) in
  Account_set self (Account_with_id id) ;;
  let* a := Account_get self in
  Lib__associate_account (Account._id a) self ;;
  let* info := Account_info self in
  Account_set self (Account_with_obj_name ("Account " +:+ AccountInfo.uri info)).

(** [Account(lib, id)] *)
Definition Account_new (id : Z) : M loc :=
  let* self := alloc (OAccount Account_class) in
  Account___init__ self id ;;
  ret self.

Definition Account___del__ (self : loc) : M unit :=
  let* a := Account_get self in
  call_method1 (as_object Lib__disassociate_account)
               [VInt (Account._id a); VRef self].

Definition Account_set_callback (self : loc) (cb : option loc) : M unit :=
  match cb with
  | Some c => Account_set self (Account_with_cb (Some c))
  | None =>
      let* c := alloc (OAccountCallback (AccountCallback.__init__ (Some self))) in
      Account_set self (Account_with_cb (Some c))
  end.

(** *** Call *)

Definition Call___init__ (self : loc) (call_id : Z) : M unit :=
  let* cb := alloc (OCallCallback (CallCallback.__init__ (Some self))) in
  Call_set self (Call_with_cb (Some cb)) ;;
  Call_set self (Call_with_id call_id) ;;
  Lib__associate_call call_id self ;;
  let* info := Call_info self in
  Call_set self (Call_with_obj_name ("Call " +:+ CallInfo.remote_uri info)).

(** [Call(lib, call_id)] *)
Definition Call_new (call_id : Z) : M loc :=
  let* self := alloc (OCall Call_class) in
  Call___init__ self call_id ;;
  ret self.

Definition Call___del__ (self : loc) : M unit :=
  let* c := Call_get self in
  call_method1 (as_object Lib__disassociate_call) [VInt (Call._id c); VRef self].

(** [Call.hangup(code, reason)] without headers: the request goes to the
    engine, whose status is checked. *)
Definition Call_hangup (self : loc) (code : Z) (reason : string) : M unit :=
  let* c := Call_get self in
  let* e := gets engine in
  emit (EvCallHangup (Call._id c) code) ;;
  Lib__err_check "hangup()" (Some self) (call_hangup e (Call._id c) code)
    EmptyString.

Definition Call_set_callback (self : loc) (cb : option loc) : M unit :=
  match cb with
  | Some c => Call_set self (Call_with_cb (Some c))
  | None =>
      let* c := alloc (OCallCallback (CallCallback.__init__ (Some self))) in
      Call_set self (Call_with_cb (Some c))
  end.

(** *** Buddy *)

Definition Buddy___init__ (self : loc) (id : Z) (account : loc) : M unit :=
  let* cb := alloc (OBuddyCallback {| BuddyCallback.buddy := Some self |}) in
  Buddy_set self (Buddy_with_cb (Some cb)) ;;
  Buddy_set self (Buddy_with_id id) ;;
  Buddy_set self (Buddy_with_acc (Some account)) ;;
  let* b := Buddy_get self in
  Lib__associate_buddy (Buddy._id b) self ;;
  let* info := Buddy_info self in
  Buddy_set self (Buddy_with_obj_name ("Buddy " +:+ BuddyInfo.uri info)).

(** [Buddy(lib, id, account)] *)
Definition Buddy_new (id : Z) (account : loc) : M loc :=
  let* self := alloc (OBuddy Buddy_class) in
  Buddy___init__ self id account ;;
  ret self.

Definition Buddy___del__ (self : loc) : M unit :=
  call_method1 (as_object Lib__disassociate_buddy) [VRef self].

Definition Buddy_set_callback (self : loc) (cb : option loc) : M unit :=
  match cb with
  | Some c => Buddy_set self (Buddy_with_cb (Some c))
  | None =>
      let* c := alloc (OBuddyCallback {| BuddyCallback.buddy := Some self |}) in
      Buddy_set self (Buddy_with_cb (Some c))
  end.

(** ** Callback dispatch *)

(** [x._cb] where [x] came out of a lookup: [None] has no attribute. *)
Definition Account_cb_of (acc : option loc) : M (option loc) :=
  match acc with
  | Some a => let* o := Account_get a in ret (Account._cb o)
  | None => raise AttributeError
  end.

Definition Call_cb_of (call : option loc) : M (option loc) :=
  match call with
  | Some c => let* o := Call_get c in ret (Call._cb o)
  | None => raise AttributeError
  end.

Definition Buddy_cb_of (buddy : option loc) : M (option loc) :=
  match buddy with
  | Some b => let* o := Buddy_get b in ret (Buddy._cb o)
  | None => raise AttributeError
  end.

(** [cb.on_x]: the handler must be an object with the methods of its
    callback class. *)
Definition AccountCallback_bound (cb : option loc) : M loc :=
  match cb with
  | Some c =>
      let* o := gets (fun w => heap w !! c) in
      match o with
      | Some (OAccountCallback _) => ret c
      | _ => raise AttributeError
      end
  | None => raise AttributeError
  end.

Definition CallCallback_bound (cb : option loc) : M (loc * CallCallback.t) :=
  match cb with
  | Some c =>
      let* o := gets (fun w => heap w !! c) in
      match o with
      | Some (OCallCallback h) => ret (c, h)
      | _ => raise AttributeError
      end
  | None => raise AttributeError
  end.

Definition BuddyCallback_bound (cb : option loc) : M loc :=
  match cb with
  | Some c =>
      let* o := gets (fun w => heap w !! c) in
      match o with
      | Some (OBuddyCallback _) => ret c
      | _ => raise AttributeError
      end
  | None => raise AttributeError
  end.

Definition invoke_account (cb : option loc) (m : AccountCallback_method) : M unit :=
  let* c := AccountCallback_bound cb in emit (EvAccountCb c m).

Definition invoke_call (cb : option loc) (m : CallCallback_method) : M unit :=
  let* ch := CallCallback_bound cb in emit (EvCallCb (fst ch) m).

Definition invoke_buddy (cb : option loc) (m : BuddyCallback_method) : M unit :=
  let* c := BuddyCallback_bound cb in emit (EvBuddyCb c m).

(** *** Account callbacks *)

Definition Lib__cb_on_reg_state (acc_id : Z) : M unit :=
  let* acc := Lib__lookup_account acc_id in
  match acc with
  | Some _ =>
      let* cb := Account_cb_of acc in
      invoke_account cb Acc_on_reg_state
  | None => ret tt
  end.

(** [cb.on_incoming_call(call)] on a handler object: the invocation, and
    the body [call.hangup()] when the method is the one of
    [AccountCallback]. *)
Definition AccountCallback_on_incoming_call (self call : loc) : M unit :=
  let* o := gets (fun w => heap w !! self) in
  match o with
  | Some (OAccountCallback h) =>
      emit (EvAccountCb self (Acc_on_incoming_call call)) ;;
      if AccountCallback.overrides_on_incoming_call h then ret tt
      else Call_hangup call 603 EmptyString
  | _ => raise AttributeError
  end.

Definition Lib__cb_on_incoming_call (acc_id call_id : Z) (rdata : pyval) : M unit :=
  let* acc := Lib__lookup_account acc_id in
  match acc with
  | Some _ =>
      let* cb := Account_cb_of acc in
      let* c := AccountCallback_bound cb in
      let* call := Call_new call_id in
      AccountCallback_on_incoming_call c call
  | None => emit (EvCallHangup call_id 603)
  end.

(** *** Call callbacks *)

Definition Lib__cb_on_call_state (call_id : Z) : M unit :=
  let* call := Lib__lookup_call call_id in
  match call with
  | Some _ => let* cb := Call_cb_of call in invoke_call cb Call_on_state
  | None => ret tt
  end.

Definition Lib__cb_on_call_media_state (call_id : Z) : M unit :=
  let* call := Lib__lookup_call call_id in
  match call with
  | Some _ => let* cb := Call_cb_of call in invoke_call cb Call_on_media_state
  | None => ret tt
  end.

Definition Lib__cb_on_dtmf_digit (call_id : Z) (digits : string) : M unit :=
  let* call := Lib__lookup_call call_id in
  match call with
  | Some _ =>
      let* cb := Call_cb_of call in invoke_call cb (Call_on_dtmf_digit digits)
  | None => ret tt
  end.

Definition Lib__cb_on_call_transfer_request (call_id : Z) (dst : string) (code : Z)
    : M Z :=
  let* call := Lib__lookup_call call_id in
  match call with
  | Some _ =>
      let* cb := Call_cb_of call in
      let* ch := CallCallback_bound cb in
      emit (EvCallCb (fst ch) (Call_on_transfer_request dst code)) ;;
      ret (CallCallback.on_transfer_request (snd ch) dst code)
  | None => ret 603
  end.

Definition Lib__cb_on_call_transfer_status (call_id code : Z) (text : string)
    (final cont : bool) : M bool :=
  let* call := Lib__lookup_call call_id in
  match call with
  | Some _ =>
      let* cb := Call_cb_of call in
      let* ch := CallCallback_bound cb in
      emit (EvCallCb (fst ch) (Call_on_transfer_status code text final cont)) ;;
      ret (CallCallback.on_transfer_status (snd ch) code text final cont)
  | None => ret cont
  end.

Definition Lib__cb_on_call_replace_request (call_id : Z) (rdata : pyval) (code : Z)
    (reason : string) : M (Z * string) :=
  let* call := Lib__lookup_call call_id in
  match call with
  | Some _ =>
      let* cb := Call_cb_of call in
      let* ch := CallCallback_bound cb in
      emit (EvCallCb (fst ch) (Call_on_replace_request code reason)) ;;
      ret (CallCallback.on_replace_request (snd ch) code reason)
  | None => ret (code, reason)
  end.

Definition Lib__cb_on_call_replaced (old_call_id new_call_id : Z) : M unit :=
  let* old_call := Lib__lookup_call old_call_id in
  let* new_call := Lib__lookup_call new_call_id in
  match old_call, new_call with
  | Some _, Some n =>
      let* cb := Call_cb_of old_call in invoke_call cb (Call_on_replaced n)
  | _, _ => ret tt
  end.

(** *** Instant messages and typing indications *)

Definition Lib__cb_on_pager (call_id : Z) (from_uri to_uri contact mime_type
    body : string) (acc_id : Z) : M unit :=
  let* call := (if decide (call_id = -1) then Lib__lookup_call call_id
                else ret None) in
  match call with
  | Some _ =>
      let* cb := Call_cb_of call in invoke_call cb (Call_on_pager mime_type body)
  | None =>
      let* acc := Lib__lookup_account acc_id in
      let* buddy := Lib__lookup_buddy (-1) (Some from_uri) in
      match buddy with
      | Some _ =>
          let* cb := Buddy_cb_of buddy in
          invoke_buddy cb (Buddy_on_pager mime_type body)
      | None =>
          let* cb := Account_cb_of acc in
          invoke_account cb (Acc_on_pager from_uri contact mime_type body)
      end
  end.

Definition Lib__cb_on_pager_status (call_id : Z) (to_uri body : string)
    (user_data code : Z) (reason : string) (acc_id : Z) : M unit :=
  let* call := (if decide (call_id = -1) then Lib__lookup_call call_id
                else ret None) in
  match call with
  | Some _ =>
      let* cb := Call_cb_of call in
      invoke_call cb (Call_on_pager_status body user_data code reason)
  | None =>
      let* acc := Lib__lookup_account acc_id in
      let* buddy := Lib__lookup_buddy (-1) (Some to_uri) in
      match buddy with
      | Some _ =>
          let* cb := Buddy_cb_of buddy in
          invoke_buddy cb (Buddy_on_pager_status body user_data code reason)
      | None =>
          let* cb := Account_cb_of acc in
          invoke_account cb (Acc_on_pager_status to_uri body user_data code reason)
      end
  end.

Definition Lib__cb_on_typing (call_id : Z) (from_uri to_uri contact : string)
    (is_typing : bool) (acc_id : Z) : M unit :=
  let* call := (if decide (call_id = -1) then Lib__lookup_call call_id
                else ret None) in
  match call with
  | Some _ =>
      let* cb := Call_cb_of call in invoke_call cb (Call_on_typing is_typing)
  | None =>
      let* acc := Lib__lookup_account acc_id in
      let* buddy := Lib__lookup_buddy (-1) (Some from_uri) in
      match buddy with
      | Some _ =>
          let* cb := Buddy_cb_of buddy in
          invoke_buddy cb (Buddy_on_typing is_typing)
      | None =>
          let* cb := Account_cb_of acc in
          invoke_account cb (Acc_on_typing from_uri contact is_typing)
      end
  end.

Definition Lib__cb_on_buddy_state (buddy_id : Z) : M unit :=
  let* buddy := Lib__lookup_buddy buddy_id None in
  match buddy with
  | Some _ => let* cb := Buddy_cb_of buddy in invoke_buddy cb Buddy_on_state
  | None => ret tt
  end.

(** ** The registry by entity kind

    The three dictionaries keyed by handle, under one name per operation. *)
Inductive kind := KCall | KAccount | KBuddy.

#[global] Instance kind_eq_dec : EqDecision kind.
Proof. solve_decision. Defined.

Definition register (k : kind) (h : Z) (o : loc) : M unit :=
  match k with
  | KCall => Lib__associate_call h o
  | KAccount => Lib__associate_account h o
  | KBuddy => Lib__associate_buddy h o
  end.

Definition lookup (k : kind) (h : Z) : M (option loc) :=
  match k with
  | KCall => Lib__lookup_call h
  | KAccount => Lib__lookup_account h
  | KBuddy => Lib__lookup_buddy h None
  end.

Definition unregister (k : kind) (o : loc) : M unit :=
  match k with
  | KCall => Lib__disassociate_call o
  | KAccount => Lib__disassociate_account o
  | KBuddy => Lib__disassociate_buddy o
  end.

Definition handle_map (k : kind) (l : Lib.t) : gmap Z loc :=
  match k with
  | KCall => Lib.call l
  | KAccount => Lib.account l
  | KBuddy => Lib.buddy l
  end.

(** [o._id] when [o] is an instance of the class of kind [k]. *)
Definition object_handle (k : kind) (w : World) (o : loc) : option Z :=
  match k, heap w !! o with
  | KCall, Some (OCall c) => Some (Call._id c)
  | KAccount, Some (OAccount a) => Some (Account._id a)
  | KBuddy, Some (OBuddy b) => Some (Buddy._id b)
  | _, _ => None
  end.

Definition has_handle (k : kind) (w : World) (o : loc) (h : Z) : Prop :=
  object_handle k w o = Some h.

(** [o._id] is [h], whatever the class of [o]. *)
Definition carries_handle (w : World) (o : loc) (h : Z) : Prop :=
  heap w !! o ≫= object__id = Some h.

(** ** Worlds to start from *)

(** The world after the module is loaded: the class-level callback of
    [Account] exists and the dictionaries of [Lib] are empty. *)
Definition init_world (e : Engine) : World :=
  {| heap := {[ Account__cb := OAccountCallback (AccountCallback.__init__ None) ]};
     lib := Lib.empty;
     engine := e;
     trace := [];
     stdout := [] |}.

(** [buddy_by_uri] holds tuple keys only. *)
Definition tuple_keys (l : Lib.t) : Prop :=
  forall s : string, Lib.buddy_by_uri l !! str_key s = None.

(** ** A URI parser and an engine to run the code on *)

Module SimpleUri.

(** The text before and after the first [c], when there is one. *)
Fixpoint split_at (c : Ascii.ascii) (s : string) : option (string * string) :=
  match s with
  | EmptyString => None
  | String a s' =>
      if Ascii.eqb a c then Some (EmptyString, s')
      else match split_at c s' with
           | Some (l, r) => Some (String a l, r)
           | None => None
           end
  end.

Fixpoint strip_prefix (p s : string) : option string :=
  match p, s with
  | EmptyString, _ => Some s
  | String a p', String b s' => if Ascii.eqb a b then strip_prefix p' s' else None
  | String _ _, EmptyString => None
  end.

Fixpoint decimal (s : string) (acc : Z) : Z :=
  match s with
  | EmptyString => acc
  | String a s' => decimal s' (10 * acc + (Z.of_nat (Ascii.nat_of_ascii a) - 48))
  end.

Definition transport_of (params : string) : string :=
  match strip_prefix "transport=" params with
  | Some t => match split_at ";"%char t with
              | Some (v, _) => v
              | None => t
              end
  | None => EmptyString
  end.

(** The URI between [<] and [>] when a display name comes first. *)
Definition addr_spec (s : string) : string :=
  match split_at "<"%char s with
  | Some (_, rest) =>
      match split_at ">"%char rest with
      | Some (u, _) => u
      | None => rest
      end
  | None => s
  end.

(** Modelled from the spec: [_pjsua.parse_simple_uri] belongs to the native
    extension module, which the Python file only calls.  The spec has it
    split a URI into a user part and a host part, next to which port and
    transport parameter are separate, and a display name is no part of
    either: here for [scheme:user@host:port;transport=t], every part after
    the host optional, alone or as [name <scheme:...>]. *)
Definition parse (uri : string) : string * string * string * Z * string :=
  match split_at ":"%char (addr_spec uri) with
  | None => (EmptyString, EmptyString, EmptyString, 0, EmptyString)
  | Some (scheme, rest) =>
      let (user, hostpart) :=
        match split_at "@"%char rest with
        | Some (u, h) => (u, h)
        | None => (EmptyString, rest)
        end in
      let (hostport, params) :=
        match split_at ";"%char hostpart with
        | Some (hp, ps) => (hp, ps)
        | None => (hostpart, EmptyString)
        end in
      let (host, port) :=
        match split_at ":"%char hostport with
        | Some (h, p) => (h, decimal p 0)
        | None => (hostport, 0)
        end in
      (scheme, user, host, port, transport_of params)
  end.

End SimpleUri.

(** An engine with one account (handle 0), two buddies (handles 2 and 3) and
    one call (handle 5). *)
Definition demo_engine : Engine :=
  {| parse_simple_uri := SimpleUri.parse;
     buddy_get_info := fun id =>
       if decide (id = 2)
       then Some {| bi_uri := "sip:bob@example.com"; bi_contact := EmptyString |}
       else if decide (id = 3)
       then Some {| bi_uri := "sip:alice@example.com"; bi_contact := EmptyString |}
       else None;
     acc_get_info := fun id =>
       if decide (id = 0) then Some {| ai_acc_uri := "sip:me@example.com" |}
       else None;
     call_get_info := fun id =>
       if decide (id = 5)
       then Some {| ci_acc_id := 0; ci_local_info := "sip:me@example.com";
                    ci_remote_info := "sip:carol@example.com" |}
       else None;
     call_hangup := fun _ _ => 0 |}.

Definition demo_world : World := init_world demo_engine.

(** An exception that escapes [__del__] is reported and ignored. *)
Definition ignoring_exceptions (m : M unit) : M unit :=
  fun w => (Return tt, exec m w).

(** Destruction of a wrapper object runs its [__del__]. *)
Definition destroy (k : kind) (o : loc) : M unit :=
  ignoring_exceptions
    match k with
    | KCall => Call___del__ o
    | KAccount => Account___del__ o
    | KBuddy => Buddy___del__ o
    end.

(** ** Sequences of registry operations *)

Inductive op :=
| Register (k : kind) (h : Z) (o : loc)
| Unregister (k : kind) (o : loc).

Definition run_op (o : op) : M unit :=
  match o with
  | Register k h x => register k h x
  | Unregister k x => unregister k x
  end.

(** Each operation is a call of its own: one that raises does not stop the
    next. *)
Fixpoint run_ops (ops : list op) (w : World) : World :=
  match ops with
  | [] => w
  | o :: rest => run_ops rest (exec (run_op o) w)
  end.

(** An operation that is neither a registration under [(k, h)] nor the
    deregistration of [obj] from kind [k]. *)
Definition leaves (k : kind) (h : Z) (obj : loc) (o : op) : Prop :=
  match o with
  | Register k' h' _ => k' ≠ k \/ h' ≠ h
  | Unregister k' o' => k' ≠ k \/ o' ≠ obj
  end.

(** ** Keys of the URI index and worlds to run the code in *)

(** The key [_associate_buddy] files buddy [id] under: user and host of the
    URI the engine reports for it. *)
Definition buddy_key (e : Engine) (id : Z) : dict_key :=
  let uri := SIPUri___init__ e (Some (BuddyInfo.uri
                                        (BuddyInfo___init__ (buddy_get_info e id)))) in
  tuple_key (SIPUri.user uri) (SIPUri.host uri).

(** The user part and the host part that the engine's parser returns for a
    URI. *)
Definition parsed_user_host (e : Engine) (uri : string) : string * string :=
  let '(_, user, host, _, _) := parse_simple_uri e uri in (user, host).

(** The key a non-empty URI is looked up under. *)
Definition uri_key (e : Engine) (uri : string) : dict_key :=
  let sip_uri := SIPUri___init__ e (Some uri) in
  tuple_key (SIPUri.user sip_uri) (SIPUri.host sip_uri).

(** A world with an account (handle 0, address 2) and a call (handle 5,
    address 4, handler at address 5). *)
Definition call_world : World :=
  exec (let* a := Account_new 0 in Call_new 5) demo_world.

(** A world with an account (handle 0, address 2) and the buddy Bob
    (handle 2, address 4, handler at address 5). *)
Definition bob_world : World :=
  exec (let* a := Account_new 0 in Buddy_new 2 a) demo_world.

(** A world with an account (handle 0, address 2) and the buddy Alice
    (handle 3, address 4). *)
Definition alice_world : World :=
  exec (let* a := Account_new 0 in Buddy_new 3 a) demo_world.

(** A world with an account (handle 0, address 2) and the buddies Bob
    (handle 2, address 4) and Alice (handle 3, address 6). *)
Definition friends_world : World :=
  exec (let* a := Account_new 0 in
        let* b := Buddy_new 2 a in
        Buddy_new 3 a) demo_world.

(** A world with an account (handle 0) and two [Buddy] objects made for the
    same engine handle 2, at addresses 4 and 6. *)
Definition two_buddies_world : World :=
  exec (let* a := Account_new 0 in
        let* A := Buddy_new 2 a in
        Buddy_new 2 a) demo_world.

(** A world with a [Buddy] instance for handle 3 at address 2 that is in no
    dictionary yet. *)
Definition loose_buddy_world : World :=
  exec (let* b := alloc (OBuddy Buddy_class) in Buddy_set b (Buddy_with_id 3))
       demo_world.

(** * More of the wrapper *)

(** ** The callback table

    [Lib.init] installs one module-level function per engine callback; each
    forwards its arguments to the method of [Lib].  A notification is one
    call of such a function by the engine; the result a function hands back
    to the engine is dropped here. *)
Inductive notification :=
| N_on_call_state (call_id : Z)
| N_on_incoming_call (acc_id call_id : Z) (rdata : pyval)
| N_on_call_media_state (call_id : Z)
| N_on_dtmf_digit (call_id : Z) (digits : string)
| N_on_call_transfer_request (call_id : Z) (dst : string) (code : Z)
| N_on_call_transfer_status (call_id code : Z) (reason : string) (final cont : bool)
| N_on_call_replace_request (call_id : Z) (rdata : pyval) (code : Z) (reason : string)
| N_on_call_replaced (old_call_id new_call_id : Z)
| N_on_reg_state (acc_id : Z)
| N_on_buddy_state (buddy_id : Z)
| N_on_pager (call_id : Z) (from_uri to contact mime_type body : string) (acc_id : Z)
| N_on_pager_status (call_id : Z) (to body : string) (user_data status : Z)
    (reason : string) (acc_id : Z)
| N_on_typing (call_id : Z) (from_uri to contact : string) (is_typing : bool)
    (acc_id : Z).

Definition deliver (n : notification) : M unit :=
  match n with
  | N_on_call_state call_id => Lib__cb_on_call_state call_id
  | N_on_incoming_call acc_id call_id rdata =>
      Lib__cb_on_incoming_call acc_id call_id rdata
  | N_on_call_media_state call_id => Lib__cb_on_call_media_state call_id
  | N_on_dtmf_digit call_id digits => Lib__cb_on_dtmf_digit call_id digits
  | N_on_call_transfer_request call_id dst code =>
      Lib__cb_on_call_transfer_request call_id dst code ;; ret tt
  | N_on_call_transfer_status call_id code reason final cont =>
      Lib__cb_on_call_transfer_status call_id code reason final cont ;; ret tt
  | N_on_call_replace_request call_id rdata code reason =>
      Lib__cb_on_call_replace_request call_id rdata code reason ;; ret tt
  | N_on_call_replaced old_call_id new_call_id =>
      Lib__cb_on_call_replaced old_call_id new_call_id
  | N_on_reg_state acc_id => Lib__cb_on_reg_state acc_id
  | N_on_buddy_state buddy_id => Lib__cb_on_buddy_state buddy_id
  | N_on_pager call_id from_uri to contact mime_type body acc_id =>
      Lib__cb_on_pager call_id from_uri to contact mime_type body acc_id
  | N_on_pager_status call_id to body user_data status reason acc_id =>
      Lib__cb_on_pager_status call_id to body user_data status reason acc_id
  | N_on_typing call_id from_uri to contact is_typing acc_id =>
      Lib__cb_on_typing call_id from_uri to contact is_typing acc_id
  end.

(** ** What an application and the engine do to the registry

    Objects are made by their constructors, given handlers, destroyed, and
    notified by the engine. *)
Inductive action :=
| ANewAccount (id : Z)
| ANewCall (call_id : Z)
| ANewBuddy (id : Z) (account : loc)
| ASetCallback (k : kind) (o : loc) (cb : option loc)
| ADestroy (k : kind) (o : loc)
| ANotify (n : notification).

Definition set_callback (k : kind) (o : loc) (cb : option loc) : M unit :=
  match k with
  | KCall => Call_set_callback o cb
  | KAccount => Account_set_callback o cb
  | KBuddy => Buddy_set_callback o cb
  end.

Definition run_action (a : action) : M unit :=
  match a with
  | ANewAccount id => Account_new id ;; ret tt
  | ANewCall call_id => Call_new call_id ;; ret tt
  | ANewBuddy id account => Buddy_new id account ;; ret tt
  | ASetCallback k o cb => set_callback k o cb
  | ADestroy k o => destroy k o
  | ANotify n => deliver n
  end.

(** Each action is a call of its own: one that raises does not stop the
    next. *)
Fixpoint run_actions (acts : list action) (w : World) : World :=
  match acts with
  | [] => w
  | a :: rest => run_actions rest (exec (run_action a) w)
  end.

(** Every entry of a handle dictionary leads to an object of the kind of the
    dictionary whose [_id] is the key. *)
Definition keyed_by_handle (w : World) : Prop :=
  forall (k : kind) (h : Z) (o : loc),
    handle_map k (lib w) !! h = Some o -> has_handle k w o h.

(** The callback object of class [Account] is as the class made it. *)
Definition class_callback_intact (w : World) : Prop :=
  heap w !! Account__cb
  = Some (OAccountCallback (AccountCallback.__init__ None)).


(** The one notification that constructs an object. *)
Definition makes_call (n : notification) : bool :=
  match n with
  | N_on_incoming_call _ _ _ => true
  | _ => false
  end.

(** The registry as every reachable world has it. *)
Definition registry_ok (w : World) : Prop :=
  keyed_by_handle w /\ tuple_keys (lib w) /\ class_callback_intact w.

(** The kind of dictionary a registry operation works on. *)
Definition op_kind (o : op) : kind :=
  match o with
  | Register k _ _ => k
  | Unregister k _ => k
  end.

(** A world with one account (handle 0, address 2) and nothing else. *)
Definition account_world : World := exec (Account_new 0) demo_world.

(** ** Encoding a URI *)

(** [SIPUri.encode].  With a port the method calls [output(self.port)],
    where [output] is the string built so far: a string is not callable. *)
Definition SIPUri_encode (self : SIPUri.t) : outcome string :=
  let output := SIPUri.scheme self +:+ ":" in
  let output :=
    if str_true (SIPUri.user self) && negb (Nat.eqb (String.length (SIPUri.user self)) 0)
    then output +:+ SIPUri.user self +:+ "@"
    else output in
  let output := output +:+ SIPUri.host self in
  if negb (Z.eqb (SIPUri.port self) 0) then Raise TypeError
  else
    let output :=
      if str_true (SIPUri.transport self)
      then output +:+ ";transport=" +:+ SIPUri.transport self
      else output in
    Return output.

(** ** Account configuration *)

Module AuthCred.
Record t := {
  scheme : string; realm : string; username : string; passwd_type : Z;
  passwd : string }.
End AuthCred.

Definition AuthCred___init__ (realm username passwd scheme : string)
    (passwd_type : Z) : AuthCred.t :=
  {| AuthCred.scheme := scheme; AuthCred.realm := realm;
     AuthCred.username := username; AuthCred.passwd_type := passwd_type;
     AuthCred.passwd := passwd |}.

(** The engine's credential and account configuration structures, with the
    fields the wrapper copies. *)
Record Pjsip_Cred_Info := {
  cred_realm : string; cred_scheme : string; cred_username : string;
  cred_data_type : Z; cred_data : string }.

Record Acc_Config := {
  cfg_priority : Z;
  cfg_id : string;
  cfg_force_contact : string;
  cfg_reg_uri : string;
  cfg_reg_timeout : Z;
  cfg_require_100rel : bool;
  cfg_publish_enabled : bool;
  cfg_pidf_tuple_id : string;
  cfg_proxy : list string;
  cfg_cred_info : list Pjsip_Cred_Info;
  cfg_auth_initial_send : bool;
  cfg_auth_initial_algorithm : string;
  cfg_transport_id : Z;
  cfg_allow_contact_rewrite : bool;
  cfg_ka_interval : Z;
  cfg_ka_data : string;
  cfg_use_srtp : Z;
  cfg_srtp_secure_signaling : Z }.

(** The attributes an [AccountConfig] instance has of its own.  [auth_cred]
    is not among them: no method assigns [self.auth_cred], every method
    appends to or reads the one list of the class, which the functions
    below take and give back. *)
Module AccountConfig.
Record t := {
  priority : Z;
  id : string;
  force_contact : string;
  reg_uri : string;
  reg_timeout : Z;
  require_100rel : bool;
  publish_enabled : bool;
  pidf_tuple_id : string;
  proxy : list string;
  auth_initial_send : bool;
  auth_initial_algorithm : string;
  transport_id : Z;
  allow_contact_rewrite : bool;
  ka_interval : Z;
  ka_data : string;
  use_srtp : Z;
  srtp_secure_signaling : Z }.
End AccountConfig.

Definition AccountConfig__cvt_from_pjsua (cfg : Acc_Config)
    (auth_cred : list AuthCred.t) : AccountConfig.t * list AuthCred.t :=
  ({| AccountConfig.priority := cfg_priority cfg;
      AccountConfig.id := cfg_id cfg;
      AccountConfig.force_contact := cfg_force_contact cfg;
      AccountConfig.reg_uri := cfg_reg_uri cfg;
      AccountConfig.reg_timeout := cfg_reg_timeout cfg;
      AccountConfig.require_100rel := cfg_require_100rel cfg;
      AccountConfig.publish_enabled := cfg_publish_enabled cfg;
      AccountConfig.pidf_tuple_id := cfg_pidf_tuple_id cfg;
      AccountConfig.proxy := cfg_proxy cfg;
      AccountConfig.auth_initial_send := cfg_auth_initial_send cfg;
      AccountConfig.auth_initial_algorithm := cfg_auth_initial_algorithm cfg;
      AccountConfig.transport_id := cfg_transport_id cfg;
      AccountConfig.allow_contact_rewrite := cfg_allow_contact_rewrite cfg;
      AccountConfig.ka_interval := cfg_ka_interval cfg;
      AccountConfig.ka_data := cfg_ka_data cfg;
      AccountConfig.use_srtp := cfg_use_srtp cfg;
      AccountConfig.srtp_secure_signaling := cfg_srtp_secure_signaling cfg |},
   auth_cred
   ++ map (fun cred => AuthCred___init__ (cred_realm cred) (cred_username cred)
                         (cred_data cred) (cred_scheme cred) (cred_data_type cred))
        (cfg_cred_info cfg)).

(** [s.find(";lr") == -1] *)
Definition lacks_lr (s : string) : bool :=
  match String.index 0 ";lr" s with
  | Some _ => false
  | None => true
  end.

Definition AccountConfig_build_config (domain username password display registrar
    proxy : string) (self : AccountConfig.t) (auth_cred : list AuthCred.t)
    : AccountConfig.t * list AuthCred.t :=
  let display := if str_true display then display +:+ " " else display in
  let userpart := username in
  let userpart := if str_true userpart then userpart +:+ "@" else userpart in
  let id := display +:+ "<sip:" +:+ userpart +:+ domain +:+ ">" in
  let reg_uri := registrar in
  let reg_uri := if String.eqb reg_uri EmptyString then "sip:" +:+ domain else reg_uri in
  let proxy := if String.eqb proxy EmptyString then "sip:" +:+ domain +:+ ";lr"
               else proxy in
  let proxy := if lacks_lr proxy then proxy +:+ ";lr" else proxy in
  ({| AccountConfig.priority := AccountConfig.priority self;
      AccountConfig.id := id;
      AccountConfig.force_contact := AccountConfig.force_contact self;
      AccountConfig.reg_uri := reg_uri;
      AccountConfig.reg_timeout := AccountConfig.reg_timeout self;
      AccountConfig.require_100rel := AccountConfig.require_100rel self;
      AccountConfig.publish_enabled := AccountConfig.publish_enabled self;
      AccountConfig.pidf_tuple_id := AccountConfig.pidf_tuple_id self;
      AccountConfig.proxy := AccountConfig.proxy self ++ [proxy];
      AccountConfig.auth_initial_send := AccountConfig.auth_initial_send self;
      AccountConfig.auth_initial_algorithm := AccountConfig.auth_initial_algorithm self;
      AccountConfig.transport_id := AccountConfig.transport_id self;
      AccountConfig.allow_contact_rewrite := AccountConfig.allow_contact_rewrite self;
      AccountConfig.ka_interval := AccountConfig.ka_interval self;
      AccountConfig.ka_data := AccountConfig.ka_data self;
      AccountConfig.use_srtp := AccountConfig.use_srtp self;
      AccountConfig.srtp_secure_signaling := AccountConfig.srtp_secure_signaling self |},
   if str_true username
   then auth_cred ++ [AuthCred___init__ "*" username password "Digest" 0]
   else auth_cred).

(** [AccountConfig(domain, username, password, display, registrar, proxy)];
    [default] is what [_pjsua.acc_config_default()] returns. *)
Definition AccountConfig___init__ (default : Acc_Config) (domain username password
    display registrar proxy : string) (auth_cred : list AuthCred.t)
    : AccountConfig.t * list AuthCred.t :=
  let (self, auth_cred) := AccountConfig__cvt_from_pjsua default auth_cred in
  if str_true domain
  then AccountConfig_build_config domain username password display registrar proxy
         self auth_cred
  else (self, auth_cred).

Definition AccountConfig__cvt_to_pjsua (default : Acc_Config) (self : AccountConfig.t)
    (auth_cred : list AuthCred.t) : Acc_Config :=
  {| cfg_priority := AccountConfig.priority self;
     cfg_id := AccountConfig.id self;
     cfg_force_contact := AccountConfig.force_contact self;
     cfg_reg_uri := AccountConfig.reg_uri self;
     cfg_reg_timeout := AccountConfig.reg_timeout self;
     cfg_require_100rel := AccountConfig.require_100rel self;
     cfg_publish_enabled := AccountConfig.publish_enabled self;
     cfg_pidf_tuple_id := AccountConfig.pidf_tuple_id self;
     cfg_proxy := AccountConfig.proxy self;
     cfg_cred_info :=
       cfg_cred_info default
       ++ map (fun cred => {| cred_realm := AuthCred.realm cred;
                              cred_scheme := AuthCred.scheme cred;
                              cred_username := AuthCred.username cred;
                              cred_data_type := AuthCred.passwd_type cred;
                              cred_data := AuthCred.passwd cred |}) auth_cred;
     cfg_auth_initial_send := AccountConfig.auth_initial_send self;
     cfg_auth_initial_algorithm := AccountConfig.auth_initial_algorithm self;
     cfg_transport_id := AccountConfig.transport_id self;
     cfg_allow_contact_rewrite := AccountConfig.allow_contact_rewrite self;
     cfg_ka_interval := AccountConfig.ka_interval self;
     cfg_ka_data := AccountConfig.ka_data self;
     cfg_use_srtp := AccountConfig.use_srtp self;
     cfg_srtp_secure_signaling := AccountConfig.srtp_secure_signaling self |}.

(** No explicit proxy, registrar or display name. *)
Definition AccountConfig_for (default : Acc_Config) (domain username password : string)
    (auth_cred : list AuthCred.t) : AccountConfig.t * list AuthCred.t :=
  AccountConfig___init__ default domain username password EmptyString EmptyString
    EmptyString auth_cred.

(** The credential structure [_cvt_to_pjsua] makes of an [AuthCred]. *)
Definition cred_info_of (cred : AuthCred.t) : Pjsip_Cred_Info :=
  {| cred_realm := AuthCred.realm cred; cred_scheme := AuthCred.scheme cred;
     cred_username := AuthCred.username cred;
     cred_data_type := AuthCred.passwd_type cred; cred_data := AuthCred.passwd cred |}.

(** A default configuration as the engine might hand it out. *)
Definition demo_acc_config : Acc_Config :=
  {| cfg_priority := 0; cfg_id := EmptyString; cfg_force_contact := EmptyString;
     cfg_reg_uri := EmptyString; cfg_reg_timeout := 55; cfg_require_100rel := false;
     cfg_publish_enabled := false; cfg_pidf_tuple_id := EmptyString;
     cfg_proxy := []; cfg_cred_info := []; cfg_auth_initial_send := false;
     cfg_auth_initial_algorithm := EmptyString; cfg_transport_id := -1;
     cfg_allow_contact_rewrite := true; cfg_ka_interval := 15;
     cfg_ka_data := EmptyString; cfg_use_srtp := 0; cfg_srtp_secure_signaling := 1 |}.

(** ** Codec parameters *)

(** The engine's codec parameter structure. *)
Record Codec_Param_Info := {
  info_clock_rate : Z; info_channel_count : Z; info_avg_bps : Z;
  info_frm_ptime : Z; info_pt : Z }.
Record Codec_Param_Setting := {
  setting_frm_per_pkt : Z; setting_vad : bool; setting_plc : bool }.
Record Codec_Param := { cp_info : Codec_Param_Info; cp_setting : Codec_Param_Setting }.

Module CodecParameter.
Record t := {
  ptime : Z; vad_enabled : bool; plc_enabled : bool; _codec_param : Codec_Param }.
End CodecParameter.

Definition CodecParameter___init__ (codec_param : Codec_Param) : CodecParameter.t :=
  {| CodecParameter.ptime :=
       info_frm_ptime (cp_info codec_param)
       * setting_frm_per_pkt (cp_setting codec_param);
     CodecParameter.vad_enabled := setting_vad (cp_setting codec_param);
     CodecParameter.plc_enabled := setting_plc (cp_setting codec_param);
     CodecParameter._codec_param := codec_param |}.

(** [_cvt_to_pjsua] writes into the structure the object holds and returns
    that structure; the result is the object as it is afterwards and the
    structure.  [/] on integers rounds down and raises [ZeroDivisionError]
    on a zero divisor, here [None]. *)
Definition CodecParameter__cvt_to_pjsua (self : CodecParameter.t)
    : option (CodecParameter.t * Codec_Param) :=
  let cp := CodecParameter._codec_param self in
  if Z.eqb (info_frm_ptime (cp_info cp)) 0 then None
  else
    let cp' :=
      {| cp_info := cp_info cp;
         cp_setting :=
           {| setting_frm_per_pkt :=
                CodecParameter.ptime self / info_frm_ptime (cp_info cp);
              setting_vad := CodecParameter.vad_enabled self;
              setting_plc := CodecParameter.plc_enabled self |} |} in
    Some ({| CodecParameter.ptime := CodecParameter.ptime self;
             CodecParameter.vad_enabled := CodecParameter.vad_enabled self;
             CodecParameter.plc_enabled := CodecParameter.plc_enabled self;
             CodecParameter._codec_param := cp' |}, cp').

(** [param.ptime = v] *)
Definition CodecParameter_with_ptime (v : Z) (self : CodecParameter.t)
    : CodecParameter.t :=
  {| CodecParameter.ptime := v;
     CodecParameter.vad_enabled := CodecParameter.vad_enabled self;
     CodecParameter.plc_enabled := CodecParameter.plc_enabled self;
     CodecParameter._codec_param := CodecParameter._codec_param self |}.


(** ** The life cycle of the library instance

    [Lib.__init__], [Lib.start], [Lib.destroy] and the worker thread talk to
    each other through the module global [_lib] and the attributes [_quit]
    and [_has_thread] of the instance.  This part has a state of its own.
    An instance is finalised when the application drops its last reference
    ([Lib___del__]) or when its construction fails ([Lib_new]). *)

(** The calls into [_pjsua] that the main thread makes. *)
Inductive pjsua_call :=
| pj_create
| pj_destroy
| pj_start
| pj_handle_events (msec : Z)
| pj_player_get_conf_port (player_id : Z)
| pj_recorder_get_conf_port (rec_id : Z).

(** [_lib] is the module global.  [_quit] and [_has_thread] are the instance
    dictionaries of the two attributes: class [Lib] sets both to [False], and
    an instance has an entry of its own once a method has assigned to
    [self._quit] or [self._has_thread].  [workers] counts the worker threads
    that were started and have not left their loop, [calls] lists the calls of
    the main thread into the engine, oldest first. *)
Record Process := {
  _lib : option loc;
  _quit : gmap loc Z;
  _has_thread : gmap loc bool;
  workers : nat;
  calls : list pjsua_call }.

Definition init_process : Process :=
  {| _lib := None; _quit := ∅; _has_thread := ∅; workers := 0%nat;
     calls := [] |}.

(** Attribute reads fall back to the class attribute; [False == 0]. *)
Definition Lib__quit (self : loc) (p : Process) : Z :=
  default 0 (_quit p !! self).

Definition Lib__has_thread (self : loc) (p : Process) : bool :=
  default false (_has_thread p !! self).

Definition call_pjsua (c : pjsua_call) (p : Process) : Process :=
  {| _lib := _lib p; _quit := _quit p; _has_thread := _has_thread p;
     workers := workers p; calls := calls p ++ [c] |}.

Definition set__lib (v : option loc) (p : Process) : Process :=
  {| _lib := v; _quit := _quit p; _has_thread := _has_thread p;
     workers := workers p; calls := calls p |}.

Definition set__quit (self : loc) (v : Z) (p : Process) : Process :=
  {| _lib := _lib p; _quit := <[self := v]> (_quit p);
     _has_thread := _has_thread p; workers := workers p; calls := calls p |}.

Definition set__has_thread (self : loc) (v : bool) (p : Process) : Process :=
  {| _lib := _lib p; _quit := _quit p;
     _has_thread := <[self := v]> (_has_thread p); workers := workers p;
     calls := calls p |}.

Definition set_workers (n : nat) (p : Process) : Process :=
  {| _lib := _lib p; _quit := _quit p; _has_thread := _has_thread p;
     workers := n; calls := calls p |}.

(** [_err_check] reads nothing of the instance it is called on. *)
Definition _err_check (op_name : string) (obj : option loc) (err_code : Z)
    (err_msg : string) : outcome unit :=
  if decide (err_code ≠ 0) then Raise (Error op_name obj err_code err_msg)
  else Return tt.

(** [Lib.__init__] on the new instance [self], where [err] is what
    [_pjsua.create()] answers.  An instance of [Lib] is true. *)
Definition Lib___init__ (self : loc) (err : Z) (p : Process)
    : outcome unit * Process :=
  match _lib p with
  | Some _ =>
      (Raise (Error "__init()__" None (-1) "Library instance already exist"),
       p)
  | None =>
      let p := call_pjsua pj_create p in
      match _err_check "_pjsua.create()" None err EmptyString with
      | Raise e => (Raise e, p)
      | Return _ => (Return tt, set__lib (Some self) p)
      end
  end.

(** [Lib.__del__], run when the last reference to an instance goes. *)
Definition Lib___del__ (p : Process) : Process := call_pjsua pj_destroy p.

(** [Lib()]: an instance whose [__init__] raised is referenced by nobody
    once the exception is dealt with, and is finalised. *)
Definition Lib_new (self : loc) (err : Z) (p : Process)
    : outcome unit * Process :=
  match Lib___init__ self err p with
  | (Return _, p') => (Return tt, p')
  | (Raise e, p') => (Raise e, Lib___del__ p')
  end.

(** [Lib.start], where [err] is what [_pjsua.start()] answers;
    [thread.start_new] puts one more worker into its loop.  A worker that
    the engine refuses to register raises before the loop; for the main
    thread it is a worker that never gets its turn. *)
Definition Lib_start (self : loc) (with_thread : bool) (err : Z) (p : Process)
    : outcome unit * Process :=
  let p := call_pjsua pj_start p in
  match _err_check "start()" (Some self) err EmptyString with
  | Raise e => (Raise e, p)
  | Return _ =>
      let p := set__has_thread self with_thread p in
      if Lib__has_thread self p
      then (Return tt, set_workers (S (workers p)) p)
      else (Return tt, p)
  end.

(** One turn of a worker thread in the loop of [_worker_thread_main]: with no
    library instance the read of [_lib._quit] raises and ends the thread;
    while [_lib._quit] is 0 the thread stays in the loop; otherwise it leaves
    the loop, sets [_lib._quit] to 2 and ends. *)
Definition _worker_thread_main (p : Process) : Process :=
  match workers p with
  | O => p
  | S n =>
      match _lib p with
      | None => set_workers n p
      | Some l =>
          if decide (Lib__quit l p = 0) then p
          else set_workers n (set__quit l 2 p)
      end
  end.

(** The loop of [Lib.destroy].  [sched i] tells whether a worker thread has
    its turn before the loop condition is evaluated with [loop = i]; the loop
    is cut after [fuel] evaluations of its condition. *)
Fixpoint Lib_destroy_while (fuel : nat) (sched : nat -> bool) (self : loc)
    (loop : Z) (p : Process) : option Process :=
  match fuel with
  | O => None
  | S fuel' =>
      let p := if sched (Z.to_nat loop) then _worker_thread_main p else p in
      if decide (Lib__quit self p ≠ 2 ∧ loop < 400)
      then Lib_destroy_while fuel' sched self (loop + 1)
             (call_pjsua (pj_handle_events 50) p)
      else Some p
  end.

Definition Lib_destroy (fuel : nat) (sched : nat -> bool) (self : loc)
    (p : Process) : option Process :=
  let r := if Lib__has_thread self p
           then Lib_destroy_while fuel sched self 0 (set__quit self 1 p)
           else Some p in
  match r with
  | Some p => Some (set__lib None (call_pjsua pj_destroy p))
  | None => None
  end.

(** [slot] is what the engine answers. *)
Definition Lib_player_get_slot (self : loc) (player_id slot : Z) (p : Process)
    : outcome Z * Process :=
  let p := call_pjsua (pj_player_get_conf_port player_id) p in
  match _err_check "player_get_slot()" (Some self) (-1) "Invalid player id" with
  | Raise e => (Raise e, p)
  | Return _ => (Return slot, p)
  end.

Definition Lib_recorder_get_slot (self : loc) (rec_id slot : Z) (p : Process)
    : outcome Z * Process :=
  let p := call_pjsua (pj_recorder_get_conf_port rec_id) p in
  match _err_check "recorder_get_slot()" (Some self) (-1)
          "Invalid recorder id" with
  | Raise e => (Raise e, p)
  | Return _ => (Return slot, p)
  end.

(** A process in which instance 1 was created and started with a worker
    thread. *)
Definition started_process : Process :=
  snd (Lib_start 1%positive true 0
         (snd (Lib_new 1%positive 0 init_process))).

(** * Proofs *)

Create HintDb py discriminated.

#[local] Hint Unfold value exec bind ret raise gets set_lib set_heap emit print
  alloc ignoring_exceptions : py.
#[local] Hint Unfold Lib__associate_call Lib__lookup_call del_call
  Lib__disassociate_call Lib__associate_account Lib__lookup_account del_account
  Lib__disassociate_account Lib__associate_buddy Lib__lookup_buddy del_buddy
  del_buddy_by_uri Lib__disassociate_buddy : py.
#[local] Hint Unfold Account_get Call_get Buddy_get Buddy_info Account_info
  Call_info Lib__err_check Account_cb_of Call_cb_of Buddy_cb_of
  AccountCallback_bound CallCallback_bound BuddyCallback_bound
  invoke_account invoke_call invoke_buddy call_method1 as_object : py.

#[local] Hint Unfold register lookup unregister handle_map run_op : py.
#[local] Hint Unfold get__id : py.

Ltac py := repeat (progress (autounfold with py in *; simpl in * )).

(** [x.info().uri] reads the engine and the account dictionary and changes
    nothing. *)
Lemma info_uri_eq (x : loc) (w : World) :
  info_uri x w = (fst (info_uri x w), w).
Proof.
  unfold info_uri. py.
  destruct (heap w !! x) as [[a|c|b| | |]|] eqn:E; simpl; try reflexivity;
    rewrite E; simpl.
  - destruct (acc_get_info (engine w) (Account._id a)); simpl; reflexivity.
  - destruct (call_get_info (engine w) (Call._id c)); simpl; reflexivity.
  - reflexivity.
Qed.

Lemma info_uri_buddy (b : loc) (o : Buddy.t) (w : World) :
  heap w !! b = Some (OBuddy o) ->
  info_uri b w
  = (Return (BuddyInfo.uri
               (BuddyInfo___init__ (buddy_get_info (engine w) (Buddy._id o)))),
     w).
Proof. intros H. unfold info_uri. py. rewrite H. simpl. by rewrite H. Qed.

(** One step of the code: use what is known of a lookup, or split on it. *)
Ltac step :=
  match goal with
  | H : ?x = _ |- context [match ?x with _ => _ end] => rewrite H
  | H : heap _ !! ?x = Some (OBuddy ?b) |- context [info_uri ?x ?w] =>
      rewrite (info_uri_buddy x b w H)
  | |- context [info_uri ?x ?w] =>
      rewrite (info_uri_eq x w); destruct (fst (info_uri x w))
  | |- context [?m !! ?k ≫= object__id] => destruct (m !! k) as [[]|] eqn:?
  | |- context [decide ?P] => destruct (decide P)
  | |- context [bool_decide ?P] => destruct (bool_decide P) eqn:?
  | |- context [match ?m !! ?k with _ => _ end] => destruct (m !! k) eqn:?
  | |- context [match ?o with OAccount _ => _ | _ => _ end] => destruct o
  end; simpl in *.

Ltac steps := py; repeat step.

(** Case analysis on every value the code branches on. *)
Ltac crack :=
  repeat (simpl in *;
          match goal with
          | H : ?x = _ |- context [match ?x with _ => _ end] => rewrite H
          | |- context [match ?x with _ => _ end] =>
              lazymatch x with
              | context [match _ with _ => _ end] => fail
              | _ => destruct x eqn:?
              end
          end).

(** ** Reading and writing the handle dictionaries *)

Lemma lookup_value (k : kind) (h : Z) (w : World) :
  value (lookup k h) w = Return (handle_map k (lib w) !! h).
Proof. destruct k; reflexivity. Qed.

Lemma register_handle_map (k : kind) (h : Z) (o : loc) (w : World) :
  handle_map k (lib (exec (register k h o) w)) = <[h := o]> (handle_map k (lib w)).
Proof.
  destruct k; py; try reflexivity.
  repeat step; reflexivity.
Qed.

Lemma register_other_kind (k k' : kind) (h : Z) (o : loc) (w : World) :
  k' ≠ k ->
  handle_map k (lib (exec (register k' h o) w)) = handle_map k (lib w).
Proof.
  intros Hk. destruct k, k'; try congruence; py; try reflexivity;
    repeat step; reflexivity.
Qed.

Lemma has_handle_carries (k : kind) (w : World) (o : loc) (h : Z) :
  has_handle k w o h -> carries_handle w o h.
Proof.
  unfold has_handle, object_handle, carries_handle.
  destruct k, (heap w !! o) as [[]|]; simpl; congruence.
Qed.

Lemma unregister_handle_map (k : kind) (o : loc) (w : World) :
  handle_map k (lib (exec (unregister k o) w)) =
  match heap w !! o ≫= object__id with
  | Some h =>
      if decide (handle_map k (lib w) !! h = Some o)
      then delete h (handle_map k (lib w))
      else handle_map k (lib w)
  | None => handle_map k (lib w)
  end.
Proof.
  destruct k; py; destruct (heap w !! o ≫= object__id); simpl;
    repeat step; try reflexivity; try congruence.
Qed.

Lemma unregister_other_kind (k k' : kind) (o : loc) (w : World) :
  k' ≠ k ->
  handle_map k (lib (exec (unregister k' o) w)) = handle_map k (lib w).
Proof.
  intros Hk. destruct k, k'; try congruence; steps; reflexivity.
Qed.

(** An operation that leaves [(k, h)] alone keeps what is registered there. *)
Lemma leaves_keeps (k : kind) (h : Z) (obj : loc) (o : op) (w : World) :
  leaves k h obj o ->
  handle_map k (lib w) !! h = Some obj ->
  handle_map k (lib (exec (run_op o) w)) !! h = Some obj.
Proof.
  intros Hl Hw. destruct o as [k' h' o'|k' o']; simpl in Hl |- *.
  - destruct (decide (k' = k)) as [->|Hk].
    + destruct Hl as [Hl|Hl]; [done|].
      rewrite register_handle_map, lookup_insert_ne; done.
    + rewrite register_other_kind; done.
  - destruct (decide (k' = k)) as [->|Hk].
    + destruct Hl as [Hl|Hl]; [done|].
      rewrite unregister_handle_map.
      destruct (heap w !! o' ≫= object__id) as [h0|]; [|done].
      case_decide as Hd; [|done].
      rewrite lookup_delete_ne; [done|].
      intros ->. congruence.
    + rewrite unregister_other_kind; done.
Qed.

Lemma run_ops_keeps (k : kind) (h : Z) (obj : loc) (ops : list op) :
  Forall (leaves k h obj) ops ->
  forall w, handle_map k (lib w) !! h = Some obj ->
            handle_map k (lib (run_ops ops w)) !! h = Some obj.
Proof.
  induction 1 as [|o ops Ho _ IH]; intros w Hw; simpl; [done|].
  apply IH. by apply leaves_keeps.
Qed.

(** C4. Whatever was registered before, after [register k h obj] the lookup
    of [h] in kind [k] returns [obj], and goes on returning it through any
    later operations that neither register under [(k, h)] again nor
    deregister [obj]; the lookup of a handle without an entry returns [None]
    and does not raise. *)
Theorem lookup_returns_last_registered (k : kind) (h : Z) (obj : loc)
    (w : World) (ops : list op) :
  Forall (leaves k h obj) ops ->
  value (lookup k h) (run_ops ops (exec (register k h obj) w))
  = Return (Some obj)
  /\ (forall h' : Z, handle_map k (lib w) !! h' = None ->
                     value (lookup k h') w = Return None).
Proof.
  intros Hops. split.
  - rewrite lookup_value. f_equal.
    apply run_ops_keeps; [done|].
    rewrite register_handle_map. apply lookup_insert_eq.
  - intros h' Hh. rewrite lookup_value. by rewrite Hh.
Qed.

Lemma lookup_returns_last_registered_witness :
  Forall (leaves KBuddy 2 4%positive)
         [Register KBuddy 3 6%positive; Register KCall 2 6%positive;
          Unregister KBuddy 6%positive]
  /\ value (lookup KBuddy 2)
       (run_ops [Register KBuddy 3 6%positive; Register KCall 2 6%positive;
                 Unregister KBuddy 6%positive]
                (exec (register KBuddy 2 4%positive) friends_world))
     = Return (Some 4%positive)
  /\ value (lookup KBuddy 9) friends_world = Return None.
Proof.
  assert (H : Forall (leaves KBuddy 2 4%positive)
                [Register KBuddy 3 6%positive; Register KCall 2 6%positive;
                 Unregister KBuddy 6%positive]).
  { constructor; [right; lia|].
    constructor; [left; discriminate|].
    constructor; [right; discriminate|].
    constructor. }
  split; [exact H|]. split.
  - exact (proj1 (lookup_returns_last_registered KBuddy 2 4%positive friends_world _ H)).
  - apply (proj2 (lookup_returns_last_registered KBuddy 2 4%positive friends_world _ H)).
    vm_compute; reflexivity.
Defined.

(** ** Sequencing *)

Lemma bind_Return {A B} (m : M A) (k : A -> M B) (w : World) (a : A) :
  value m w = Return a -> bind m k w = k a (exec m w).
Proof.
  unfold value, exec, bind. destruct (m w) as [[a'|e] w']; simpl; congruence.
Qed.

Lemma run_Return {A} (m : M A) (w : World) (a : A) :
  value m w = Return a -> m w = (Return a, exec m w).
Proof. unfold value, exec. destruct (m w); simpl; congruence. Qed.

(** ** The registry operations leave the heap alone *)

Lemma register_heap (k : kind) (h : Z) (o : loc) (w : World) :
  heap (exec (register k h o) w) = heap w.
Proof. destruct k; steps; reflexivity. Qed.

Lemma unregister_heap (k : kind) (o : loc) (w : World) :
  heap (exec (unregister k o) w) = heap w.
Proof. destruct k; steps; reflexivity. Qed.

Lemma register_object_handle (k k' : kind) (h : Z) (o x : loc) (w : World) :
  object_handle k (exec (register k' h o) w) x = object_handle k w x.
Proof. unfold object_handle. by rewrite register_heap. Qed.

Lemma register_returns (k : kind) (h h' : Z) (o : loc) (w : World) :
  has_handle k w o h' -> value (register k h o) w = Return tt.
Proof.
  unfold has_handle, object_handle. intros H.
  destruct k, (heap w !! o) as [[]|] eqn:E; try discriminate; steps;
    reflexivity.
Qed.

Lemma unregister_returns (k : kind) (h : Z) (o : loc) (w : World) :
  has_handle k w o h -> value (unregister k o) w = Return tt.
Proof.
  unfold has_handle, object_handle. intros H.
  destruct k, (heap w !! o) as [[]|] eqn:E; try discriminate; py;
    rewrite ?E; simpl; repeat step; try reflexivity; try congruence.
Qed.

(** ** The keys of [buddy_by_uri] *)

Lemma tuple_keys_init (e : Engine) : tuple_keys (lib (init_world e)).
Proof. intros s. apply lookup_empty. Qed.

Lemma register_buddy_by_uri (k : kind) (h : Z) (o : loc) (w : World) (s : string) :
  Lib.buddy_by_uri (lib (exec (register k h o) w)) !! str_key s
  = Lib.buddy_by_uri (lib w) !! str_key s.
Proof.
  destruct k; steps; try reflexivity.
  apply lookup_insert_ne. discriminate.
Qed.

(** Deregistration asks [buddy_by_uri] for a string, finds nothing under it
    and removes nothing. *)
Lemma unregister_buddy_by_uri (k : kind) (o : loc) (w : World) :
  tuple_keys (lib w) ->
  Lib.buddy_by_uri (lib (exec (unregister k o) w)) = Lib.buddy_by_uri (lib w).
Proof.
  intros Ht. destruct k; steps; try reflexivity;
    match goal with
    | H : Lib.buddy_by_uri (lib w) !! str_key ?s = Some _ |- _ =>
        rewrite (Ht s) in H; discriminate
    end.
Qed.

Lemma tuple_keys_run_op (o : op) (w : World) :
  tuple_keys (lib w) -> tuple_keys (lib (exec (run_op o) w)).
Proof.
  intros Ht s. destruct o as [k h x|k x]; simpl.
  - rewrite register_buddy_by_uri. apply Ht.
  - rewrite unregister_buddy_by_uri; [apply Ht | done].
Qed.

Lemma tuple_keys_run_ops (ops : list op) (w : World) :
  tuple_keys (lib w) -> tuple_keys (lib (run_ops ops w)).
Proof.
  revert w. induction ops as [|o ops IH]; intros w Ht; simpl; [done|].
  apply IH. by apply tuple_keys_run_op.
Qed.

Lemma Lib_eq (l1 l2 : Lib.t) :
  (forall k, handle_map k l1 = handle_map k l2) ->
  Lib.buddy_by_uri l1 = Lib.buddy_by_uri l2 ->
  l1 = l2.
Proof.
  intros Hm Hu. destruct l1, l2; simpl in *.
  pose proof (Hm KCall). pose proof (Hm KAccount). pose proof (Hm KBuddy).
  simpl in *. congruence.
Qed.

(** Deregistration of an object that its handle is not mapped to changes no
    handle dictionary. *)
Lemma unregister_stale (k k' : kind) (h : Z) (o : loc) (w : World) :
  handle_map k (lib w) !! h ≠ Some o ->
  has_handle k w o h ->
  handle_map k' (lib (exec (unregister k o) w)) = handle_map k' (lib w).
Proof.
  intros Hne Hh. destruct (decide (k = k')) as [<-|Hk].
  - rewrite unregister_handle_map, (has_handle_carries _ _ _ _ Hh).
    by case_decide.
  - by apply unregister_other_kind.
Qed.

(** C5. With two objects [A] and [B] of kind [k] that carry the same handle
    [h], after [register k h A] and [register k h B] the call
    [unregister k A] returns normally, changes none of the handle
    dictionaries (nor, from a world whose URI index has tuple keys only, any
    other part of the registry), and the lookup of [h] still returns [B].
    In any world, [unregister k o] changes the dictionary of kind [k] only
    when the [_id] of [o], an object of whatever class, is mapped to [o]
    itself, and then by removing that entry. *)
Theorem stale_unregister_is_noop (k : kind) (h : Z) (A B : loc) (w : World) :
  A ≠ B ->
  has_handle k w A h ->
  has_handle k w B h ->
  let w2 := exec (register k h A ;; register k h B) w in
  value (register k h A ;; register k h B ;; unregister k A) w = Return tt
  /\ (forall k', handle_map k' (lib (exec (unregister k A) w2))
                 = handle_map k' (lib w2))
  /\ (tuple_keys (lib w) -> lib (exec (unregister k A) w2) = lib w2)
  /\ value (lookup k h) (exec (unregister k A) w2) = Return (Some B)
  /\ (forall (w' : World) (o : loc),
        handle_map k (lib (exec (unregister k o) w')) ≠ handle_map k (lib w') ->
        exists h', carries_handle w' o h'
                   /\ handle_map k (lib w') !! h' = Some o
                   /\ handle_map k (lib (exec (unregister k o) w'))
                      = delete h' (handle_map k (lib w'))).
Proof.
  intros Hne HA HB w2.
  assert (Hw2 : (register k h A ;; register k h B) w
                = (Return tt, exec (register k h B) (exec (register k h A) w))).
  { rewrite (bind_Return _ _ _ tt) by (by eapply register_returns).
    apply run_Return. eapply register_returns. unfold has_handle.
    rewrite register_object_handle. exact HB. }
  assert (Hmap : handle_map k (lib w2) !! h = Some B).
  { unfold w2, exec at 1. rewrite Hw2. simpl.
    rewrite register_handle_map. apply lookup_insert_eq. }
  assert (HA2 : has_handle k w2 A h).
  { unfold w2, exec at 1, has_handle. rewrite Hw2. simpl.
    by rewrite !register_object_handle. }
  assert (Hmaps : forall k', handle_map k' (lib (exec (unregister k A) w2))
                             = handle_map k' (lib w2)).
  { intros k'. apply (unregister_stale k k' h); [|done].
    rewrite Hmap. congruence. }
  repeat split.
  - unfold value.
    rewrite (bind_Return _ _ _ tt) by (by eapply register_returns).
    rewrite (bind_Return _ _ _ tt).
    + fold (value (unregister k A) (exec (register k h B) (exec (register k h A) w))).
      eapply unregister_returns.
      unfold w2, exec at 1 in HA2. rewrite Hw2 in HA2. exact HA2.
    + eapply register_returns. unfold has_handle.
      rewrite register_object_handle. exact HB.
  - exact Hmaps.
  - intros Ht. apply Lib_eq; [exact Hmaps|].
    apply unregister_buddy_by_uri.
    unfold w2, exec at 1. rewrite Hw2. simpl.
    intros s. rewrite !register_buddy_by_uri. apply Ht.
  - rewrite lookup_value, Hmaps, Hmap. reflexivity.
  - intros w' o Hch. rewrite unregister_handle_map in Hch |- *.
    unfold carries_handle.
    destruct (heap w' !! o ≫= object__id) as [h'|]; [|done].
    case_decide; [|done]. by exists h'.
Qed.

(** The class of the object is not looked at: a [Buddy] object (handle 2,
    address 4) filed in the call dictionary under its handle is removed by
    [_disassociate_call]. *)
Example disassociate_call_of_a_buddy :
  Lib.call (lib (exec (Lib__associate_call 2 4%positive) bob_world)) !! 2
  = Some 4%positive
  /\ Lib.call (lib (exec (Lib__associate_call 2 4%positive ;;
                          Lib__disassociate_call 4%positive) bob_world)) !! 2
     = None.
Proof. split; vm_compute; reflexivity. Qed.

Lemma stale_unregister_is_noop_witness :
  has_handle KBuddy two_buddies_world 4%positive 2
  /\ has_handle KBuddy two_buddies_world 6%positive 2
  /\ value (register KBuddy 2 4%positive ;; register KBuddy 2 6%positive ;;
            unregister KBuddy 4%positive) two_buddies_world = Return tt
  /\ value (lookup KBuddy 2)
       (exec (unregister KBuddy 4%positive)
          (exec (register KBuddy 2 4%positive ;; register KBuddy 2 6%positive)
                two_buddies_world))
     = Return (Some 6%positive).
Proof.
  assert (HA : has_handle KBuddy two_buddies_world 4%positive 2)
    by (vm_compute; reflexivity).
  assert (HB : has_handle KBuddy two_buddies_world 6%positive 2)
    by (vm_compute; reflexivity).
  assert (Hne : 4%positive ≠ 6%positive) by discriminate.
  pose proof (stale_unregister_is_noop KBuddy 2 4%positive 6%positive
                two_buddies_world Hne HA HB) as (H1 & _ & _ & H4 & _).
  repeat split; assumption.
Defined.

(** ** The URI index of buddies *)

Lemma associate_buddy_run (id id' : Z) (b : loc) (w : World) :
  has_handle KBuddy w b id' ->
  Lib__associate_buddy id b w
  = (Return tt,
     {| heap := heap w;
        lib := Lib.set_buddy_by_uri <[buddy_key (engine w) id' := b]>
                 (Lib.set_buddy <[id := b]> (lib w));
        engine := engine w; trace := trace w; stdout := stdout w |}).
Proof.
  unfold has_handle, object_handle. intros H.
  destruct (heap w !! b) as [[| |o| | |]|] eqn:E; try discriminate.
  injection H as <-. unfold Lib__associate_buddy. py.
  step. reflexivity.
Qed.

Lemma lookup_buddy_by_uri_run (id : Z) (u : string) (w : World) :
  str_true u = true ->
  value (Lib__lookup_buddy id (Some u)) w
  = Return (match Lib.buddy (lib w) !! id with
            | Some b => Some b
            | None => Lib.buddy_by_uri (lib w) !! uri_key (engine w) u
            end).
Proof.
  intros Hu. unfold Lib__lookup_buddy, uri_key. py. rewrite Hu. simpl.
  destruct (Lib.buddy (lib w) !! id); reflexivity.
Qed.

Lemma disassociate_buddy_run (id : Z) (b : loc) (w : World) :
  has_handle KBuddy w b id ->
  tuple_keys (lib w) ->
  Lib__disassociate_buddy b w
  = (Return tt,
     {| heap := heap w;
        lib := if decide (Lib.buddy (lib w) !! id = Some b)
               then Lib.set_buddy (delete id) (lib w) else lib w;
        engine := engine w; trace := trace w;
        stdout := stdout w ++ [[VStr "lookup_buddy, id="; VInt id]] |}).
Proof.
  unfold has_handle, object_handle. intros H Ht.
  destruct (heap w !! b) as [[| |o| | |]|] eqn:E; try discriminate.
  injection H as <-. py. rewrite E. simpl.
  repeat step; try reflexivity; try congruence;
    match goal with
    | H : Lib.buddy_by_uri (lib w) !! str_key ?s = Some _ |- _ =>
        rewrite (Ht s) in H; discriminate
    end.
Qed.

Lemma uri_key_parsed (e : Engine) (u : string) :
  str_true u = true -> uri_key e u = inl (parsed_user_host e u).
Proof.
  intros H. unfold uri_key, SIPUri___init__, SIPUri_decode, parsed_user_host.
  rewrite H. by destruct (parse_simple_uri e u) as [[[[? ?] ?] ?] ?].
Qed.

Lemma buddy_key_parsed (e : Engine) (bid : Z) (bi : pjsua_buddy_info) :
  buddy_get_info e bid = Some bi ->
  str_true (bi_uri bi) = true ->
  buddy_key e bid = inl (parsed_user_host e (bi_uri bi)).
Proof.
  intros Hb H. unfold buddy_key. rewrite Hb. simpl.
  by apply (uri_key_parsed e (bi_uri bi)).
Qed.

(** C8. The URI index is keyed by the user part and the host part that the
    engine's parser returns for a URI, and by nothing else of the URI.  Two
    non-empty URIs with the same user and host get the same answer from
    [_lookup_buddy], whatever the handle and the world.  After
    [_associate_buddy] of a buddy whose URI has user [user] and host [host],
    a lookup with the "no buddy" handle [-1] returns that buddy for every
    URI with that user and that host, so for two such URIs the same buddy;
    for a URI that differs in the user or in the host it returns what the
    index held before under the other pair, not the buddy. *)
Theorem buddy_lookup_by_user_and_host (w : World) (u1 u2 : string) :
  str_true u1 = true ->
  str_true u2 = true ->
  parsed_user_host (engine w) u1 = parsed_user_host (engine w) u2 ->
  (forall id : Z, value (Lib__lookup_buddy id (Some u1)) w
                  = value (Lib__lookup_buddy id (Some u2)) w)
  /\ (forall (b : loc) (h bid : Z) (bi : pjsua_buddy_info),
        has_handle KBuddy w b bid ->
        buddy_get_info (engine w) bid = Some bi ->
        str_true (bi_uri bi) = true ->
        h ≠ -1 ->
        Lib.buddy (lib w) !! (-1) = None ->
        let w1 := exec (Lib__associate_buddy h b) w in
        (parsed_user_host (engine w) (bi_uri bi)
         = parsed_user_host (engine w) u1 ->
         value (Lib__lookup_buddy (-1) (Some u1)) w1 = Return (Some b)
         /\ value (Lib__lookup_buddy (-1) (Some u2)) w1 = Return (Some b))
        /\ (forall u : string,
              str_true u = true ->
              value (Lib__lookup_buddy (-1) (Some u)) w1
              = Return
                  (if decide (parsed_user_host (engine w) u
                              = parsed_user_host (engine w) (bi_uri bi))
                   then Some b
                   else Lib.buddy_by_uri (lib w)
                          !! tuple_key (parsed_user_host (engine w) u).1
                                       (parsed_user_host (engine w) u).2))).
Proof.
  intros H1 H2 Hk. split.
  - intros id. rewrite !lookup_buddy_by_uri_run by done.
    by rewrite !uri_key_parsed, Hk.
  - intros b h bid bi Hb Hbi Hu Hh Hs w1.
    assert (Hany : forall u : string,
              str_true u = true ->
              value (Lib__lookup_buddy (-1) (Some u)) w1
              = Return
                  (if decide (parsed_user_host (engine w) u
                              = parsed_user_host (engine w) (bi_uri bi))
                   then Some b
                   else Lib.buddy_by_uri (lib w)
                          !! tuple_key (parsed_user_host (engine w) u).1
                                       (parsed_user_host (engine w) u).2)).
    { intros u Hnz. unfold w1, exec.
      rewrite (associate_buddy_run h bid b w Hb). simpl.
      rewrite lookup_buddy_by_uri_run by done. simpl.
      rewrite lookup_insert_ne, Hs by done.
      rewrite (buddy_key_parsed _ _ _ Hbi Hu), uri_key_parsed by done.
      case_decide as Heq.
      - by rewrite Heq, lookup_insert_eq.
      - rewrite lookup_insert_ne by congruence.
        unfold tuple_key. by destruct (parsed_user_host (engine w) u). }
    split; [|exact Hany].
    intros Hsame. rewrite !Hany by done.
    rewrite <- Hk, decide_True by done. done.
Qed.

(** C9. From a world whose URI index has tuple keys only (every world the
    registry operations lead to), [_disassociate_buddy b] leaves
    [buddy_by_uri] as it was.  So after [_associate_buddy id b] and
    [_disassociate_buddy b] the buddy is gone from the handle dictionary
    but still filed under its user and host, and a lookup by a URI with
    that user and host still returns it. *)
Theorem disassociate_buddy_keeps_uri_index (w : World) (b : loc) (id : Z) :
  tuple_keys (lib w) ->
  has_handle KBuddy w b id ->
  Lib.buddy_by_uri (lib (exec (Lib__disassociate_buddy b) w))
  = Lib.buddy_by_uri (lib w)
  /\ let w1 := exec (Lib__associate_buddy id b) w in
     let w2 := exec (Lib__disassociate_buddy b) w1 in
     value (Lib__disassociate_buddy b) w1 = Return tt
     /\ Lib.buddy (lib w2) !! id = None
     /\ Lib.buddy_by_uri (lib w2) = Lib.buddy_by_uri (lib w1)
     /\ Lib.buddy_by_uri (lib w2) !! buddy_key (engine w) id = Some b
     /\ (forall u : string,
           str_true u = true ->
           uri_key (engine w) u = buddy_key (engine w) id ->
           Lib.buddy (lib w) !! (-1) = None ->
           value (Lib__lookup_buddy (-1) (Some u)) w2 = Return (Some b)).
Proof.
  intros Ht Hb. split.
  - by apply (unregister_buddy_by_uri KBuddy).
  - intros w1 w2.
    assert (Hw1 : w1 = {| heap := heap w;
                          lib := Lib.set_buddy_by_uri <[buddy_key (engine w) id := b]>
                                   (Lib.set_buddy <[id := b]> (lib w));
                          engine := engine w; trace := trace w; stdout := stdout w |}).
    { unfold w1, exec. by rewrite (associate_buddy_run id id b w Hb). }
    assert (Hb1 : has_handle KBuddy w1 b id) by (by rewrite Hw1).
    assert (Ht1 : tuple_keys (lib w1)).
    { rewrite Hw1. intros s. simpl. rewrite lookup_insert_ne by discriminate.
      apply Ht. }
    assert (Hw2 : Lib__disassociate_buddy b w1
                  = (Return tt,
                     {| heap := heap w1;
                        lib := Lib.set_buddy (delete id) (lib w1);
                        engine := engine w1; trace := trace w1;
                        stdout := stdout w1 ++ [[VStr "lookup_buddy, id="; VInt id]] |})).
    { rewrite (disassociate_buddy_run id b w1 Hb1 Ht1).
      rewrite decide_True; [done|].
      rewrite Hw1. simpl. apply lookup_insert_eq. }
    unfold w2, value, exec. rewrite Hw2. simpl.
    split; [done|]. split; [apply lookup_delete_eq|]. split; [done|].
    split; [rewrite Hw1; simpl; apply lookup_insert_eq|].
    intros u Hu Hk Hs.
    fold (value (Lib__lookup_buddy (-1) (Some u))
            {| heap := heap w1; lib := Lib.set_buddy (delete id) (lib w1);
               engine := engine w1; trace := trace w1;
               stdout := stdout w1 ++ [[VStr "lookup_buddy, id="; VInt id]] |}).
    rewrite lookup_buddy_by_uri_run by done. simpl.
    rewrite Hw1. simpl. rewrite Hk, lookup_insert_eq.
    destruct (decide (id = -1)) as [->|Hne].
    + by rewrite lookup_delete_eq.
    + by rewrite lookup_delete_ne, lookup_insert_ne, Hs.
Qed.

Lemma buddy_lookup_by_user_and_host_witness :
  parsed_user_host (engine loose_buddy_world)
    "sip:alice@example.com:5060;transport=tcp"
  = parsed_user_host (engine loose_buddy_world)
      "Alice <sip:alice@example.com>"
  /\ value (Lib__lookup_buddy (-1)
              (Some "sip:alice@example.com:5060;transport=tcp"))
       (exec (Lib__associate_buddy 3 2%positive) loose_buddy_world)
     = Return (Some 2%positive)
  /\ value (Lib__lookup_buddy (-1) (Some "Alice <sip:alice@example.com>"))
       (exec (Lib__associate_buddy 3 2%positive) loose_buddy_world)
     = Return (Some 2%positive)
  /\ value (Lib__lookup_buddy (-1) (Some "sip:alice@example.com"))
       (exec (Lib__associate_buddy 3 2%positive) loose_buddy_world)
     = Return (Some 2%positive)
  /\ value (Lib__lookup_buddy (-1) (Some "sip:alice@example.org"))
       (exec (Lib__associate_buddy 3 2%positive) loose_buddy_world)
     = Return None
  /\ value (Lib__lookup_buddy (-1) (Some "sip:bob@example.com"))
       (exec (Lib__associate_buddy 3 2%positive) loose_buddy_world)
     = Return None.
Proof.
  assert (Hk : parsed_user_host (engine loose_buddy_world)
                 "sip:alice@example.com:5060;transport=tcp"
               = parsed_user_host (engine loose_buddy_world)
                   "Alice <sip:alice@example.com>")
    by (vm_compute; reflexivity).
  destruct (buddy_lookup_by_user_and_host loose_buddy_world
              "sip:alice@example.com:5060;transport=tcp"
              "Alice <sip:alice@example.com>" eq_refl eq_refl Hk)
    as [_ Hfound].
  destruct (Hfound 2%positive 3 3
              {| bi_uri := "sip:alice@example.com"; bi_contact := EmptyString |})
    as [Hboth Hany].
  - vm_compute; reflexivity.
  - reflexivity.
  - reflexivity.
  - lia.
  - vm_compute; reflexivity.
  - split; [exact Hk|].
    split; [apply Hboth; vm_compute; reflexivity|].
    split; [apply Hboth; vm_compute; reflexivity|].
    split; [exact (Hany "sip:alice@example.com" eq_refl)|].
    split; [exact (Hany "sip:alice@example.org" eq_refl)|].
    exact (Hany "sip:bob@example.com" eq_refl).
Defined.

Lemma disassociate_buddy_keeps_uri_index_witness :
  tuple_keys (lib loose_buddy_world)
  /\ has_handle KBuddy loose_buddy_world 2%positive 3
  /\ Lib.buddy (lib (exec (Lib__disassociate_buddy 2%positive)
                       (exec (Lib__associate_buddy 3 2%positive) loose_buddy_world)))
     !! 3 = None
  /\ value (Lib__lookup_buddy (-1) (Some "sip:alice@example.com;transport=tcp"))
       (exec (Lib__disassociate_buddy 2%positive)
          (exec (Lib__associate_buddy 3 2%positive) loose_buddy_world))
     = Return (Some 2%positive).
Proof.
  assert (Ht : tuple_keys (lib loose_buddy_world)) by (intros s; apply lookup_empty).
  assert (Hb : has_handle KBuddy loose_buddy_world 2%positive 3)
    by (vm_compute; reflexivity).
  destruct (disassociate_buddy_keeps_uri_index loose_buddy_world 2%positive 3 Ht Hb)
    as (_ & _ & Hgone & _ & _ & Hstill).
  split; [exact Ht|]. split; [exact Hb|]. split; [exact Hgone|].
  apply Hstill; vm_compute; reflexivity.
Defined.

(** ** Dispatch of instant messages *)

(** C3. When no call context applies (the handle is not [-1], or no call is
    registered under [-1]) and the sender's URI decodes to a user and host a
    buddy is filed under, [_cb_on_pager] invokes at most one handler, and
    that is [on_pager] of a buddy handler, never one of an account; with no
    buddy under the "no buddy" handle [-1] and a handler installed on the
    buddy found by URI, it returns normally after invoking exactly that
    handler. *)
Theorem pager_goes_to_buddy_not_account (w : World) (call_id : Z)
    (from_uri to_uri contact mime_type body : string) (acc_id : Z) (b : loc) :
  (call_id = -1 -> Lib.call (lib w) !! (-1) = None) ->
  str_true from_uri = true ->
  Lib.buddy_by_uri (lib w) !! uri_key (engine w) from_uri = Some b ->
  let m := Lib__cb_on_pager call_id from_uri to_uri contact mime_type body acc_id in
  (trace (exec m w) = trace w
   \/ exists cb, trace (exec m w)
                 = trace w ++ [EvBuddyCb cb (Buddy_on_pager mime_type body)])
  /\ (forall (o : Buddy.t) (cb : loc) (h : BuddyCallback.t),
        Lib.buddy (lib w) !! (-1) = None ->
        heap w !! b = Some (OBuddy o) ->
        Buddy._cb o = Some cb ->
        heap w !! cb = Some (OBuddyCallback h) ->
        value m w = Return tt
        /\ trace (exec m w) = trace w ++ [EvBuddyCb cb (Buddy_on_pager mime_type body)]).
Proof.
  intros Hcall Hu Hb m. unfold m, Lib__cb_on_pager.
  unfold uri_key in Hb. simpl in Hb. rewrite Hu in Hb.
  split.
  - destruct (decide (call_id = -1)) as [->|Hne]; py; rewrite ?Hcall by done;
      rewrite Hu; simpl.
    + destruct (Lib.buddy (lib w) !! (-1)) as [b'|] eqn:Hb'; simpl;
        [|rewrite Hb; simpl]; crack; eauto.
    + destruct (Lib.buddy (lib w) !! (-1)) as [b'|] eqn:Hb'; simpl;
        [|rewrite Hb; simpl]; crack; eauto.
  - intros o cb h Hs Ho Hcb Hh.
    destruct (decide (call_id = -1)) as [->|Hne]; py; rewrite ?Hcall by done;
      rewrite Hu, Hs; simpl; rewrite Hb; crack; done.
Qed.

Lemma pager_goes_to_buddy_not_account_witness :
  Lib.account (lib bob_world) !! 0 = Some 2%positive
  /\ Lib.buddy_by_uri (lib bob_world) !! uri_key (engine bob_world) "sip:bob@example.com"
     = Some 4%positive
  /\ value (Lib__cb_on_pager (-1) "sip:bob@example.com" "sip:me@example.com"
              "sip:bob@192.0.2.7" "text/plain" "hello" 0) bob_world
     = Return tt
  /\ trace (exec (Lib__cb_on_pager (-1) "sip:bob@example.com" "sip:me@example.com"
                    "sip:bob@192.0.2.7" "text/plain" "hello" 0) bob_world)
     = trace bob_world ++ [EvBuddyCb 5%positive (Buddy_on_pager "text/plain" "hello")].
Proof.
  assert (Hb : Lib.buddy_by_uri (lib bob_world)
               !! uri_key (engine bob_world) "sip:bob@example.com" = Some 4%positive)
    by (vm_compute; reflexivity).
  assert (Hc : -1 = -1 -> Lib.call (lib bob_world) !! (-1) = None)
    by (intros _; vm_compute; reflexivity).
  destruct (pager_goes_to_buddy_not_account bob_world (-1) "sip:bob@example.com"
              "sip:me@example.com" "sip:bob@192.0.2.7" "text/plain" "hello" 0
              4%positive Hc eq_refl Hb) as [_ Hto].
  split; [vm_compute; reflexivity|]. split; [exact Hb|].
  apply (Hto {| Buddy._id := 2; Buddy._cb := Some 5%positive;
                Buddy._obj_name := "Buddy sip:bob@example.com";
                Buddy._acc := Some 2%positive |}
             5%positive {| BuddyCallback.buddy := Some 4%positive |});
    vm_compute; reflexivity.
Defined.

(** ** Notifications for a call that is not registered *)

(** C7 fails for transfer requests: with no call under handle 1 and a
    suggested code of 202, the dispatcher answers 603. *)
Lemma transfer_request_unknown_call_returns_603 :
  Lib.call (lib demo_world) !! 1 = None
  /\ value (Lib__cb_on_call_transfer_request 1 "sip:dave@example.com" 202) demo_world
     = Return 603
  /\ value (Lib__cb_on_call_transfer_request 1 "sip:dave@example.com" 202) demo_world
     ≠ Return 202.
Proof. split; [reflexivity|]. split; [reflexivity|]. discriminate. Qed.

(** C7, amended. For a call handle without a registered call the three
    dispatchers invoke no handler and change nothing: the transfer request
    is answered with the fixed code 603, whatever code the engine suggests;
    the transfer status returns the incoming [cont]; the replace request
    returns the incoming code and reason. *)
Theorem unknown_call_defaults (w : World) (call_id : Z) :
  Lib.call (lib w) !! call_id = None ->
  (forall (dst : string) (code : Z),
      Lib__cb_on_call_transfer_request call_id dst code w = (Return 603, w))
  /\ (forall (code : Z) (text : string) (final cont : bool),
        Lib__cb_on_call_transfer_status call_id code text final cont w
        = (Return cont, w))
  /\ (forall (rdata : pyval) (code : Z) (reason : string),
        Lib__cb_on_call_replace_request call_id rdata code reason w
        = (Return (code, reason), w)).
Proof.
  intros Hc. repeat split; intros;
    unfold Lib__cb_on_call_transfer_request, Lib__cb_on_call_transfer_status,
      Lib__cb_on_call_replace_request; py; rewrite Hc; reflexivity.
Qed.

Lemma unknown_call_defaults_witness :
  Lib.call (lib bob_world) !! 9 = None
  /\ Lib__cb_on_call_transfer_request 9 "sip:dave@example.com" 202 bob_world
     = (Return 603, bob_world)
  /\ Lib__cb_on_call_transfer_status 9 200 "OK" true false bob_world
     = (Return false, bob_world)
  /\ Lib__cb_on_call_replace_request 9 VNone 200 "OK" bob_world
     = (Return (200, "OK"), bob_world).
Proof.
  assert (Hc : Lib.call (lib bob_world) !! 9 = None) by (vm_compute; reflexivity).
  destruct (unknown_call_defaults bob_world 9 Hc) as (H1 & H2 & H3).
  split; [exact Hc|]. split; [apply H1|]. split; [apply H2|apply H3].
Defined.

(** ** Construction of wrapper objects *)

(** The address [alloc] hands out is not in use. *)
Lemma fresh_not_used (hp : gmap loc object) (l : loc) (o : object) :
  hp !! l = Some o -> fresh (dom hp) ≠ l.
Proof.
  intros Hl Heq. apply (is_fresh (dom hp)). rewrite Heq.
  apply elem_of_dom. eauto.
Qed.

Lemma Account_new_run (w : World) (id : Z) (ai : pjsua_acc_info) :
  acc_get_info (engine w) id = Some ai ->
  let a := fresh (dom (heap w)) in
  let hp1 := <[a := OAccount Account_class]> (heap w) in
  let c := fresh (dom hp1) in
  Account_new id w
  = (Return a,
     {| heap := <[a := OAccount {| Account._id := id;
                                   Account._cb := Some Account__cb;
                                   Account._obj_name :=
                                     "Account " +:+ ai_acc_uri ai |}]>
                  (<[a := OAccount (Account_with_id id Account_class)]>
                     (<[c := OAccountCallback (AccountCallback.__init__ (Some a))]>
                        hp1));
        lib := Lib.set_account <[id := a]> (lib w);
        engine := engine w; trace := trace w; stdout := stdout w |}).
Proof.
  intros Hai a hp1 c.
  assert (Hca : c ≠ a).
  { apply (fresh_not_used hp1 a (OAccount Account_class)). apply lookup_insert_eq. }
  unfold Account_new, Account___init__, Account_set, Account_info. py.
  fold a. fold hp1. fold c.
  rewrite lookup_insert_ne by done. unfold hp1 at 1. rewrite lookup_insert_eq. simpl.
  rewrite lookup_insert_eq. simpl.
  rewrite lookup_insert_eq. simpl.
  rewrite Hai. simpl.
  rewrite lookup_insert_eq. simpl.
  reflexivity.
Qed.

Lemma Call_new_run (w : World) (call_id : Z) (ci : pjsua_call_info) :
  call_get_info (engine w) call_id = Some ci ->
  exists (w' : World) (x : Call.t),
    Call_new call_id w = (Return (fresh (dom (heap w))), w')
    /\ trace w' = trace w
    /\ engine w' = engine w
    /\ heap w' !! fresh (dom (heap w)) = Some (OCall x)
    /\ Call._id x = call_id
    /\ (forall (l : loc) (o : object),
          heap w !! l = Some o -> heap w' !! l = Some o).
Proof.
  intros Hci.
  set (c := fresh (dom (heap w))).
  set (hp1 := <[c := OCall Call_class]> (heap w)).
  assert (Hcb : fresh (dom hp1) ≠ c).
  { apply (fresh_not_used hp1 c (OCall Call_class)). apply lookup_insert_eq. }
  unfold Call_new, Call___init__, Call_set, Call_info, CallInfo___init__,
    CallInfo__cvt_from_pjsua. py.
  fold c. fold hp1.
  rewrite lookup_insert_ne by done. unfold hp1 at 1. rewrite lookup_insert_eq. simpl.
  rewrite lookup_insert_eq. simpl.
  rewrite lookup_insert_eq. simpl.
  rewrite Hci. simpl.
  rewrite lookup_insert_eq. simpl.
  eexists _, _. split; [reflexivity|]. simpl.
  split; [reflexivity|]. split; [reflexivity|].
  split; [apply lookup_insert_eq|]. split; [reflexivity|].
  intros l o Hl.
  assert (Hlc : c ≠ l) by (by eapply fresh_not_used).
  assert (Hl1 : fresh (dom hp1) ≠ l).
  { eapply fresh_not_used. unfold hp1. rewrite lookup_insert_ne by done.
    exact Hl. }
  rewrite !(lookup_insert_ne _ c l) by done.
  rewrite lookup_insert_ne by done.
  unfold hp1. by rewrite lookup_insert_ne.
Qed.

(** What [on_incoming_call] of a handler does with a call. *)
Lemma on_incoming_call_run (cb call : loc) (h : AccountCallback.t)
    (x : Call.t) (w : World) :
  heap w !! cb = Some (OAccountCallback h) ->
  heap w !! call = Some (OCall x) ->
  AccountCallback_on_incoming_call cb call w
  = if AccountCallback.overrides_on_incoming_call h
    then (Return tt, exec (emit (EvAccountCb cb (Acc_on_incoming_call call))) w)
    else (if decide (call_hangup (engine w) (Call._id x) 603 ≠ 0)
          then Raise (Error "hangup()" (Some call)
                        (call_hangup (engine w) (Call._id x) 603) EmptyString)
          else Return tt,
          exec (emit (EvAccountCb cb (Acc_on_incoming_call call)) ;;
                emit (EvCallHangup (Call._id x) 603)) w).
Proof.
  intros Hcb Hcall. unfold AccountCallback_on_incoming_call, Call_hangup. py.
  rewrite Hcb. simpl.
  destruct (AccountCallback.overrides_on_incoming_call h); simpl;
    [reflexivity|].
  rewrite Hcall. simpl. case_decide; reflexivity.
Qed.

(** C10. A newly constructed account is registered under its handle and
    shows, as its [_cb], the callback object of the class, whose [account]
    is [None]; the [AccountCallback(self)] made by the constructor sits at
    another address and is installed nowhere.  A registration-state or
    incoming-call notification for the new account therefore invokes the
    class-level handler; for an incoming call its [on_incoming_call] is the
    method of [AccountCallback], which asks the engine to hang the new call
    up with status 603 and raises [Error] when the engine refuses. *)
Theorem new_account_shows_class_callback (w : World) (id : Z) (ai : pjsua_acc_info) :
  heap w !! Account__cb
  = Some (OAccountCallback (AccountCallback.__init__ None)) ->
  acc_get_info (engine w) id = Some ai ->
  let a := fresh (dom (heap w)) in
  let c := fresh (dom (<[a := OAccount Account_class]> (heap w))) in
  let w1 := exec (Account_new id) w in
  value (Account_new id) w = Return a
  /\ value (Lib__lookup_account id) w1 = Return (Some a)
  /\ value (Account_cb_of (Some a)) w1 = Return (Some Account__cb)
  /\ heap w1 !! Account__cb
     = Some (OAccountCallback (AccountCallback.__init__ None))
  /\ (c ≠ Account__cb
      /\ heap w1 !! c = Some (OAccountCallback (AccountCallback.__init__ (Some a))))
  /\ (value (Lib__cb_on_reg_state id) w1 = Return tt
      /\ trace (exec (Lib__cb_on_reg_state id) w1)
         = trace w1 ++ [EvAccountCb Account__cb Acc_on_reg_state])
  /\ (forall (call_id : Z) (rdata : pyval) (ci : pjsua_call_info),
        call_get_info (engine w) call_id = Some ci ->
        trace (exec (Lib__cb_on_incoming_call id call_id rdata) w1)
        = trace w1 ++ [EvAccountCb Account__cb
                         (Acc_on_incoming_call (fresh (dom (heap w1))));
                       EvCallHangup call_id 603]
        /\ value (Lib__cb_on_incoming_call id call_id rdata) w1
           = if decide (call_hangup (engine w) call_id 603 ≠ 0)
             then Raise (Error "hangup()" (Some (fresh (dom (heap w1))))
                           (call_hangup (engine w) call_id 603) EmptyString)
             else Return tt).
Proof.
  intros Hcls Hai a c w1.
  assert (Ha : a ≠ Account__cb) by (by eapply fresh_not_used).
  assert (Hc : c ≠ Account__cb).
  { eapply fresh_not_used. rewrite lookup_insert_ne by done. exact Hcls. }
  assert (Hca : c ≠ a).
  { apply (fresh_not_used _ a (OAccount Account_class)). apply lookup_insert_eq. }
  pose proof (Account_new_run w id ai Hai) as Hrun. simpl in Hrun.
  fold a in Hrun. fold c in Hrun.
  assert (Hcls1 : heap w1 !! Account__cb
                  = Some (OAccountCallback (AccountCallback.__init__ None))).
  { unfold w1, exec. rewrite Hrun. simpl. by rewrite !lookup_insert_ne. }
  assert (Hacc1 : heap w1 !! a
                  = Some (OAccount {| Account._id := id;
                                      Account._cb := Some Account__cb;
                                      Account._obj_name := "Account " +:+ ai_acc_uri ai |})).
  { unfold w1, exec. rewrite Hrun. simpl. by rewrite lookup_insert_eq. }
  assert (Hreg1 : Lib.account (lib w1) !! id = Some a).
  { unfold w1, exec. rewrite Hrun. simpl. by rewrite lookup_insert_eq. }
  split; [unfold value; by rewrite Hrun|].
  split; [unfold value, Lib__lookup_account; py; by rewrite Hreg1|].
  split; [unfold value; py; by rewrite Hacc1|].
  split; [exact Hcls1|].
  split.
  { split; [exact Hc|]. unfold w1, exec. rewrite Hrun. simpl.
    by rewrite !(lookup_insert_ne _ a c), lookup_insert_eq. }
  split.
  { unfold Lib__cb_on_reg_state. py.
    rewrite Hreg1. simpl. rewrite Hacc1. simpl. rewrite Hcls1. simpl. done. }
  intros call_id rdata ci Hci.
  assert (Hci1 : call_get_info (engine w1) call_id = Some ci).
  { unfold w1, exec. rewrite Hrun. exact Hci. }
  assert (He1 : engine w1 = engine w).
  { unfold w1, exec. by rewrite Hrun. }
  destruct (Call_new_run w1 call_id ci Hci1)
    as (w' & x & Hnew & Htr & He & Hx & Hid & Hkeep).
  assert (Hon := on_incoming_call_run Account__cb (fresh (dom (heap w1)))
                   _ x w' (Hkeep _ _ Hcls1) Hx).
  simpl in Hon. rewrite Hid, He, He1 in Hon.
  unfold Lib__cb_on_incoming_call, value, exec, bind, Lib__lookup_account, gets.
  simpl. rewrite Hreg1. unfold Account_cb_of, Account_get, AccountCallback_bound.
  py. rewrite Hacc1. simpl. rewrite Hcls1. simpl.
  rewrite Hnew. simpl. rewrite Hon. simpl. rewrite Htr, <- app_assoc.
  split; [reflexivity|]. by case_decide.
Qed.

Lemma new_account_shows_class_callback_witness :
  acc_get_info (engine demo_world) 0 = Some {| ai_acc_uri := "sip:me@example.com" |}
  /\ value (Account_new 0) demo_world = Return 2%positive
  /\ value (Account_cb_of (Some 2%positive)) (exec (Account_new 0) demo_world)
     = Return (Some Account__cb)
  /\ heap (exec (Account_new 0) demo_world) !! Account__cb
     = Some (OAccountCallback (AccountCallback.__init__ None))
  /\ trace (exec (Lib__cb_on_reg_state 0) (exec (Account_new 0) demo_world))
     = [EvAccountCb Account__cb Acc_on_reg_state]
  /\ trace (exec (Lib__cb_on_incoming_call 0 5 VNone)
              (exec (Account_new 0) demo_world))
     = [EvAccountCb Account__cb (Acc_on_incoming_call 4%positive);
        EvCallHangup 5 603]
  /\ value (Lib__cb_on_incoming_call 0 5 VNone)
       (exec (Account_new 0) demo_world)
     = Return tt.
Proof.
  destruct (new_account_shows_class_callback demo_world 0
              {| ai_acc_uri := "sip:me@example.com" |} eq_refl eq_refl)
    as (Hnew & _ & Hcb & Hcls & _ & [_ Hreg] & Hinc).
  destruct (Hinc 5 VNone
              {| ci_acc_id := 0; ci_local_info := "sip:me@example.com";
                 ci_remote_info := "sip:carol@example.com" |} eq_refl)
    as [Htr Hval].
  split; [reflexivity|]. split; [exact Hnew|]. split; [exact Hcb|].
  split; [exact Hcls|]. split; [exact Hreg|].
  split; [exact Htr|exact Hval].
Defined.

(** ** Where the code departs from its documentation *)

(** With a call handle other than [-1] the message dispatchers never look a
    call up: whatever is registered, the notification goes to a buddy or an
    account handler, or to none. *)
Lemma pager_with_call_handle_skips_call (w : World) (call_id : Z)
    (from_uri to_uri contact mime_type body : string) (acc_id : Z) :
  call_id ≠ -1 ->
  let w' := exec (Lib__cb_on_pager call_id from_uri to_uri contact mime_type body
                    acc_id) w in
  trace w' = trace w
  \/ (exists cb, trace w' = trace w ++ [EvBuddyCb cb (Buddy_on_pager mime_type body)])
  \/ (exists cb, trace w'
                 = trace w ++ [EvAccountCb cb (Acc_on_pager from_uri contact
                                                 mime_type body)]).
Proof.
  intros Hne. unfold Lib__cb_on_pager. py.
  rewrite decide_False by done. crack; eauto.
Qed.

(** C1, at a failing input. A call with a handler is registered under
    handle 5; a pager and a typing notification that name call 5 are both
    delivered to the handler of account 0, and the handler of the call is
    not invoked. *)
Theorem pager_for_registered_call_goes_to_account :
  value (Lib__lookup_call 5) call_world = Return (Some 4%positive)
  /\ value (Call_cb_of (Some 4%positive)) call_world = Return (Some 5%positive)
  /\ Lib__cb_on_pager 5 "sip:carol@example.com" "sip:me@example.com"
       "sip:carol@192.0.2.9" "text/plain" "hello" 0 call_world
     = (Return tt,
        exec (print [VStr "lookup_buddy, id="; VInt (-1)] ;;
              print [VStr "lookup_buddy, uri="; VStr "carol"; VStr "example.com"] ;;
              emit (EvAccountCb Account__cb
                      (Acc_on_pager "sip:carol@example.com" "sip:carol@192.0.2.9"
                         "text/plain" "hello"))) call_world)
  /\ trace (exec (Lib__cb_on_typing 5 "sip:carol@example.com" "sip:me@example.com"
                    "sip:carol@192.0.2.9" true 0) call_world)
     = [EvAccountCb Account__cb
          (Acc_on_typing "sip:carol@example.com" "sip:carol@192.0.2.9" true)].
Proof. repeat split; vm_compute; reflexivity. Qed.

(** C2, at a failing input. Nothing is registered; a pager, a pager-status
    and a typing notification without call context each raise
    [AttributeError] where the dispatcher reads [acc._cb] from the account
    it did not find. *)
Theorem message_for_unknown_account_raises :
  value (Lib__lookup_account 7) demo_world = Return None
  /\ value (Lib__lookup_buddy (-1) (Some "sip:carol@example.com")) demo_world
     = Return None
  /\ value (Lib__cb_on_pager (-1) "sip:carol@example.com" "sip:me@example.com"
              "sip:carol@192.0.2.9" "text/plain" "hello" 7) demo_world
     = Raise AttributeError
  /\ value (Lib__cb_on_pager_status (-1) "sip:carol@example.com" "hello" 1 200 "OK" 7)
       demo_world
     = Raise AttributeError
  /\ value (Lib__cb_on_typing (-1) "sip:carol@example.com" "sip:me@example.com"
              "sip:carol@192.0.2.9" true 7) demo_world
     = Raise AttributeError.
Proof. repeat split; vm_compute; reflexivity. Qed.

(** [Call.__del__] and [Account.__del__] pass two arguments to a method
    that takes one: the call raises before it touches the registry. *)
Lemma Call___del___raises (c : loc) (w : World) :
  Call___del__ c w = (Raise TypeError, w)
  \/ Call___del__ c w = (Raise AttributeError, w).
Proof. unfold Call___del__. py. crack; eauto. Qed.

Lemma Account___del___raises (a : loc) (w : World) :
  Account___del__ a w = (Raise TypeError, w)
  \/ Account___del__ a w = (Raise AttributeError, w).
Proof. unfold Account___del__. py. crack; eauto. Qed.

Lemma destroy_keeps_calls_and_accounts (k : kind) (o : loc) (w : World) :
  k ≠ KBuddy -> exec (destroy k o) w = w.
Proof.
  intros Hk. destruct k; [| |done]; unfold destroy, ignoring_exceptions, exec; simpl.
  - by destruct (Call___del___raises o w) as [-> | ->].
  - by destruct (Account___del___raises o w) as [-> | ->].
Qed.

(** C6, at a failing input. The call at address 4 is registered under
    handle 5 and the account at address 2 under handle 0; the destructor of
    either raises [TypeError], and after the destruction the lookup of the
    handle still returns the object.  The destructor of a buddy, which
    passes one argument, does remove the buddy from the handle
    dictionary. *)
Theorem destroyed_call_stays_registered :
  value (Lib__lookup_call 5) call_world = Return (Some 4%positive)
  /\ Call___del__ 4%positive call_world = (Raise TypeError, call_world)
  /\ value (Lib__lookup_call 5) (exec (destroy KCall 4%positive) call_world)
     = Return (Some 4%positive)
  /\ value (Lib__lookup_account 0) call_world = Return (Some 2%positive)
  /\ Account___del__ 2%positive call_world = (Raise TypeError, call_world)
  /\ value (Lib__lookup_account 0) (exec (destroy KAccount 2%positive) call_world)
     = Return (Some 2%positive)
  /\ value (lookup KBuddy 2) bob_world = Return (Some 4%positive)
  /\ value (lookup KBuddy 2) (exec (destroy KBuddy 4%positive) bob_world)
     = Return None.
Proof. repeat split; vm_compute; reflexivity. Qed.

(** * More proofs *)

#[local] Hint Unfold deliver set_callback run_action : py.

(** ** Notifications without a target *)

(** X2. A state, media-state, DTMF or replaced notification that names a
    call handle without an entry returns normally and changes nothing: no
    handler is invoked, nothing is printed, nothing is registered.  For
    [on_call_replaced] it is enough that one of the two handles has no
    entry. *)
Theorem notification_for_unknown_call_is_dropped (w : World) (call_id : Z) :
  Lib.call (lib w) !! call_id = None ->
  Lib__cb_on_call_state call_id w = (Return tt, w)
  /\ Lib__cb_on_call_media_state call_id w = (Return tt, w)
  /\ (forall digits : string, Lib__cb_on_dtmf_digit call_id digits w = (Return tt, w))
  /\ (forall other : Z,
        Lib__cb_on_call_replaced call_id other w = (Return tt, w)
        /\ Lib__cb_on_call_replaced other call_id w = (Return tt, w)).
Proof.
  intros Hc. repeat split; intros;
    unfold Lib__cb_on_call_state, Lib__cb_on_call_media_state,
      Lib__cb_on_dtmf_digit, Lib__cb_on_call_replaced; py; rewrite Hc; try reflexivity.
  destruct (Lib.call (lib w) !! other); reflexivity.
Qed.

Lemma notification_for_unknown_call_is_dropped_witness :
  Lib.call (lib call_world) !! 6 = None
  /\ Lib__cb_on_call_state 6 call_world = (Return tt, call_world)
  /\ Lib__cb_on_dtmf_digit 6 "42#" call_world = (Return tt, call_world)
  /\ Lib__cb_on_call_replaced 5 6 call_world = (Return tt, call_world).
Proof.
  assert (Hc : Lib.call (lib call_world) !! 6 = None) by (vm_compute; reflexivity).
  destruct (notification_for_unknown_call_is_dropped call_world 6 Hc)
    as (H1 & _ & H3 & H4).
  split; [exact Hc|]. split; [exact H1|]. split; [apply H3|]. apply (H4 5).
Defined.

(** ** What a constructor leaves behind, whether it returns or raises *)

Lemma Call_new_facts (w : World) (call_id : Z) :
  let c := fresh (dom (heap w)) in
  let cb := fresh (dom (<[c := OCall Call_class]> (heap w))) in
  let w' := exec (Call_new call_id) w in
  lib w' = Lib.set_call <[call_id := c]> (lib w)
  /\ (exists o, heap w' !! c = Some (OCall o)
                /\ Call._id o = call_id /\ Call._cb o = Some cb)
  /\ heap w' !! cb = Some (OCallCallback (CallCallback.__init__ (Some c)))
  /\ (forall l, l ≠ c -> l ≠ cb -> heap w' !! l = heap w !! l)
  /\ trace w' = trace w /\ engine w' = engine w /\ stdout w' = stdout w
  /\ value (Call_new call_id) w
     = match call_get_info (engine w) call_id with
       | Some _ => Return c
       | None => Raise (Error "info" (Some c) (-1) "Invalid call")
       end.
Proof.
  intros c cb w'.
  assert (Hcb : cb ≠ c).
  { apply (fresh_not_used _ c (OCall Call_class)). apply lookup_insert_eq. }
  unfold w', Call_new, Call___init__, Call_set, Call_info, CallInfo___init__,
    CallInfo__cvt_from_pjsua. py.
  fold c. fold cb.
  rewrite (lookup_insert_ne _ cb c) by done. rewrite lookup_insert_eq. simpl.
  rewrite lookup_insert_eq. simpl.
  rewrite lookup_insert_eq. simpl.
  destruct (call_get_info (engine w) call_id) as [ci|] eqn:Hci; simpl.
  - rewrite lookup_insert_eq. simpl.
    split; [done|]. split; [eexists; rewrite lookup_insert_eq; done|].
    split; [by rewrite !(lookup_insert_ne _ c cb), lookup_insert_eq|].
    split; [intros l Hl1 Hl2; by rewrite !lookup_insert_ne|done].
  - split; [done|]. split; [eexists; rewrite lookup_insert_eq; done|].
    split; [by rewrite !(lookup_insert_ne _ c cb), lookup_insert_eq|].
    split; [intros l Hl1 Hl2; by rewrite !lookup_insert_ne|done].
Qed.

Lemma Account_new_facts (w : World) (id : Z) :
  let a := fresh (dom (heap w)) in
  let c := fresh (dom (<[a := OAccount Account_class]> (heap w))) in
  let w' := exec (Account_new id) w in
  lib w' = Lib.set_account <[id := a]> (lib w)
  /\ (exists o, heap w' !! a = Some (OAccount o)
                /\ Account._id o = id /\ Account._cb o = Some Account__cb)
  /\ heap w' !! c = Some (OAccountCallback (AccountCallback.__init__ (Some a)))
  /\ (forall l, l ≠ a -> l ≠ c -> heap w' !! l = heap w !! l)
  /\ trace w' = trace w /\ engine w' = engine w /\ stdout w' = stdout w
  /\ value (Account_new id) w
     = match acc_get_info (engine w) id with
       | Some _ => Return a
       | None => Raise (Error "info()" (Some a) (-1) "Invalid account")
       end.
Proof.
  intros a c w'.
  assert (Hca : c ≠ a).
  { apply (fresh_not_used _ a (OAccount Account_class)). apply lookup_insert_eq. }
  unfold w', Account_new, Account___init__, Account_set, Account_info. py.
  fold a. fold c.
  rewrite (lookup_insert_ne _ c a) by done. rewrite lookup_insert_eq. simpl.
  rewrite lookup_insert_eq. simpl.
  rewrite lookup_insert_eq. simpl.
  destruct (acc_get_info (engine w) id) as [ai|] eqn:Hai; simpl.
  - rewrite lookup_insert_eq. simpl.
    split; [done|]. split; [eexists; rewrite lookup_insert_eq; done|].
    split; [by rewrite !(lookup_insert_ne _ a c), lookup_insert_eq|].
    split; [intros l Hl1 Hl2; by rewrite !lookup_insert_ne|done].
  - split; [done|]. split; [eexists; rewrite lookup_insert_eq; done|].
    split; [by rewrite !(lookup_insert_ne _ a c), lookup_insert_eq|].
    split; [intros l Hl1 Hl2; by rewrite !lookup_insert_ne|done].
Qed.

Lemma Buddy_new_facts (w : World) (id : Z) (account : loc) :
  let b := fresh (dom (heap w)) in
  let cb := fresh (dom (<[b := OBuddy Buddy_class]> (heap w))) in
  let w' := exec (Buddy_new id account) w in
  lib w' = Lib.set_buddy_by_uri <[buddy_key (engine w) id := b]>
             (Lib.set_buddy <[id := b]> (lib w))
  /\ (exists o, heap w' !! b = Some (OBuddy o)
                /\ Buddy._id o = id /\ Buddy._cb o = Some cb
                /\ Buddy._acc o = Some account)
  /\ heap w' !! cb = Some (OBuddyCallback {| BuddyCallback.buddy := Some b |})
  /\ (forall l, l ≠ b -> l ≠ cb -> heap w' !! l = heap w !! l)
  /\ trace w' = trace w /\ engine w' = engine w /\ stdout w' = stdout w
  /\ value (Buddy_new id account) w = Return b.
Proof.
  intros b cb w'.
  assert (Hcb : cb ≠ b).
  { apply (fresh_not_used _ b (OBuddy Buddy_class)). apply lookup_insert_eq. }
  unfold w', Buddy_new, Buddy___init__, Buddy_set, buddy_key. py.
  fold b. fold cb.
  rewrite (lookup_insert_ne _ cb b) by done. rewrite lookup_insert_eq. simpl.
  rewrite lookup_insert_eq. simpl.
  rewrite lookup_insert_eq. simpl.
  rewrite lookup_insert_eq. simpl.
  erewrite info_uri_buddy by (simpl; apply lookup_insert_eq). simpl.
  rewrite lookup_insert_eq. simpl.
  rewrite lookup_insert_eq. simpl.
  split; [done|]. split; [eexists; rewrite lookup_insert_eq; done|].
  split; [by rewrite !(lookup_insert_ne _ b cb), lookup_insert_eq|].
  split; [intros l Hl1 Hl2; by rewrite !lookup_insert_ne|done].
Qed.

(** ** Notifications and the registry *)

Lemma deliver_frame (n : notification) (w : World) :
  makes_call n = false ->
  heap (exec (deliver n) w) = heap w
  /\ lib (exec (deliver n) w) = lib w
  /\ engine (exec (deliver n) w) = engine w.
Proof.
  intros Hn. destruct n; try discriminate; clear Hn;
    unfold deliver, Lib__cb_on_call_state, Lib__cb_on_call_media_state,
      Lib__cb_on_dtmf_digit, Lib__cb_on_call_transfer_request,
      Lib__cb_on_call_transfer_status, Lib__cb_on_call_replace_request,
      Lib__cb_on_call_replaced, Lib__cb_on_reg_state, Lib__cb_on_buddy_state,
      Lib__cb_on_pager, Lib__cb_on_pager_status, Lib__cb_on_typing;
    py; crack; done.
Qed.

(** ** The shape of the registry is kept *)

Lemma has_handle_in_heap (k : kind) (w : World) (o : loc) (h : Z) :
  has_handle k w o h -> exists x, heap w !! o = Some x.
Proof.
  unfold has_handle, object_handle. intros H.
  destruct (heap w !! o) as [x|]; [eauto|]. destruct k; discriminate.
Qed.

Lemma has_handle_frame (k : kind) (w w' : World) (o : loc) (h : Z) :
  heap w' !! o = heap w !! o -> has_handle k w o h -> has_handle k w' o h.
Proof. unfold has_handle, object_handle. by intros ->. Qed.

(** Two fresh addresses, the second taken after the first was filled, are
    both different from any address in use. *)
Lemma in_use_not_fresh (hp : gmap loc object) (o : loc) (x y : object) :
  hp !! o = Some x ->
  o ≠ fresh (dom hp) /\ o ≠ fresh (dom (<[fresh (dom hp) := y]> hp)).
Proof.
  intros Ho.
  assert (H1 : o ≠ fresh (dom hp)).
  { intros ->. by eapply fresh_not_used. }
  split; [done|]. intros Heq. symmetry in Heq. revert Heq.
  eapply fresh_not_used. by rewrite lookup_insert_ne.
Qed.

Lemma registry_ok_init (e : Engine) : registry_ok (init_world e).
Proof.
  split; [|split].
  - intros k h o H. destruct k; simpl in H; by rewrite lookup_empty in H.
  - apply tuple_keys_init.
  - unfold class_callback_intact. simpl. apply lookup_singleton_eq.
Qed.

Lemma registry_ok_new_call (w : World) (call_id : Z) :
  registry_ok w -> registry_ok (exec (Call_new call_id) w).
Proof.
  intros (Hk & Ht & Hc).
  destruct (Call_new_facts w call_id) as (Hlib & (o & Ho & Hid & _) & _ & Hfr & _).
  split; [|split].
  - intros k h x Hx. rewrite Hlib in Hx.
    destruct (decide (k = KCall /\ h = call_id)) as [[-> ->]|Hne].
    + simpl in Hx. rewrite lookup_insert_eq in Hx. injection Hx as <-.
      unfold has_handle, object_handle. by rewrite Ho, Hid.
    + assert (Hold : handle_map k (lib w) !! h = Some x).
      { destruct k; simpl in Hx |- *; try done.
        rewrite lookup_insert_ne in Hx; [done|]. intros ->. by apply Hne. }
      pose proof (Hk k h x Hold) as Hh.
      destruct (has_handle_in_heap _ _ _ _ Hh) as [y Hy].
      destruct (in_use_not_fresh (heap w) x y (OCall Call_class) Hy) as [H1 H2].
      eapply has_handle_frame; [|exact Hh]. by apply Hfr.
  - intros s. rewrite Hlib. simpl. apply Ht.
  - unfold class_callback_intact in *.
    destruct (in_use_not_fresh (heap w) Account__cb _ (OCall Call_class) Hc) as [H1 H2].
    rewrite Hfr by done. exact Hc.
Qed.

Lemma registry_ok_new_account (w : World) (id : Z) :
  registry_ok w -> registry_ok (exec (Account_new id) w).
Proof.
  intros (Hk & Ht & Hc).
  destruct (Account_new_facts w id) as (Hlib & (o & Ho & Hid & _) & _ & Hfr & _).
  split; [|split].
  - intros k h x Hx. rewrite Hlib in Hx.
    destruct (decide (k = KAccount /\ h = id)) as [[-> ->]|Hne].
    + simpl in Hx. rewrite lookup_insert_eq in Hx. injection Hx as <-.
      unfold has_handle, object_handle. by rewrite Ho, Hid.
    + assert (Hold : handle_map k (lib w) !! h = Some x).
      { destruct k; simpl in Hx |- *; try done.
        rewrite lookup_insert_ne in Hx; [done|]. intros ->. by apply Hne. }
      pose proof (Hk k h x Hold) as Hh.
      destruct (has_handle_in_heap _ _ _ _ Hh) as [y Hy].
      destruct (in_use_not_fresh (heap w) x y (OAccount Account_class) Hy) as [H1 H2].
      eapply has_handle_frame; [|exact Hh]. by apply Hfr.
  - intros s. rewrite Hlib. simpl. apply Ht.
  - unfold class_callback_intact in *.
    destruct (in_use_not_fresh (heap w) Account__cb _ (OAccount Account_class) Hc)
      as [H1 H2].
    rewrite Hfr by done. exact Hc.
Qed.

Lemma registry_ok_new_buddy (w : World) (id : Z) (account : loc) :
  registry_ok w -> registry_ok (exec (Buddy_new id account) w).
Proof.
  intros (Hk & Ht & Hc).
  destruct (Buddy_new_facts w id account) as (Hlib & (o & Ho & Hid & _) & _ & Hfr & _).
  split; [|split].
  - intros k h x Hx. rewrite Hlib in Hx.
    destruct (decide (k = KBuddy /\ h = id)) as [[-> ->]|Hne].
    + simpl in Hx. rewrite lookup_insert_eq in Hx. injection Hx as <-.
      unfold has_handle, object_handle. by rewrite Ho, Hid.
    + assert (Hold : handle_map k (lib w) !! h = Some x).
      { destruct k; simpl in Hx |- *; try done.
        rewrite lookup_insert_ne in Hx; [done|]. intros ->. by apply Hne. }
      pose proof (Hk k h x Hold) as Hh.
      destruct (has_handle_in_heap _ _ _ _ Hh) as [y Hy].
      destruct (in_use_not_fresh (heap w) x y (OBuddy Buddy_class) Hy) as [H1 H2].
      eapply has_handle_frame; [|exact Hh]. by apply Hfr.
  - intros s. rewrite Hlib. simpl. rewrite lookup_insert_ne by discriminate. apply Ht.
  - unfold class_callback_intact in *.
    destruct (in_use_not_fresh (heap w) Account__cb _ (OBuddy Buddy_class) Hc)
      as [H1 H2].
    rewrite Hfr by done. exact Hc.
Qed.

Lemma has_handle_alloc (k : kind) (w : World) (l : loc) (h : Z) (x : object) :
  has_handle k w l h ->
  object_handle k {| heap := <[fresh (dom (heap w)) := x]> (heap w); lib := lib w;
                     engine := engine w; trace := trace w; stdout := stdout w |} l
  = Some h.
Proof.
  intros H. destruct (has_handle_in_heap _ _ _ _ H) as [y Hy].
  unfold has_handle, object_handle in *. simpl.
  rewrite lookup_insert_ne; [done|]. intros Heq. revert Hy. rewrite <- Heq.
  intros Hy. by eapply fresh_not_used.
Qed.

Lemma set_callback_keeps (k : kind) (o : loc) (cb : option loc) (w : World) :
  lib (exec (set_callback k o cb) w) = lib w
  /\ (forall k' l h, has_handle k' w l h ->
                     has_handle k' (exec (set_callback k o cb) w) l h)
  /\ (class_callback_intact w -> class_callback_intact (exec (set_callback k o cb) w)).
Proof.
  destruct k, cb as [c|];
    unfold set_callback, Call_set_callback, Account_set_callback, Buddy_set_callback,
      Call_set, Account_set, Buddy_set; py.
  all: repeat match goal with
         | |- context [match ?m !! ?k with _ => _ end] =>
             let E := fresh "E" in destruct (m !! k) as [[]|] eqn:E; simpl
         end.
  all: split; [reflexivity|]; split.
  all: try (intros k' l h H; exact H).
  all: try (intros H; exact H).
  all: try (intros k' l h H;
            destruct (has_handle_in_heap _ _ _ _ H) as [y Hy];
            unfold has_handle, object_handle in *; simpl in *;
            rewrite ?lookup_insert in *;
            repeat case_decide; subst; simpl in *; try done;
            try (rewrite Hy in *; simplify_eq; destruct k'; simpl in *; done);
            try (exfalso; eapply fresh_not_used; eauto; fail)).
  all: try (unfold class_callback_intact; simpl; intros H;
            rewrite ?lookup_insert in *;
            repeat case_decide; subst; simpl in *; try done;
            try congruence;
            try (exfalso; eapply fresh_not_used; eauto; fail)).
Qed.

Lemma registry_ok_same (w w' : World) :
  heap w' = heap w -> lib w' = lib w -> registry_ok w -> registry_ok w'.
Proof.
  intros Hh Hl (Hk & Ht & Hc). split; [|split].
  - intros k h o. unfold has_handle, object_handle. rewrite Hh, Hl. apply Hk.
  - by rewrite Hl.
  - unfold class_callback_intact. by rewrite Hh.
Qed.

Lemma registry_ok_set_callback (k : kind) (o : loc) (cb : option loc) (w : World) :
  registry_ok w -> registry_ok (exec (set_callback k o cb) w).
Proof.
  intros (Hk & Ht & Hc).
  destruct (set_callback_keeps k o cb w) as (Hlib & Hh & Hcls).
  split; [|split].
  - intros k' h x Hx. rewrite Hlib in Hx. apply Hh. by apply Hk.
  - by rewrite Hlib.
  - by apply Hcls.
Qed.

Lemma destroy_buddy (o : loc) (w : World) :
  exec (destroy KBuddy o) w = exec (unregister KBuddy o) w.
Proof. reflexivity. Qed.

Lemma registry_ok_destroy (k : kind) (o : loc) (w : World) :
  registry_ok w -> registry_ok (exec (destroy k o) w).
Proof.
  intros Hok. destruct (decide (k = KBuddy)) as [->|Hk].
  - rewrite destroy_buddy. destruct Hok as (Hk & Ht & Hc). split; [|split].
    + intros k h x Hx.
      eapply has_handle_frame; [by rewrite unregister_heap|]. apply Hk.
      destruct (decide (k = KBuddy)) as [->|Hne].
      * rewrite unregister_handle_map in Hx.
        destruct (heap w !! o ≫= object__id) as [h0|]; [|done].
        case_decide; [|done].
        apply lookup_delete_Some in Hx. tauto.
      * by rewrite unregister_other_kind in Hx.
    + intros s. rewrite unregister_buddy_by_uri by done. apply Ht.
    + unfold class_callback_intact. by rewrite unregister_heap.
  - by rewrite destroy_keeps_calls_and_accounts.
Qed.

Lemma on_incoming_call_frame (cb call : loc) (w : World) :
  let w' := exec (AccountCallback_on_incoming_call cb call) w in
  heap w' = heap w /\ lib w' = lib w /\ engine w' = engine w /\
  stdout w' = stdout w.
Proof.
  unfold AccountCallback_on_incoming_call, Call_hangup. py. crack; done.
Qed.

Lemma incoming_call_cases (acc_id call_id : Z) (rdata : pyval) (w : World) :
  let w' := exec (Lib__cb_on_incoming_call acc_id call_id rdata) w in
  (heap w' = heap w /\ lib w' = lib w)
  \/ (heap w' = heap (exec (Call_new call_id) w)
      /\ lib w' = lib (exec (Call_new call_id) w)).
Proof.
  unfold Lib__cb_on_incoming_call. py. crack; eauto.
  right.
  match goal with
  | |- context [AccountCallback_on_incoming_call ?h ?c ?v] =>
      by destruct (on_incoming_call_frame h c v) as (? & ? & _)
  end.
Qed.

Lemma registry_ok_deliver (n : notification) (w : World) :
  registry_ok w -> registry_ok (exec (deliver n) w).
Proof.
  intros Hok. destruct (makes_call n) eqn:Hn.
  - destruct n; try discriminate. simpl.
    destruct (incoming_call_cases acc_id call_id rdata w) as [[Hh Hl]|[Hh Hl]].
    + by eapply registry_ok_same.
    + eapply registry_ok_same; [exact Hh|exact Hl|].
      by apply registry_ok_new_call.
  - destruct (deliver_frame n w Hn) as (Hh & Hl & _). by eapply registry_ok_same.
Qed.

Lemma exec_then_ret {A} (m : M A) (w : World) : exec (m ;; ret tt) w = exec m w.
Proof. unfold exec, bind, ret. by destruct (m w) as [[]]. Qed.

Lemma registry_ok_run_action (a : action) (w : World) :
  registry_ok w -> registry_ok (exec (run_action a) w).
Proof.
  intros Hok. destruct a; simpl; rewrite ?exec_then_ret.
  - by apply registry_ok_new_account.
  - by apply registry_ok_new_call.
  - by apply registry_ok_new_buddy.
  - by apply registry_ok_set_callback.
  - by apply registry_ok_destroy.
  - by apply registry_ok_deliver.
Qed.

(** X1. In every world the constructors, [set_callback], the destructors
    and the engine's notifications lead to from the start, each entry of a
    handle dictionary leads to an object of the dictionary's class whose
    [_id] is the key of the entry, [buddy_by_uri] has tuple keys only, and
    the class-level callback of [Account] is as the class made it. *)
Theorem reachable_registry_ok (e : Engine) (acts : list action) :
  registry_ok (run_actions acts (init_world e)).
Proof.
  generalize (registry_ok_init e). generalize (init_world e).
  induction acts as [|a acts IH]; intros w Hok; simpl; [done|].
  apply IH. by apply registry_ok_run_action.
Qed.

(** ** Construction *)

(** X3. Each constructor registers the new object under the handle it is
    given before it asks the engine for the object's description.  A lookup
    of the handle returns the new object, whose [_id] is the handle, also
    when [Call] or [Account] then raise [Error] with code [-1] because the
    engine has no description; [Buddy] never raises, and files the buddy
    under the user and host of the URI the engine reports. *)
Theorem constructors_register (w : World) (id : Z) (account : loc) :
  let o := fresh (dom (heap w)) in
  (value (lookup KCall id) (exec (Call_new id) w) = Return (Some o)
   /\ has_handle KCall (exec (Call_new id) w) o id
   /\ value (Call_new id) w
      = match call_get_info (engine w) id with
        | Some _ => Return o
        | None => Raise (Error "info" (Some o) (-1) "Invalid call")
        end)
  /\ (value (lookup KAccount id) (exec (Account_new id) w) = Return (Some o)
      /\ has_handle KAccount (exec (Account_new id) w) o id
      /\ value (Account_new id) w
         = match acc_get_info (engine w) id with
           | Some _ => Return o
           | None => Raise (Error "info()" (Some o) (-1) "Invalid account")
           end)
  /\ (value (lookup KBuddy id) (exec (Buddy_new id account) w) = Return (Some o)
      /\ has_handle KBuddy (exec (Buddy_new id account) w) o id
      /\ value (Buddy_new id account) w = Return o
      /\ Lib.buddy_by_uri (lib (exec (Buddy_new id account) w))
         !! buddy_key (engine w) id = Some o).
Proof.
  intros o.
  destruct (Call_new_facts w id) as (Hl1 & (x1 & Hx1 & Hi1 & _) & _ & _ & _ & _ & _ & Hv1).
  destruct (Account_new_facts w id)
    as (Hl2 & (x2 & Hx2 & Hi2 & _) & _ & _ & _ & _ & _ & Hv2).
  destruct (Buddy_new_facts w id account)
    as (Hl3 & (x3 & Hx3 & Hi3 & _) & _ & _ & _ & _ & _ & Hv3).
  repeat split; try assumption.
  - rewrite lookup_value, Hl1. simpl. by rewrite lookup_insert_eq.
  - unfold has_handle, object_handle. fold o in Hx1. by rewrite Hx1, Hi1.
  - rewrite lookup_value, Hl2. simpl. by rewrite lookup_insert_eq.
  - unfold has_handle, object_handle. fold o in Hx2. by rewrite Hx2, Hi2.
  - rewrite lookup_value, Hl3. simpl. by rewrite lookup_insert_eq.
  - unfold has_handle, object_handle. fold o in Hx3. by rewrite Hx3, Hi3.
  - rewrite Hl3. simpl. by rewrite lookup_insert_eq.
Qed.

(** ** Notifications for a registered call *)

Lemma call_dispatch (w : World) (call_id : Z) (c cb : loc)
    (o : Call.t) (h : CallCallback.t) :
  Lib.call (lib w) !! call_id = Some c ->
  heap w !! c = Some (OCall o) ->
  Call._cb o = Some cb ->
  heap w !! cb = Some (OCallCallback h) ->
  Lib__cb_on_call_state call_id w = (Return tt, exec (emit (EvCallCb cb Call_on_state)) w)
  /\ Lib__cb_on_call_media_state call_id w
     = (Return tt, exec (emit (EvCallCb cb Call_on_media_state)) w)
  /\ (forall digits,
        Lib__cb_on_dtmf_digit call_id digits w
        = (Return tt, exec (emit (EvCallCb cb (Call_on_dtmf_digit digits))) w))
  /\ (forall dst code,
        Lib__cb_on_call_transfer_request call_id dst code w
        = (Return (CallCallback.on_transfer_request h dst code),
           exec (emit (EvCallCb cb (Call_on_transfer_request dst code))) w))
  /\ (forall code text final cont,
        Lib__cb_on_call_transfer_status call_id code text final cont w
        = (Return (CallCallback.on_transfer_status h code text final cont),
           exec (emit (EvCallCb cb (Call_on_transfer_status code text final cont))) w))
  /\ (forall rdata code reason,
        Lib__cb_on_call_replace_request call_id rdata code reason w
        = (Return (CallCallback.on_replace_request h code reason),
           exec (emit (EvCallCb cb (Call_on_replace_request code reason))) w)).
Proof.
  intros Hc Ho Hcb Hh. repeat split; intros;
    unfold Lib__cb_on_call_state, Lib__cb_on_call_media_state, Lib__cb_on_dtmf_digit,
      Lib__cb_on_call_transfer_request, Lib__cb_on_call_transfer_status,
      Lib__cb_on_call_replace_request; py;
    rewrite Hc; simpl; rewrite Ho; simpl; rewrite Hcb; simpl; rewrite Hh; reflexivity.
Qed.

(** X4. A notification for a call that is registered and has a handler
    installed invokes the matching method of that handler once, with the
    arguments of the notification, and changes nothing else; a transfer
    request, transfer status or replace request returns to the engine what
    the handler's method returns. *)
Theorem call_notification_reaches_handler (w : World) (call_id : Z) (c cb : loc)
    (o : Call.t) (h : CallCallback.t) :
  Lib.call (lib w) !! call_id = Some c ->
  heap w !! c = Some (OCall o) ->
  Call._cb o = Some cb ->
  heap w !! cb = Some (OCallCallback h) ->
  Lib__cb_on_call_state call_id w = (Return tt, exec (emit (EvCallCb cb Call_on_state)) w)
  /\ Lib__cb_on_call_media_state call_id w
     = (Return tt, exec (emit (EvCallCb cb Call_on_media_state)) w)
  /\ (forall digits,
        Lib__cb_on_dtmf_digit call_id digits w
        = (Return tt, exec (emit (EvCallCb cb (Call_on_dtmf_digit digits))) w))
  /\ (forall dst code,
        Lib__cb_on_call_transfer_request call_id dst code w
        = (Return (CallCallback.on_transfer_request h dst code),
           exec (emit (EvCallCb cb (Call_on_transfer_request dst code))) w))
  /\ (forall code text final cont,
        Lib__cb_on_call_transfer_status call_id code text final cont w
        = (Return (CallCallback.on_transfer_status h code text final cont),
           exec (emit (EvCallCb cb (Call_on_transfer_status code text final cont))) w))
  /\ (forall rdata code reason,
        Lib__cb_on_call_replace_request call_id rdata code reason w
        = (Return (CallCallback.on_replace_request h code reason),
           exec (emit (EvCallCb cb (Call_on_replace_request code reason))) w)).
Proof. apply call_dispatch. Qed.

Lemma call_notification_reaches_handler_witness :
  Lib.call (lib call_world) !! 5 = Some 4%positive
  /\ Lib__cb_on_call_state 5 call_world
     = (Return tt, exec (emit (EvCallCb 5%positive Call_on_state)) call_world)
  /\ Lib__cb_on_call_transfer_request 5 "sip:dave@example.com" 202 call_world
     = (Return 202,
        exec (emit (EvCallCb 5%positive
                      (Call_on_transfer_request "sip:dave@example.com" 202)))
             call_world).
Proof.
  assert (Hc : Lib.call (lib call_world) !! 5 = Some 4%positive)
    by (vm_compute; reflexivity).
  destruct (call_notification_reaches_handler call_world 5 4%positive 5%positive
              {| Call._id := 5; Call._cb := Some 5%positive;
                 Call._obj_name := "Call sip:carol@example.com" |}
              (CallCallback.__init__ (Some 4%positive)) Hc)
    as (H1 & _ & _ & H4 & _); try (vm_compute; reflexivity).
  split; [exact Hc|]. split; [exact H1|]. apply H4.
Defined.

(** X5. The handler a new call gets from its constructor hands the
    engine's suggestion back: right after [Call(lib, call_id)], whether or
    not the constructor raised, a transfer request for the call returns the
    suggested code, a transfer status the suggested [cont], and a replace
    request the suggested code and reason, each after one invocation of the
    new handler, which is bound to the new call. *)
Theorem new_call_hands_suggestion_back (w : World) (call_id : Z) :
  let c := fresh (dom (heap w)) in
  let cb := fresh (dom (<[c := OCall Call_class]> (heap w))) in
  let w1 := exec (Call_new call_id) w in
  heap w1 !! cb = Some (OCallCallback (CallCallback.__init__ (Some c)))
  /\ (forall dst code,
        Lib__cb_on_call_transfer_request call_id dst code w1
        = (Return code,
           exec (emit (EvCallCb cb (Call_on_transfer_request dst code))) w1))
  /\ (forall code text final cont,
        Lib__cb_on_call_transfer_status call_id code text final cont w1
        = (Return cont,
           exec (emit (EvCallCb cb (Call_on_transfer_status code text final cont))) w1))
  /\ (forall rdata code reason,
        Lib__cb_on_call_replace_request call_id rdata code reason w1
        = (Return (code, reason),
           exec (emit (EvCallCb cb (Call_on_replace_request code reason))) w1)).
Proof.
  intros c cb w1.
  destruct (Call_new_facts w call_id) as (Hl & (o & Ho & Hid & Hcb) & Hh & _).
  fold c in Hl, Ho. fold cb in Hcb, Hh. fold w1 in Hl, Ho, Hh.
  assert (Hreg : Lib.call (lib w1) !! call_id = Some c).
  { rewrite Hl. simpl. apply lookup_insert_eq. }
  destruct (call_dispatch w1 call_id c cb o _ Hreg Ho Hcb Hh)
    as (_ & _ & _ & H4 & H5 & H6).
  split; [exact Hh|]. split; [exact H4|]. split; [exact H5|exact H6].
Qed.

(** ** Installing a handler *)

(** X6. [Call.set_callback] replaces the handler: after
    [set_callback(cb)] with a handler object, a notification for the call
    invokes [cb] and nothing else, whatever was installed before; after
    [set_callback(None)] it invokes a newly made [CallCallback] bound to the
    call.  The registry is not touched. *)
Theorem call_set_callback_replaces (w : World) (call_id : Z) (c : loc) (o : Call.t) :
  Lib.call (lib w) !! call_id = Some c ->
  heap w !! c = Some (OCall o) ->
  (forall (cb : loc) (h : CallCallback.t),
      heap w !! cb = Some (OCallCallback h) ->
      let w1 := exec (Call_set_callback c (Some cb)) w in
      value (Call_set_callback c (Some cb)) w = Return tt
      /\ lib w1 = lib w
      /\ Lib__cb_on_call_state call_id w1
         = (Return tt, exec (emit (EvCallCb cb Call_on_state)) w1))
  /\ (let cb := fresh (dom (heap w)) in
      let w1 := exec (Call_set_callback c None) w in
      value (Call_set_callback c None) w = Return tt
      /\ lib w1 = lib w
      /\ heap w1 !! cb = Some (OCallCallback (CallCallback.__init__ (Some c)))
      /\ Lib__cb_on_call_state call_id w1
         = (Return tt, exec (emit (EvCallCb cb Call_on_state)) w1)).
Proof.
  intros Hreg Ho. split.
  - intros cb h Hh w1.
    assert (Hne : cb ≠ c) by (intros ->; congruence).
    unfold w1, Call_set_callback, Call_set, Lib__cb_on_call_state. py.
    rewrite Ho. simpl. rewrite Hreg. simpl.
    rewrite lookup_insert_eq. simpl.
    rewrite lookup_insert_ne by done. rewrite Hh. done.
  - intros cb w1.
    assert (Hne : cb ≠ c) by (by eapply fresh_not_used).
    unfold w1, Call_set_callback, Call_set, Lib__cb_on_call_state. py. fold cb.
    rewrite (lookup_insert_ne _ cb c) by done. rewrite Ho. simpl.
    rewrite Hreg. simpl. rewrite lookup_insert_eq. simpl.
    rewrite (lookup_insert_ne _ c cb) by done. rewrite lookup_insert_eq. done.
Qed.

Lemma call_set_callback_replaces_witness :
  Lib.call (lib call_world) !! 5 = Some 4%positive
  /\ value (Call_set_callback 4%positive None) call_world = Return tt
  /\ trace (exec (Lib__cb_on_call_state 5)
              (exec (Call_set_callback 4%positive None) call_world))
     = [EvCallCb 6%positive Call_on_state].
Proof.
  assert (Hc : Lib.call (lib call_world) !! 5 = Some 4%positive)
    by (vm_compute; reflexivity).
  destruct (call_set_callback_replaces call_world 5 4%positive
              {| Call._id := 5; Call._cb := Some 5%positive;
                 Call._obj_name := "Call sip:carol@example.com" |} Hc)
    as [_ (H1 & _ & _ & H4)]; [vm_compute; reflexivity|].
  split; [exact Hc|]. split; [exact H1|].
  unfold exec at 1. rewrite H4. vm_compute. reflexivity.
Defined.

(** X7. [Account.set_callback(None)] gives a registered account a handler
    of its own: a newly made [AccountCallback] whose [account] is this
    account, which the next registration-state notification invokes in
    place of the callback of the class; [set_callback(cb)] installs [cb]
    likewise. *)
Theorem account_set_callback_binds (w : World) (acc_id : Z) (a : loc) (o : Account.t) :
  Lib.account (lib w) !! acc_id = Some a ->
  heap w !! a = Some (OAccount o) ->
  (let cb := fresh (dom (heap w)) in
   let w1 := exec (Account_set_callback a None) w in
   value (Account_set_callback a None) w = Return tt
   /\ lib w1 = lib w
   /\ heap w1 !! cb = Some (OAccountCallback (AccountCallback.__init__ (Some a)))
   /\ value (Account_cb_of (Some a)) w1 = Return (Some cb)
   /\ Lib__cb_on_reg_state acc_id w1
      = (Return tt, exec (emit (EvAccountCb cb Acc_on_reg_state)) w1))
  /\ (forall (cb : loc) (h : AccountCallback.t),
        heap w !! cb = Some (OAccountCallback h) ->
        let w1 := exec (Account_set_callback a (Some cb)) w in
        value (Account_set_callback a (Some cb)) w = Return tt
        /\ Lib__cb_on_reg_state acc_id w1
           = (Return tt, exec (emit (EvAccountCb cb Acc_on_reg_state)) w1)).
Proof.
  intros Hreg Ho. split.
  - intros cb w1.
    assert (Hne : cb ≠ a) by (by eapply fresh_not_used).
    unfold w1, Account_set_callback, Account_set, Lib__cb_on_reg_state. py. fold cb.
    rewrite (lookup_insert_ne _ cb a) by done. rewrite Ho. simpl.
    rewrite Hreg. simpl. rewrite lookup_insert_eq. simpl.
    rewrite (lookup_insert_ne _ a cb) by done. rewrite lookup_insert_eq. done.
  - intros cb h Hh w1.
    assert (Hne : cb ≠ a) by (intros ->; congruence).
    unfold w1, Account_set_callback, Account_set, Lib__cb_on_reg_state. py.
    rewrite Ho. simpl. rewrite Hreg. simpl.
    rewrite lookup_insert_eq. simpl.
    rewrite lookup_insert_ne by done. rewrite Hh. done.
Qed.

Lemma account_set_callback_binds_witness :
  Lib.account (lib call_world) !! 0 = Some 2%positive
  /\ value (Account_set_callback 2%positive None) call_world = Return tt
  /\ heap (exec (Account_set_callback 2%positive None) call_world) !! 6%positive
     = Some (OAccountCallback (AccountCallback.__init__ (Some 2%positive)))
  /\ trace (exec (Lib__cb_on_reg_state 0)
              (exec (Account_set_callback 2%positive None) call_world))
     = [EvAccountCb 6%positive Acc_on_reg_state].
Proof.
  assert (Hc : Lib.account (lib call_world) !! 0 = Some 2%positive)
    by (vm_compute; reflexivity).
  destruct (account_set_callback_binds call_world 0 2%positive
              {| Account._id := 0; Account._cb := Some Account__cb;
                 Account._obj_name := "Account sip:me@example.com" |} Hc)
    as [(H1 & _ & H3 & _ & H5) _]; [vm_compute; reflexivity|].
  split; [exact Hc|]. split; [exact H1|]. split; [exact H3|].
  unfold exec at 1. rewrite H5. vm_compute. reflexivity.
Defined.

(** ** Notifications for an account *)

(** X8. For an account handle without an entry, a registration-state
    notification changes nothing, and an incoming call is answered by one
    request to the engine to hang the call up with status 603: no handler
    is invoked, and no [Call] object is made or registered. *)
Theorem notification_for_unknown_account (w : World) (acc_id : Z) :
  Lib.account (lib w) !! acc_id = None ->
  Lib__cb_on_reg_state acc_id w = (Return tt, w)
  /\ (forall (call_id : Z) (rdata : pyval),
        Lib__cb_on_incoming_call acc_id call_id rdata w
        = (Return tt, exec (emit (EvCallHangup call_id 603)) w)).
Proof.
  intros Ha. split; intros;
    unfold Lib__cb_on_reg_state, Lib__cb_on_incoming_call; py; rewrite Ha; reflexivity.
Qed.

Lemma notification_for_unknown_account_witness :
  Lib.account (lib call_world) !! 7 = None
  /\ Lib__cb_on_reg_state 7 call_world = (Return tt, call_world)
  /\ Lib__cb_on_incoming_call 7 8 VNone call_world
     = (Return tt, exec (emit (EvCallHangup 8 603)) call_world).
Proof.
  assert (Ha : Lib.account (lib call_world) !! 7 = None) by (vm_compute; reflexivity).
  destruct (notification_for_unknown_account call_world 7 Ha) as [H1 H2].
  split; [exact Ha|]. split; [exact H1|apply H2].
Defined.

(** X9. An incoming call for a registered account with a handler makes a
    [Call] object, registers it under the call handle, and invokes
    [on_incoming_call] of the account's handler with the new call.  A
    handler whose class defines [on_incoming_call] is invoked and the
    wrapper does nothing else; with the method of [AccountCallback] itself,
    which every account has until [set_callback], the wrapper then asks the
    engine to hang the new call up with status 603 and raises [Error] when
    the engine answers with a non-zero status.  When the engine has no
    description of the call, the dispatcher raises [Error] out of the
    constructor, the handler is not invoked, and the call stays
    registered. *)
Theorem incoming_call_for_account (w : World) (acc_id call_id : Z) (rdata : pyval)
    (a cb : loc) (o : Account.t) (h : AccountCallback.t) :
  Lib.account (lib w) !! acc_id = Some a ->
  heap w !! a = Some (OAccount o) ->
  Account._cb o = Some cb ->
  heap w !! cb = Some (OAccountCallback h) ->
  let c := fresh (dom (heap w)) in
  let w1 := exec (Lib__cb_on_incoming_call acc_id call_id rdata) w in
  let status := call_hangup (engine w) call_id 603 in
  Lib.call (lib w1) !! call_id = Some c
  /\ has_handle KCall w1 c call_id
  /\ match call_get_info (engine w) call_id with
     | Some _ =>
         if AccountCallback.overrides_on_incoming_call h
         then
           value (Lib__cb_on_incoming_call acc_id call_id rdata) w = Return tt
           /\ trace w1 = trace w ++ [EvAccountCb cb (Acc_on_incoming_call c)]
         else
           value (Lib__cb_on_incoming_call acc_id call_id rdata) w
           = (if decide (status ≠ 0)
              then Raise (Error "hangup()" (Some c) status EmptyString)
              else Return tt)
           /\ trace w1 = trace w ++ [EvAccountCb cb (Acc_on_incoming_call c);
                                     EvCallHangup call_id 603]
     | None =>
         value (Lib__cb_on_incoming_call acc_id call_id rdata) w
         = Raise (Error "info" (Some c) (-1) "Invalid call")
         /\ trace w1 = trace w
     end.
Proof.
  intros Ha Ho Hcb Hh c w1 status.
  destruct (Call_new_facts w call_id)
    as (Hl & (x & Hx & Hid & _) & _ & Hfr & Htr & He & _ & Hv).
  fold c in Hl, Hx, Hv, Hfr.
  destruct (in_use_not_fresh (heap w) cb _ (OCall Call_class) Hh) as [N1 N2].
  fold c in N1, N2.
  assert (Hrun : Lib__cb_on_incoming_call acc_id call_id rdata w
                 = match Call_new call_id w with
                   | (Return call, w') =>
                       AccountCallback_on_incoming_call cb call w'
                   | (Raise e, w') => (Raise e, w')
                   end).
  { unfold Lib__cb_on_incoming_call. py. rewrite Ha. simpl. rewrite Ho. simpl.
    rewrite Hcb, Hh. simpl. destruct (Call_new call_id w) as [[]]; reflexivity. }
  unfold w1, value, exec. rewrite Hrun.
  unfold value in Hv. unfold exec in Hl, Hx, Htr, Hfr, He.
  destruct (Call_new call_id w) as [r w'] eqn:Hnew. simpl in *.
  assert (Hlib : Lib.call (lib w') !! call_id = Some c).
  { rewrite Hl. simpl. apply lookup_insert_eq. }
  destruct (call_get_info (engine w) call_id); subst r; simpl.
  - assert (Hh' : heap w' !! cb = Some (OAccountCallback h)).
    { by rewrite Hfr. }
    rewrite (on_incoming_call_run cb c h x w' Hh' Hx).
    rewrite Hid, He. fold status.
    destruct (AccountCallback.overrides_on_incoming_call h); simpl.
    + split; [exact Hlib|].
      split; [unfold has_handle, object_handle; simpl; by rewrite Hx, Hid|].
      by rewrite Htr.
    + split; [exact Hlib|].
      split; [unfold has_handle, object_handle; simpl; by rewrite Hx, Hid|].
      by rewrite Htr, <- app_assoc.
  - split; [exact Hlib|].
    split; [unfold has_handle, object_handle; simpl; by rewrite Hx, Hid|].
    done.
Qed.

Lemma incoming_call_for_account_witness :
  Lib.account (lib call_world) !! 0 = Some 2%positive
  /\ Lib.call (lib (exec (Lib__cb_on_incoming_call 0 5 VNone) call_world)) !! 5
     = Some 6%positive
  /\ value (Lib__cb_on_incoming_call 0 5 VNone) call_world = Return tt
  /\ trace (exec (Lib__cb_on_incoming_call 0 5 VNone) call_world)
     = trace call_world ++ [EvAccountCb Account__cb (Acc_on_incoming_call 6%positive);
                            EvCallHangup 5 603]
  /\ value (Lib__cb_on_incoming_call 0 9 VNone) call_world
     = Raise (Error "info" (Some 6%positive) (-1) "Invalid call")
  /\ Lib.call (lib (exec (Lib__cb_on_incoming_call 0 9 VNone) call_world)) !! 9
     = Some 6%positive.
Proof.
  assert (Ha : Lib.account (lib call_world) !! 0 = Some 2%positive)
    by (vm_compute; reflexivity).
  assert (Ho : heap call_world !! 2%positive
               = Some (OAccount {| Account._id := 0; Account._cb := Some Account__cb;
                                   Account._obj_name := "Account sip:me@example.com" |}))
    by (vm_compute; reflexivity).
  assert (Hh : heap call_world !! Account__cb
               = Some (OAccountCallback (AccountCallback.__init__ None)))
    by (vm_compute; reflexivity).
  destruct (incoming_call_for_account call_world 0 5 VNone 2%positive Account__cb
              _ _ Ha Ho eq_refl Hh) as (H1 & _ & H3).
  destruct (incoming_call_for_account call_world 0 9 VNone 2%positive Account__cb
              _ _ Ha Ho eq_refl Hh) as (H4 & _ & H6).
  assert (H5 : call_get_info (engine call_world) 5
               = Some {| ci_acc_id := 0; ci_local_info := "sip:me@example.com";
                         ci_remote_info := "sip:carol@example.com" |}) by reflexivity.
  assert (H9 : call_get_info (engine call_world) 9 = None) by reflexivity.
  rewrite H5 in H3. rewrite H9 in H6.
  split; [exact Ha|]. split; [exact H1|]. split; [exact (proj1 H3)|].
  split; [exact (proj2 H3)|].
  split; [exact (proj1 H6)|exact H4].
Defined.

(** ** Messages without a call context *)

Lemma lookup_buddy_None (id : Z) (u : string) (w : World) :
  value (Lib__lookup_buddy id (Some u)) w = Return None ->
  Lib.buddy (lib w) !! id = None
  /\ (str_true u = false
      \/ Lib.buddy_by_uri (lib w)
         !! tuple_key (SIPUri.user (SIPUri_decode (engine w) u))
              (SIPUri.host (SIPUri_decode (engine w) u)) = None).
Proof.
  unfold Lib__lookup_buddy. py.
  destruct (Lib.buddy (lib w) !! id) as [b|]; simpl.
  - rewrite andb_false_r. simpl. discriminate.
  - destruct (str_true u); simpl; [|by auto].
    intros [= H]. auto.
Qed.

(** X10. With no call context and a buddy filed under the user and host
    of the URI, a typing indication and a delivery status go the way of a
    message: the only handler either can invoke is a buddy's, never an
    account's; with no buddy under handle [-1] and a handler installed on
    the buddy found by URI, that handler is invoked once with the arguments
    of the notification. *)
Theorem typing_and_status_go_to_buddy (w : World) (call_id : Z) (uri : string)
    (acc_id : Z) (b cb : loc) (o : Buddy.t) (h : BuddyCallback.t) :
  (call_id = -1 -> Lib.call (lib w) !! (-1) = None) ->
  str_true uri = true ->
  Lib.buddy_by_uri (lib w) !! uri_key (engine w) uri = Some b ->
  Lib.buddy (lib w) !! (-1) = None ->
  heap w !! b = Some (OBuddy o) ->
  Buddy._cb o = Some cb ->
  heap w !! cb = Some (OBuddyCallback h) ->
  (forall (to_uri contact : string) (is_typing : bool),
      let m := Lib__cb_on_typing call_id uri to_uri contact is_typing acc_id in
      value m w = Return tt
      /\ trace (exec m w) = trace w ++ [EvBuddyCb cb (Buddy_on_typing is_typing)])
  /\ (forall (body : string) (user_data code : Z) (reason : string),
        let m := Lib__cb_on_pager_status call_id uri body user_data code reason acc_id in
        value m w = Return tt
        /\ trace (exec m w)
           = trace w ++ [EvBuddyCb cb (Buddy_on_pager_status body user_data code reason)]).
Proof.
  intros Hcall Hu Hb Hs Ho Hcb Hh.
  unfold uri_key in Hb. simpl in Hb. rewrite Hu in Hb.
  split; intros; unfold m, Lib__cb_on_typing, Lib__cb_on_pager_status;
    (destruct (decide (call_id = -1)) as [->|Hne]; py; rewrite ?Hcall by done;
     rewrite Hu, Hs; simpl; rewrite Hb; crack; done).
Qed.

Lemma typing_and_status_go_to_buddy_witness :
  Lib.account (lib bob_world) !! 0 = Some 2%positive
  /\ Lib.buddy_by_uri (lib bob_world) !! uri_key (engine bob_world) "sip:bob@example.com"
     = Some 4%positive
  /\ trace (exec (Lib__cb_on_typing (-1) "sip:bob@example.com" "sip:me@example.com"
                    "sip:bob@192.0.2.7" true 0) bob_world)
     = trace bob_world ++ [EvBuddyCb 5%positive (Buddy_on_typing true)]
  /\ trace (exec (Lib__cb_on_pager_status (-1) "sip:bob@example.com" "hello" 1 200 "OK" 0)
              bob_world)
     = trace bob_world ++ [EvBuddyCb 5%positive (Buddy_on_pager_status "hello" 1 200 "OK")].
Proof.
  assert (Hb : Lib.buddy_by_uri (lib bob_world)
               !! uri_key (engine bob_world) "sip:bob@example.com" = Some 4%positive)
    by (vm_compute; reflexivity).
  assert (Hc : -1 = -1 -> Lib.call (lib bob_world) !! (-1) = None)
    by (intros _; vm_compute; reflexivity).
  destruct (typing_and_status_go_to_buddy bob_world (-1) "sip:bob@example.com" 0
              4%positive 5%positive
              {| Buddy._id := 2; Buddy._cb := Some 5%positive;
                 Buddy._obj_name := "Buddy sip:bob@example.com";
                 Buddy._acc := Some 2%positive |}
              {| BuddyCallback.buddy := Some 4%positive |} Hc eq_refl Hb)
    as [Ht Hs]; try (vm_compute; reflexivity).
  split; [vm_compute; reflexivity|]. split; [exact Hb|].
  split; [apply Ht|apply Hs].
Defined.

(** X11. With no call context and no buddy found for the URI, by handle
    [-1] or by user and host, a message, a delivery status and a typing
    indication go to the handler of the registered owning account, which is
    invoked once and is handed the URI next to the arguments of the
    notification. *)
Theorem message_falls_back_to_account (w : World) (call_id : Z) (uri : string)
    (acc_id : Z) (a cb : loc) (o : Account.t) (h : AccountCallback.t) :
  (call_id = -1 -> Lib.call (lib w) !! (-1) = None) ->
  value (Lib__lookup_buddy (-1) (Some uri)) w = Return None ->
  Lib.account (lib w) !! acc_id = Some a ->
  heap w !! a = Some (OAccount o) ->
  Account._cb o = Some cb ->
  heap w !! cb = Some (OAccountCallback h) ->
  (forall (to_uri contact mime_type body : string),
      let m := Lib__cb_on_pager call_id uri to_uri contact mime_type body acc_id in
      value m w = Return tt
      /\ trace (exec m w)
         = trace w ++ [EvAccountCb cb (Acc_on_pager uri contact mime_type body)])
  /\ (forall (body : string) (user_data code : Z) (reason : string),
        let m := Lib__cb_on_pager_status call_id uri body user_data code reason acc_id in
        value m w = Return tt
        /\ trace (exec m w)
           = trace w ++ [EvAccountCb cb
                           (Acc_on_pager_status uri body user_data code reason)])
  /\ (forall (to_uri contact : string) (is_typing : bool),
        let m := Lib__cb_on_typing call_id uri to_uri contact is_typing acc_id in
        value m w = Return tt
        /\ trace (exec m w)
           = trace w ++ [EvAccountCb cb (Acc_on_typing uri contact is_typing)]).
Proof.
  intros Hcall Hnone Ha Ho Hcb Hh.
  destruct (lookup_buddy_None _ _ _ Hnone) as [Hs Hu].
  split; [|split]; intros;
    unfold m, Lib__cb_on_pager, Lib__cb_on_pager_status, Lib__cb_on_typing;
    (destruct (decide (call_id = -1)) as [->|Hne]; py; rewrite ?Hcall by done;
     rewrite Hs; simpl;
     (destruct Hu as [Hu|Hu];
      [rewrite Hu; crack; done
      |destruct (str_true uri); simpl; rewrite ?Hu; crack; done])).
Qed.

Lemma message_falls_back_to_account_witness :
  value (Lib__lookup_buddy (-1) (Some "sip:carol@example.com")) call_world = Return None
  /\ Lib.account (lib call_world) !! 0 = Some 2%positive
  /\ trace (exec (Lib__cb_on_pager (-1) "sip:carol@example.com" "sip:me@example.com"
                    "sip:carol@192.0.2.9" "text/plain" "hello" 0) call_world)
     = trace call_world
       ++ [EvAccountCb Account__cb
             (Acc_on_pager "sip:carol@example.com" "sip:carol@192.0.2.9"
                "text/plain" "hello")].
Proof.
  assert (Hn : value (Lib__lookup_buddy (-1) (Some "sip:carol@example.com")) call_world
               = Return None) by (vm_compute; reflexivity).
  assert (Ha : Lib.account (lib call_world) !! 0 = Some 2%positive)
    by (vm_compute; reflexivity).
  assert (Hc : -1 = -1 -> Lib.call (lib call_world) !! (-1) = None)
    by (intros _; vm_compute; reflexivity).
  destruct (message_falls_back_to_account call_world (-1) "sip:carol@example.com" 0
              2%positive Account__cb
              {| Account._id := 0; Account._cb := Some Account__cb;
                 Account._obj_name := "Account sip:me@example.com" |}
              (AccountCallback.__init__ None) Hc Hn Ha)
    as (Hp & _ & _); try (vm_compute; reflexivity).
  split; [exact Hn|]. split; [exact Ha|]. apply Hp.
Defined.

(** ** What a notification can do *)




(** ** Deregistration *)

(** X13. Deregistration of an object that is registered under its own
    handle returns normally and removes that entry: a lookup of the handle
    returns [None], the entries under all other handles, the dictionaries
    of the other kinds and the objects stay as they were. *)
Theorem unregister_removes_own_entry (k : kind) (h : Z) (o : loc) (w : World) :
  has_handle k w o h ->
  handle_map k (lib w) !! h = Some o ->
  let w' := exec (unregister k o) w in
  value (unregister k o) w = Return tt
  /\ value (lookup k h) w' = Return None
  /\ (forall h', h' ≠ h -> handle_map k (lib w') !! h' = handle_map k (lib w) !! h')
  /\ (forall k', k' ≠ k -> handle_map k' (lib w') = handle_map k' (lib w))
  /\ heap w' = heap w.
Proof.
  intros Hh Hreg w'.
  assert (Hmap : handle_map k (lib w') = delete h (handle_map k (lib w))).
  { unfold w'. rewrite unregister_handle_map, (has_handle_carries _ _ _ _ Hh).
    by rewrite decide_True. }
  split; [by eapply unregister_returns|].
  split; [rewrite lookup_value, Hmap; by rewrite lookup_delete_eq|].
  split; [intros h' Hne; rewrite Hmap; by rewrite lookup_delete_ne|].
  split; [intros k' Hne; by apply unregister_other_kind|].
  apply unregister_heap.
Qed.

Lemma unregister_removes_own_entry_witness :
  has_handle KBuddy friends_world 4%positive 2
  /\ handle_map KBuddy (lib friends_world) !! 2 = Some 4%positive
  /\ value (lookup KBuddy 2) (exec (unregister KBuddy 4%positive) friends_world)
     = Return None
  /\ handle_map KBuddy (lib (exec (unregister KBuddy 4%positive) friends_world)) !! 3
     = handle_map KBuddy (lib friends_world) !! 3.
Proof.
  assert (Hh : has_handle KBuddy friends_world 4%positive 2) by (vm_compute; reflexivity).
  assert (Hr : handle_map KBuddy (lib friends_world) !! 2 = Some 4%positive)
    by (vm_compute; reflexivity).
  destruct (unregister_removes_own_entry KBuddy 2 4%positive friends_world Hh Hr)
    as (_ & H2 & H3 & _).
  split; [exact Hh|]. split; [exact Hr|]. split; [exact H2|]. apply H3. lia.
Defined.

(** X14. Registration under a free handle followed by deregistration of
    the same object gives back the handle dictionary as it was before. *)
Theorem register_then_unregister (k : kind) (h : Z) (o : loc) (w : World) :
  has_handle k w o h ->
  handle_map k (lib w) !! h = None ->
  value (register k h o ;; unregister k o) w = Return tt
  /\ (forall k', handle_map k' (lib (exec (register k h o ;; unregister k o) w))
                 = handle_map k' (lib w)).
Proof.
  intros Hh Hfree.
  assert (Hreg : value (register k h o) w = Return tt) by (by eapply register_returns).
  assert (Hh1 : has_handle k (exec (register k h o) w) o h).
  { unfold has_handle. by rewrite register_object_handle. }
  assert (Hrun : (register k h o ;; unregister k o) w
                 = unregister k o (exec (register k h o) w)).
  { by rewrite (bind_Return _ _ _ tt). }
  split.
  - unfold value. rewrite Hrun. by eapply unregister_returns.
  - intros k'. unfold exec at 1. rewrite Hrun.
    fold (exec (unregister k o) (exec (register k h o) w)).
    destruct (decide (k' = k)) as [->|Hne].
    + rewrite unregister_handle_map, (has_handle_carries _ _ _ _ Hh1),
        register_handle_map.
      rewrite decide_True by apply lookup_insert_eq.
      rewrite delete_insert_eq. by apply delete_id.
    + rewrite unregister_other_kind by done. by apply register_other_kind.
Qed.

Lemma register_then_unregister_witness :
  has_handle KBuddy loose_buddy_world 2%positive 3
  /\ handle_map KBuddy (lib loose_buddy_world) !! 3 = None
  /\ value (register KBuddy 3 2%positive ;; unregister KBuddy 2%positive)
       loose_buddy_world = Return tt
  /\ handle_map KBuddy
       (lib (exec (register KBuddy 3 2%positive ;; unregister KBuddy 2%positive)
               loose_buddy_world))
     = handle_map KBuddy (lib loose_buddy_world).
Proof.
  assert (Hh : has_handle KBuddy loose_buddy_world 2%positive 3)
    by (vm_compute; reflexivity).
  assert (Hf : handle_map KBuddy (lib loose_buddy_world) !! 3 = None) by reflexivity.
  destruct (register_then_unregister KBuddy 3 2%positive loose_buddy_world Hh Hf)
    as [H1 H2].
  split; [exact Hh|]. split; [exact Hf|]. split; [exact H1|apply H2].
Defined.

(** X15. The three kinds are separate name spaces: registry operations
    on other kinds never change the handle dictionary of a kind, so the same
    integer can be the handle of a call, an account and a buddy at once. *)
Theorem kinds_are_separate (k : kind) (ops : list op) (w : World) :
  Forall (fun o => op_kind o ≠ k) ops ->
  handle_map k (lib (run_ops ops w)) = handle_map k (lib w).
Proof.
  intros Hops. revert w.
  induction Hops as [|o ops Ho _ IH]; intros w; simpl; [done|].
  rewrite IH. destruct o as [k' h x|k' x]; simpl in *.
  - by apply register_other_kind.
  - by apply unregister_other_kind.
Qed.

Lemma kinds_are_separate_witness :
  Forall (fun o => op_kind o ≠ KBuddy)
         [Register KCall 2 6%positive; Register KAccount 2 6%positive;
          Unregister KCall 4%positive]
  /\ handle_map KBuddy
       (lib (run_ops [Register KCall 2 6%positive; Register KAccount 2 6%positive;
                      Unregister KCall 4%positive] friends_world))
     = handle_map KBuddy (lib friends_world).
Proof.
  assert (H : Forall (fun o => op_kind o ≠ KBuddy)
                [Register KCall 2 6%positive; Register KAccount 2 6%positive;
                 Unregister KCall 4%positive]).
  { constructor; [discriminate|]. constructor; [discriminate|].
    constructor; [discriminate|]. constructor. }
  split; [exact H|]. exact (kinds_are_separate KBuddy _ friends_world H).
Defined.

(** ** Destruction *)

(** X16. The destructor of a call or of an account changes nothing in any
    world, whatever object it is run on.  The destructor of a buddy that is
    registered under its own handle removes that entry, so that a lookup of
    the handle returns [None], and keeps the other entries. *)
Theorem destroy_effect (w : World) (o : loc) :
  exec (destroy KCall o) w = w
  /\ exec (destroy KAccount o) w = w
  /\ (forall h : Z,
        has_handle KBuddy w o h ->
        Lib.buddy (lib w) !! h = Some o ->
        let w' := exec (destroy KBuddy o) w in
        value (lookup KBuddy h) w' = Return None
        /\ (forall h', h' ≠ h -> Lib.buddy (lib w') !! h' = Lib.buddy (lib w) !! h')
        /\ Lib.call (lib w') = Lib.call (lib w)
        /\ Lib.account (lib w') = Lib.account (lib w)
        /\ heap w' = heap w).
Proof.
  split; [by apply destroy_keeps_calls_and_accounts|].
  split; [by apply destroy_keeps_calls_and_accounts|].
  intros h Hh Hreg w'. unfold w'. rewrite destroy_buddy.
  assert (Hmap : handle_map KBuddy (lib (exec (unregister KBuddy o) w))
                 = delete h (handle_map KBuddy (lib w))).
  { rewrite unregister_handle_map, (has_handle_carries _ _ _ _ Hh).
    by rewrite decide_True. }
  split; [rewrite lookup_value, Hmap; by rewrite lookup_delete_eq|].
  split.
  { intros h' Hne.
    change (handle_map KBuddy (lib (exec (unregister KBuddy o) w)) !! h'
            = handle_map KBuddy (lib w) !! h').
    rewrite Hmap. by rewrite lookup_delete_ne. }
  split; [apply (unregister_other_kind KCall KBuddy); discriminate|].
  split; [apply (unregister_other_kind KAccount KBuddy); discriminate|].
  apply unregister_heap.
Qed.

Lemma destroy_effect_witness :
  has_handle KBuddy friends_world 6%positive 3
  /\ Lib.buddy (lib friends_world) !! 3 = Some 6%positive
  /\ value (lookup KBuddy 3) (exec (destroy KBuddy 6%positive) friends_world)
     = Return None
  /\ Lib.buddy (lib (exec (destroy KBuddy 6%positive) friends_world)) !! 2
     = Lib.buddy (lib friends_world) !! 2.
Proof.
  assert (Hh : has_handle KBuddy friends_world 6%positive 3) by (vm_compute; reflexivity).
  assert (Hr : Lib.buddy (lib friends_world) !! 3 = Some 6%positive)
    by (vm_compute; reflexivity).
  destruct (destroy_effect friends_world 6%positive) as (_ & _ & Hb).
  destruct (Hb 3 Hh Hr) as (H1 & H2 & _).
  split; [exact Hh|]. split; [exact Hr|]. split; [exact H1|]. apply H2. lia.
Defined.

Lemma pager_to_buddy (w : World) (call_id : Z)
    (from_uri to_uri contact mime_type body : string) (acc_id : Z) (b cb : loc)
    (o : Buddy.t) (h : BuddyCallback.t) :
  (call_id = -1 -> Lib.call (lib w) !! (-1) = None) ->
  str_true from_uri = true ->
  Lib.buddy_by_uri (lib w) !! uri_key (engine w) from_uri = Some b ->
  Lib.buddy (lib w) !! (-1) = None ->
  heap w !! b = Some (OBuddy o) ->
  Buddy._cb o = Some cb ->
  heap w !! cb = Some (OBuddyCallback h) ->
  let m := Lib__cb_on_pager call_id from_uri to_uri contact mime_type body acc_id in
  value m w = Return tt
  /\ trace (exec m w) = trace w ++ [EvBuddyCb cb (Buddy_on_pager mime_type body)].
Proof.
  intros Hcall Hu Hb Hs Ho Hcb Hh m. unfold m, Lib__cb_on_pager.
  unfold uri_key in Hb. simpl in Hb. rewrite Hu in Hb.
  destruct (decide (call_id = -1)) as [->|Hne]; py; rewrite ?Hcall by done;
    rewrite Hu, Hs; simpl; rewrite Hb; crack; done.
Qed.

(** X17. A buddy that was constructed and then destroyed is gone from
    the handle dictionary, so a presence notification for its handle is
    dropped; but it stays in the URI index, so a message whose sender
    decodes to the buddy's user and host is still delivered to the handler
    of the destroyed buddy. *)
Theorem destroyed_buddy_still_gets_messages (w : World) (id : Z) (account : loc)
    (from_uri : string) :
  tuple_keys (lib w) ->
  Lib.buddy (lib w) !! (-1) = None ->
  Lib.call (lib w) !! (-1) = None ->
  str_true from_uri = true ->
  uri_key (engine w) from_uri = buddy_key (engine w) id ->
  let b := fresh (dom (heap w)) in
  let cb := fresh (dom (<[b := OBuddy Buddy_class]> (heap w))) in
  let w2 := exec (destroy KBuddy b) (exec (Buddy_new id account) w) in
  value (lookup KBuddy id) w2 = Return None
  /\ trace (exec (Lib__cb_on_buddy_state id) w2) = trace w2
  /\ (forall (call_id : Z) (to_uri contact mime_type body : string) (acc_id : Z),
        let m := Lib__cb_on_pager call_id from_uri to_uri contact mime_type body
                   acc_id in
        value m w2 = Return tt
        /\ trace (exec m w2) = trace w2 ++ [EvBuddyCb cb (Buddy_on_pager mime_type body)]).
Proof.
  intros Ht Hs Hc Hu Hk b cb w2.
  destruct (Buddy_new_facts w id account)
    as (Hl & (o & Ho & Hid & Hcb & _) & Hh & _ & _ & He & _).
  fold b in Hl, Ho. fold cb in Hcb, Hh.
  set (w1 := exec (Buddy_new id account) w) in *.
  assert (Hb1 : has_handle KBuddy w1 b id).
  { unfold has_handle, object_handle. by rewrite Ho, Hid. }
  assert (Ht1 : tuple_keys (lib w1)).
  { intros s. rewrite Hl. simpl. rewrite lookup_insert_ne by discriminate. apply Ht. }
  assert (Hw2 : w2 = {| heap := heap w1; lib := Lib.set_buddy (delete id) (lib w1);
                        engine := engine w1; trace := trace w1;
                        stdout := stdout w1 ++ [[VStr "lookup_buddy, id="; VInt id]] |}).
  { unfold w2. rewrite destroy_buddy. unfold exec at 1, unregister.
    rewrite (disassociate_buddy_run id b w1 Hb1 Ht1).
    rewrite decide_True; [done|]. rewrite Hl. simpl. apply lookup_insert_eq. }
  assert (Hgone : Lib.buddy (lib w2) !! id = None).
  { rewrite Hw2. simpl. apply lookup_delete_eq. }
  split; [rewrite lookup_value; simpl; by rewrite Hgone|].
  split.
  { unfold Lib__cb_on_buddy_state. py. by rewrite Hgone. }
  intros call_id to_uri contact mime_type body acc_id.
  apply (pager_to_buddy w2 call_id from_uri to_uri contact mime_type body acc_id
           b cb o {| BuddyCallback.buddy := Some b |}).
  - intros _. rewrite Hw2. simpl. rewrite Hl. simpl. exact Hc.
  - exact Hu.
  - rewrite Hw2. simpl. rewrite He, Hk, Hl. simpl. apply lookup_insert_eq.
  - rewrite Hw2. simpl. rewrite Hl. simpl.
    destruct (decide (id = -1)) as [->|Hne].
    + apply lookup_delete_eq.
    + by rewrite lookup_delete_ne, lookup_insert_ne.
  - rewrite Hw2. exact Ho.
  - exact Hcb.
  - rewrite Hw2. exact Hh.
Qed.

Lemma destroyed_buddy_still_gets_messages_witness :
  tuple_keys (lib account_world)
  /\ uri_key (engine account_world) "sip:bob@example.com:5060"
     = buddy_key (engine account_world) 2
  /\ value (lookup KBuddy 2)
       (exec (destroy KBuddy 4%positive) (exec (Buddy_new 2 2%positive) account_world))
     = Return None
  /\ trace (exec (Lib__cb_on_pager (-1) "sip:bob@example.com:5060" "sip:me@example.com"
                    "sip:bob@192.0.2.7" "text/plain" "hello" 0)
              (exec (destroy KBuddy 4%positive)
                 (exec (Buddy_new 2 2%positive) account_world)))
     = trace (exec (destroy KBuddy 4%positive)
                (exec (Buddy_new 2 2%positive) account_world))
       ++ [EvBuddyCb 5%positive (Buddy_on_pager "text/plain" "hello")].
Proof.
  assert (Ht : tuple_keys (lib account_world)) by (intros s; apply lookup_empty).
  assert (Hk : uri_key (engine account_world) "sip:bob@example.com:5060"
               = buddy_key (engine account_world) 2) by (vm_compute; reflexivity).
  destruct (destroyed_buddy_still_gets_messages account_world 2 2%positive
              "sip:bob@example.com:5060" Ht) as (H1 & _ & H3);
    try (vm_compute; reflexivity).
  split; [exact Ht|]. split; [exact Hk|]. split; [exact H1|].
  exact (proj2 (H3 (-1) "sip:me@example.com" "sip:bob@192.0.2.7" "text/plain" "hello" 0)).
Defined.

(** ** Strings *)

Lemma append_cons (x : ascii) (a b : string) : String x a +:+ b = String x (a +:+ b).
Proof. reflexivity. Qed.

Lemma append_assoc (a b c : string) : (a +:+ b) +:+ c = a +:+ b +:+ c.
Proof.
  induction a as [|x a IH]; [reflexivity|]. rewrite !append_cons. by rewrite IH.
Qed.

Lemma append_empty (a : string) : a +:+ EmptyString = a.
Proof. induction a as [|x a IH]; [reflexivity|]. rewrite append_cons. by rewrite IH. Qed.

(** ** Encoding a URI *)

(** X18. [SIPUri.encode] raises [TypeError] exactly for the URIs that have
    a port other than zero, whatever their other parts; a URI without port
    is encoded as its scheme and a colon, its user and an at-sign when the
    user is not empty, its host, and [;transport=] with the transport when
    that is not empty. *)
Theorem encode_fails_with_port (u : SIPUri.t) :
  (SIPUri.port u ≠ 0 <-> SIPUri_encode u = Raise TypeError)
  /\ (SIPUri.port u = 0 ->
      SIPUri_encode u
      = Return (((SIPUri.scheme u +:+ ":")
                 +:+ (if str_true (SIPUri.user u) then SIPUri.user u +:+ "@"
                      else EmptyString)
                 +:+ SIPUri.host u)
                +:+ (if str_true (SIPUri.transport u)
                     then ";transport=" +:+ SIPUri.transport u else EmptyString))).
Proof.
  assert (Hlen : forall s, str_true s = true -> Nat.eqb (String.length s) 0 = false).
  { intros [|a s]; [done|reflexivity]. }
  unfold SIPUri_encode. split.
  - destruct (Z.eqb_spec (SIPUri.port u) 0) as [->|Hne]; simpl.
    + split; [done|]. by destruct (str_true (SIPUri.transport u)).
    + done.
  - intros ->. simpl.
    destruct (str_true (SIPUri.user u)) eqn:Hu; simpl.
    + rewrite (Hlen _ Hu). simpl.
      destruct (str_true (SIPUri.transport u)); simpl; f_equal;
        rewrite ?append_empty, ?append_assoc; reflexivity.
    + destruct (str_true (SIPUri.transport u)); simpl; f_equal;
        rewrite ?append_empty, ?append_assoc; reflexivity.
Qed.

Lemma encode_fails_with_port_witness :
  SIPUri_encode {| SIPUri.scheme := "sip"; SIPUri.user := "alice";
                   SIPUri.host := "example.com"; SIPUri.port := 0;
                   SIPUri.transport := "tcp" |}
  = Return "sip:alice@example.com;transport=tcp"
  /\ SIPUri_encode {| SIPUri.scheme := "sip"; SIPUri.user := "alice";
                      SIPUri.host := "example.com"; SIPUri.port := 5060;
                      SIPUri.transport := "tcp" |}
     = Raise TypeError.
Proof.
  split.
  - exact (proj2 (encode_fails_with_port
                    {| SIPUri.scheme := "sip"; SIPUri.user := "alice";
                       SIPUri.host := "example.com"; SIPUri.port := 0;
                       SIPUri.transport := "tcp" |}) eq_refl).
  - apply (proj1 (encode_fails_with_port _)). simpl. lia.
Defined.

(** ** Account configuration *)

Lemma substring_all (s : string) : String.substring 0 (String.length s) s = s.
Proof. induction s as [|x s IH]; [reflexivity|]. simpl. by rewrite IH. Qed.

Lemma substring_append (a b : string) :
  String.substring (String.length a) (String.length b) (a +:+ b) = b.
Proof.
  induction a as [|x a IH]; [apply substring_all|].
  rewrite append_cons. simpl. exact IH.
Qed.

Lemma ends_with_lr (a : string) : lacks_lr (a +:+ ";lr") = false.
Proof.
  unfold lacks_lr. destruct (String.index 0 ";lr" (a +:+ ";lr")) eqn:Hi; [done|].
  exfalso. apply (String.index_correct3 0 (String.length a) _ _ Hi); [discriminate|apply Nat.le_0_l|].
  apply (substring_append a ";lr").
Qed.

(** X19. Whatever its arguments, [AccountConfig.build_config] appends one
    proxy URI to the proxies of the configuration, and that URI contains
    [;lr]: it is the given proxy when that contains [;lr], the given proxy
    followed by [;lr] when it is not empty and does not, and
    [sip:<domain>;lr] when no proxy is given.  The registrar URI it sets is
    never empty, and it adds a credential, for realm [*] with scheme
    [Digest] and a plain-text password, exactly when the user name is not
    empty. *)
Theorem build_config_proxy_has_lr (domain username password display registrar
    proxy : string) (self : AccountConfig.t) (auth_cred : list AuthCred.t) :
  let r := AccountConfig_build_config domain username password display registrar
             proxy self auth_cred in
  (exists p : string,
      AccountConfig.proxy (fst r) = AccountConfig.proxy self ++ [p]
      /\ lacks_lr p = false
      /\ p = (if String.eqb proxy EmptyString then "sip:" +:+ domain +:+ ";lr"
              else if lacks_lr proxy then proxy +:+ ";lr" else proxy))
  /\ str_true (AccountConfig.reg_uri (fst r)) = true
  /\ snd r = (if str_true username
              then auth_cred
                   ++ [{| AuthCred.scheme := "Digest"; AuthCred.realm := "*";
                          AuthCred.username := username; AuthCred.passwd_type := 0;
                          AuthCred.passwd := password |}]
              else auth_cred).
Proof.
  intros r. unfold r, AccountConfig_build_config. simpl. split; [|split].
  - eexists. split; [reflexivity|].
    destruct (String.eqb proxy EmptyString) eqn:Hp; simpl.
    + assert (Hl : lacks_lr ("sip:" +:+ domain +:+ ";lr") = false).
      { rewrite <- append_assoc. apply ends_with_lr. }
      rewrite Hl. done.
    + destruct (lacks_lr proxy) eqn:Hl; simpl.
      * by rewrite ends_with_lr.
      * by rewrite Hl.
  - destruct (String.eqb registrar EmptyString) eqn:Hr.
    + reflexivity.
    + unfold str_true. by rewrite Hr.
  - reflexivity.
Qed.

(** X20. The credentials of all [AccountConfig] objects are one list.
    When two configurations are made one after the other, each for a domain
    and a user, the list holds the credentials of both users after what it
    held before, and the engine configuration made from either object,
    the first as well as the second, carries all of them. *)
Theorem credentials_are_shared (default : Acc_Config) (d1 u1 p1 d2 u2 p2 : string)
    (shared : list AuthCred.t) :
  str_true d1 = true -> str_true u1 = true ->
  str_true d2 = true -> str_true u2 = true ->
  cfg_cred_info default = [] ->
  let r1 := AccountConfig_for default d1 u1 p1 shared in
  let r2 := AccountConfig_for default d2 u2 p2 (snd r1) in
  let both := shared ++ [AuthCred___init__ "*" u1 p1 "Digest" 0;
                         AuthCred___init__ "*" u2 p2 "Digest" 0] in
  snd r2 = both
  /\ cfg_cred_info (AccountConfig__cvt_to_pjsua default (fst r2) (snd r2))
     = map cred_info_of both
  /\ cfg_cred_info (AccountConfig__cvt_to_pjsua default (fst r1) (snd r2))
     = map cred_info_of both.
Proof.
  intros Hd1 Hu1 Hd2 Hu2 Hdef r1 r2 both.
  assert (H2 : snd r2 = both).
  { unfold r2, r1, both, AccountConfig_for, AccountConfig___init__,
      AccountConfig__cvt_from_pjsua, AccountConfig_build_config.
    rewrite Hdef, Hd1, Hd2. simpl. rewrite Hu1, Hu2. simpl.
    rewrite !app_nil_r. by rewrite <- app_assoc. }
  split; [exact H2|].
  unfold AccountConfig__cvt_to_pjsua. simpl. rewrite H2, Hdef. done.
Qed.

Lemma credentials_are_shared_witness :
  cfg_cred_info
    (AccountConfig__cvt_to_pjsua demo_acc_config
       (fst (AccountConfig_for demo_acc_config "example.org" "bob" "hunter2"
               (snd (AccountConfig_for demo_acc_config "example.com" "alice"
                       "secret" []))))
       (snd (AccountConfig_for demo_acc_config "example.org" "bob" "hunter2"
               (snd (AccountConfig_for demo_acc_config "example.com" "alice"
                       "secret" [])))))
  = [ {| cred_realm := "*"; cred_scheme := "Digest"; cred_username := "alice";
         cred_data_type := 0; cred_data := "secret" |};
      {| cred_realm := "*"; cred_scheme := "Digest"; cred_username := "bob";
         cred_data_type := 0; cred_data := "hunter2" |} ].
Proof.
  exact (proj1 (proj2 (credentials_are_shared demo_acc_config "example.com" "alice"
                         "secret" "example.org" "bob" "hunter2" []
                         eq_refl eq_refl eq_refl eq_refl eq_refl))).
Defined.

(** X21. Conversion from an engine configuration and back gives the
    configuration again, credentials included, when the list of the class
    was empty before and the engine's default configuration has no
    credentials. *)
Theorem account_config_round_trip (default cfg : Acc_Config) :
  cfg_cred_info default = [] ->
  AccountConfig__cvt_to_pjsua default
    (fst (AccountConfig__cvt_from_pjsua cfg []))
    (snd (AccountConfig__cvt_from_pjsua cfg []))
  = cfg.
Proof.
  intros Hdef. destruct cfg as [? ? ? ? ? ? ? ? ? creds ? ? ? ? ? ? ? ?].
  unfold AccountConfig__cvt_to_pjsua, AccountConfig__cvt_from_pjsua. simpl.
  rewrite Hdef. simpl. f_equal.
  rewrite map_map. simpl.
  induction creds as [|[] creds IH]; simpl; [done|]. by rewrite IH.
Qed.

Lemma account_config_round_trip_witness :
  AccountConfig__cvt_to_pjsua demo_acc_config
    (fst (AccountConfig__cvt_from_pjsua demo_acc_config []))
    (snd (AccountConfig__cvt_from_pjsua demo_acc_config []))
  = demo_acc_config.
Proof. exact (account_config_round_trip demo_acc_config demo_acc_config eq_refl). Defined.

(** ** Codec parameters *)

(** X22. A [CodecParameter] made from an engine structure whose frame
    length is not zero converts back to that structure, and the object is
    left as it was.  With a frame length of zero the conversion raises
    (division by zero). *)
Theorem codec_parameter_round_trip (cp : Codec_Param) :
  (info_frm_ptime (cp_info cp) ≠ 0 ->
   CodecParameter__cvt_to_pjsua (CodecParameter___init__ cp)
   = Some (CodecParameter___init__ cp, cp))
  /\ (info_frm_ptime (cp_info cp) = 0 ->
      forall self, CodecParameter._codec_param self = cp ->
                   CodecParameter__cvt_to_pjsua self = None).
Proof.
  destruct cp as [[cr cc ab fp pt] [n vad plc]].
  unfold CodecParameter__cvt_to_pjsua, CodecParameter___init__. simpl. split.
  - intros Hfp. destruct (Z.eqb_spec fp 0) as [|_]; [done|].
    rewrite Z.mul_comm, Z.div_mul by done. reflexivity.
  - intros -> self ->. reflexivity.
Qed.

Lemma codec_parameter_round_trip_witness :
  CodecParameter__cvt_to_pjsua
    (CodecParameter___init__
       {| cp_info := {| info_clock_rate := 8000; info_channel_count := 1;
                        info_avg_bps := 64000; info_frm_ptime := 10; info_pt := 0 |};
          cp_setting := {| setting_frm_per_pkt := 2; setting_vad := true;
                           setting_plc := true |} |})
  = Some (CodecParameter___init__
            {| cp_info := {| info_clock_rate := 8000; info_channel_count := 1;
                             info_avg_bps := 64000; info_frm_ptime := 10; info_pt := 0 |};
               cp_setting := {| setting_frm_per_pkt := 2; setting_vad := true;
                                setting_plc := true |} |},
          {| cp_info := {| info_clock_rate := 8000; info_channel_count := 1;
                           info_avg_bps := 64000; info_frm_ptime := 10; info_pt := 0 |};
             cp_setting := {| setting_frm_per_pkt := 2; setting_vad := true;
                              setting_plc := true |} |}).
Proof.
  apply (proj1 (codec_parameter_round_trip _)). simpl. lia.
Defined.

(** X23. When the application sets [ptime] on a [CodecParameter] whose
    codec has a positive frame length, the conversion asks the engine for
    the largest whole number of frames per packet that fits: that number of
    frames is no longer than [ptime], one frame more is longer.  The
    codec description is not changed. *)
Theorem codec_ptime_rounds_down (self : CodecParameter.t) (v : Z) :
  0 < info_frm_ptime (cp_info (CodecParameter._codec_param self)) ->
  exists (self' : CodecParameter.t) (cp' : Codec_Param),
    CodecParameter__cvt_to_pjsua (CodecParameter_with_ptime v self) = Some (self', cp')
    /\ cp_info cp' = cp_info (CodecParameter._codec_param self)
    /\ info_frm_ptime (cp_info cp') * setting_frm_per_pkt (cp_setting cp') <= v
    /\ v < info_frm_ptime (cp_info cp') * (setting_frm_per_pkt (cp_setting cp') + 1).
Proof.
  intros Hpos. unfold CodecParameter__cvt_to_pjsua, CodecParameter_with_ptime. simpl.
  destruct (Z.eqb_spec (info_frm_ptime (cp_info (CodecParameter._codec_param self))) 0)
    as [H0|_]; [lia|].
  eexists _, _. split; [reflexivity|]. simpl. split; [done|]. split.
  - by apply Z.mul_div_le.
  - rewrite Z.add_1_r. by apply Z.mul_succ_div_gt.
Qed.

Lemma codec_ptime_rounds_down_witness :
  exists (self' : CodecParameter.t) (cp' : Codec_Param),
    CodecParameter__cvt_to_pjsua
      (CodecParameter_with_ptime 35
         (CodecParameter___init__
            {| cp_info := {| info_clock_rate := 8000; info_channel_count := 1;
                             info_avg_bps := 64000; info_frm_ptime := 10;
                             info_pt := 0 |};
               cp_setting := {| setting_frm_per_pkt := 2; setting_vad := true;
                                setting_plc := true |} |}))
    = Some (self', cp')
    /\ setting_frm_per_pkt (cp_setting cp') = 3.
Proof.
  destruct (codec_ptime_rounds_down
              (CodecParameter___init__
                 {| cp_info := {| info_clock_rate := 8000; info_channel_count := 1;
                                  info_avg_bps := 64000; info_frm_ptime := 10;
                                  info_pt := 0 |};
                    cp_setting := {| setting_frm_per_pkt := 2; setting_vad := true;
                                     setting_plc := true |} |}) 35)
    as (self' & cp' & Hrun & Hinfo & Hle & Hlt); [simpl; lia|].
  exists self', cp'. split; [exact Hrun|].
  rewrite Hinfo in Hle, Hlt. simpl in Hle, Hlt. lia.
Defined.

(** ** Life cycle *)

Lemma worker_keeps (p : Process) :
  _lib (_worker_thread_main p) = _lib p /\
  _has_thread (_worker_thread_main p) = _has_thread p /\
  calls (_worker_thread_main p) = calls p.
Proof.
  unfold _worker_thread_main.
  destruct (workers p); [done|].
  destruct (_lib p) eqn:E; [|by rewrite <- E].
  case_decide; simpl; by rewrite ?E.
Qed.

Lemma replicate_snoc {A} (n : nat) (x : A) :
  replicate n x ++ [x] = x :: replicate n x.
Proof. induction n; simpl; congruence. Qed.

Lemma destroy_while_bounded (sched : nat -> bool) (self : loc) (fuel : nat) :
  forall (loop : Z) (p : Process),
    0 <= loop <= 400 -> (Z.to_nat (400 - loop) < fuel)%nat ->
    exists (n : nat) (p' : Process),
      Lib_destroy_while fuel sched self loop p = Some p' /\
      Z.of_nat n <= 400 - loop /\
      calls p' = calls p ++ replicate n (pj_handle_events 50) /\
      _lib p' = _lib p /\ _has_thread p' = _has_thread p.
Proof.
  induction fuel as [|fuel IH]; intros loop p Hl Hf; [lia|].
  simpl.
  set (q := if sched (Z.to_nat loop) then _worker_thread_main p else p).
  assert (Hq : _lib q = _lib p /\ _has_thread q = _has_thread p /\
               calls q = calls p).
  { unfold q. destruct (sched _); [apply worker_keeps|done]. }
  destruct Hq as (Hq1 & Hq2 & Hq3).
  case_decide as Hc.
  - destruct (IH (loop + 1) (call_pjsua (pj_handle_events 50) q))
      as (n & p' & H1 & H2 & H3 & H4 & H5); [lia|lia|].
    exists (S n), p'. split; [done|]. split; [lia|].
    simpl in *. rewrite H3, Hq3, <- app_assoc. simpl.
    split; [done|]. split; congruence.
  - exists 0%nat, q. simpl. rewrite app_nil_r. split; [done|].
    split; [lia|]. split; [done|]. split; congruence.
Qed.

Lemma destroy_bounded (fuel : nat) (sched : nat -> bool) (self : loc)
    (p : Process) :
  (400 < fuel)%nat ->
  exists (n : nat) (p' : Process),
    Lib_destroy fuel sched self p = Some p' /\ (n <= 400)%nat /\
    calls p' = calls p ++ replicate n (pj_handle_events 50) ++ [pj_destroy] /\
    _lib p' = None /\ _has_thread p' = _has_thread p /\
    (Lib__has_thread self p = false -> n = 0%nat).
Proof.
  intros Hf. unfold Lib_destroy.
  destruct (Lib__has_thread self p) eqn:Ht.
  - destruct (destroy_while_bounded sched self fuel 0 (set__quit self 1 p))
      as (n & p' & H1 & H2 & H3 & H4 & H5); [lia|lia|].
    exists n, (set__lib None (call_pjsua pj_destroy p')).
    rewrite H1. simpl in *. rewrite H3, <- app_assoc.
    repeat split; [lia|done|done].
  - exists 0%nat, (set__lib None (call_pjsua pj_destroy p)).
    simpl. repeat split; done || lia.
Qed.

(** The worker cannot answer [self]: it never has its turn, or [self] is not
    the current instance, or no worker is left. *)
Lemma worker_cannot_answer (sched : nat -> bool) (self : loc) (p : Process)
    (i : nat) :
  (forall j, sched j = false) \/ _lib p <> Some self \/ workers p = 0%nat ->
  let q := if sched i then _worker_thread_main p else p in
  Lib__quit self q = Lib__quit self p /\ _lib q = _lib p /\
  calls q = calls p /\ _has_thread q = _has_thread p /\
  ((forall j, sched j = false) -> workers q = workers p) /\
  (workers p = 0%nat -> workers q = 0%nat).
Proof.
  intros H. simpl.
  destruct (sched i) eqn:Hs; [|done].
  destruct H as [H|[H|H]]; [by rewrite H in Hs| |].
  - unfold _worker_thread_main.
    destruct (workers p) eqn:Hw; [done|].
    destruct (_lib p) as [l|] eqn:El; simpl.
    + case_decide; [by rewrite ?El, ?Hw|]. simpl.
      unfold Lib__quit. simpl. rewrite lookup_insert_ne by congruence.
      repeat split; try done. intros Hn. by rewrite Hn in Hs.
    + rewrite El. repeat split; try done. intros Hn. by rewrite Hn in Hs.
  - unfold _worker_thread_main. by rewrite H.
Qed.

Lemma destroy_while_unanswered (sched : nat -> bool) (self : loc)
    (fuel : nat) :
  forall (loop : Z) (p : Process),
    0 <= loop <= 400 -> (Z.to_nat (400 - loop) < fuel)%nat ->
    (forall j, sched j = false) \/ _lib p <> Some self \/ workers p = 0%nat ->
    Lib__quit self p = 1 ->
    exists p' : Process,
      Lib_destroy_while fuel sched self loop p = Some p' /\
      calls p' =
        calls p ++ replicate (Z.to_nat (400 - loop)) (pj_handle_events 50) /\
      Lib__quit self p' = 1 /\ _lib p' = _lib p /\
      ((forall j, sched j = false) -> workers p' = workers p).
Proof.
  induction fuel as [|fuel IH]; intros loop p Hl Hf Hb Hq; [lia|].
  simpl.
  destruct (worker_cannot_answer sched self p (Z.to_nat loop) Hb)
    as (W1 & W2 & W3 & W4 & W5 & W6).
  set (q := if sched (Z.to_nat loop) then _worker_thread_main p else p) in *.
  case_decide as Hc.
  - destruct (IH (loop + 1) (call_pjsua (pj_handle_events 50) q))
      as (p' & H1 & H2 & H3 & H4 & H5); [lia|lia| | |].
    + simpl. rewrite W2.
      destruct Hb as [Hb|[Hb|Hb]]; [by left|by right; left|].
      right; right. by apply W6.
    + unfold Lib__quit in *. simpl. congruence.
    + exists p'. split; [done|]. simpl in *.
      replace (Z.to_nat (400 - loop)) with (S (Z.to_nat (400 - (loop + 1))))
        by lia.
      rewrite H2, W3, <- app_assoc. simpl.
      split; [done|]. split; [done|]. split; [congruence|].
      intros Hn. rewrite H5 by done. by apply W5.
  - assert (loop = 400) as -> by (rewrite W1, Hq in Hc; lia).
    exists q. simpl. rewrite app_nil_r.
    repeat split; try done; congruence.
Qed.

Lemma destroy_unanswered (fuel : nat) (sched : nat -> bool) (self : loc)
    (p : Process) :
  (400 < fuel)%nat ->
  Lib__has_thread self p = true ->
  (forall j, sched j = false) \/ _lib p <> Some self \/ workers p = 0%nat ->
  exists p' : Process,
    Lib_destroy fuel sched self p = Some p' /\
    calls p' =
      calls p ++ replicate 400 (pj_handle_events 50) ++ [pj_destroy] /\
    Lib__quit self p' = 1 /\ _lib p' = None /\
    ((forall j, sched j = false) -> workers p' = workers p).
Proof.
  intros Hf Ht Hb. unfold Lib_destroy. rewrite Ht.
  destruct (destroy_while_unanswered sched self fuel 0 (set__quit self 1 p))
    as (p' & H1 & H2 & H3 & H4 & H5); [lia|lia|done| |].
  { unfold Lib__quit. simpl. by rewrite lookup_insert_eq. }
  exists (set__lib None (call_pjsua pj_destroy p')).
  rewrite H1. simpl in *.
  change (Z.to_nat (400 - 0)) with 400%nat in H2.
  rewrite H2, <- app_assoc.
  repeat split; done.
Qed.

Lemma destroy_while_answered (sched : nat -> bool) (self : loc) (k w : nat)
    (fuel : nat) :
  (k <= 400)%nat -> sched k = true ->
  (forall j, (j < k)%nat -> sched j = false) ->
  forall (i : nat) (p : Process),
    (i <= k)%nat -> (k - i < fuel)%nat ->
    _lib p = Some self -> workers p = S w -> Lib__quit self p = 1 ->
    exists p' : Process,
      Lib_destroy_while fuel sched self (Z.of_nat i) p = Some p' /\
      calls p' = calls p ++ replicate (k - i) (pj_handle_events 50) /\
      Lib__quit self p' = 2 /\ workers p' = w /\ _lib p' = Some self.
Proof.
  intros Hk Hs Hn.
  induction fuel as [|fuel IH]; intros i p Hi Hf Hl Hw Hq; [lia|].
  simpl. rewrite Nat2Z.id.
  destruct (decide (i = k)) as [->|Hne].
  - rewrite Hs. unfold _worker_thread_main. rewrite Hw, Hl.
    rewrite (decide_False (P := Lib__quit self p = 0))
      by (rewrite Hq; lia).
    rewrite decide_False.
    2:{ unfold Lib__quit. simpl. rewrite lookup_insert_eq. simpl. tauto. }
    eexists. split; [done|]. simpl.
    rewrite Nat.sub_diag. simpl. rewrite app_nil_r.
    unfold Lib__quit. simpl. by rewrite lookup_insert_eq.
  - rewrite Hn by lia.
    rewrite decide_True by (rewrite Hq; lia).
    replace (Z.of_nat i + 1) with (Z.of_nat (S i)) by lia.
    destruct (IH (S i) (call_pjsua (pj_handle_events 50) p))
      as (p' & H1 & H2 & H3 & H4 & H5); [lia|lia|done|done|done|].
    exists p'. split; [done|]. simpl in H2.
    replace (k - i)%nat with (S (k - S i)) by lia.
    rewrite H2, <- app_assoc. done.
Qed.

(** X24: whatever the worker thread does and whenever it runs, [Lib.destroy]
    returns: it polls the engine with [handle_events(50)] at most 400 times,
    not at all when the instance has no worker thread, then calls
    [_pjsua.destroy()] once and clears the global [_lib]. *)
Theorem destroy_polls_at_most_400_times (k : nat) (sched : nat -> bool)
    (self : loc) (p : Process) :
  exists (n : nat) (p' : Process),
    Lib_destroy (401 + k) sched self p = Some p' /\ (n <= 400)%nat /\
    calls p' = calls p ++ replicate n (pj_handle_events 50) ++ [pj_destroy] /\
    _lib p' = None /\
    (Lib__has_thread self p = false -> n = 0%nat).
Proof.
  destruct (destroy_bounded (401 + k) sched self p)
    as (n & p' & H1 & H2 & H3 & H4 & _ & H6); [lia|].
  exists n, p'. done.
Qed.

(** X25: when the instance has a worker thread that cannot answer (it never
    gets its turn, or the instance is not the current [_lib], or no worker is
    left), [Lib.destroy] polls exactly 400 times and then destroys the engine
    all the same; [_quit] is left at 1, and a worker that never had its turn
    is still in its loop. *)
Theorem destroy_gives_up_waiting (k : nat) (sched : nat -> bool) (self : loc)
    (p : Process) :
  Lib__has_thread self p = true ->
  (forall j, sched j = false) \/ _lib p <> Some self \/ workers p = 0%nat ->
  exists p' : Process,
    Lib_destroy (401 + k) sched self p = Some p' /\
    calls p' =
      calls p ++ replicate 400 (pj_handle_events 50) ++ [pj_destroy] /\
    Lib__quit self p' = 1 /\ _lib p' = None /\
    ((forall j, sched j = false) -> workers p' = workers p).
Proof. intros Ht Hb. apply destroy_unanswered; [lia|done|done]. Qed.

Lemma destroy_gives_up_waiting_witness :
  exists p' : Process,
    Lib_destroy 401 (fun _ => false) 1%positive started_process = Some p' /\
    calls p' =
      calls started_process ++
      replicate 400 (pj_handle_events 50) ++ [pj_destroy] /\
    Lib__quit 1%positive p' = 1 /\ _lib p' = None /\
    ((forall j : nat, (fun _ : nat => false) j = false) ->
     workers p' = workers started_process).
Proof.
  apply (destroy_gives_up_waiting 0 (fun _ => false) 1%positive
           started_process).
  - reflexivity.
  - left. reflexivity.
Defined.

(** X26: a second [destroy()] on an instance that was started with a worker
    thread waits in vain: the first call has cleared [_lib], so no worker can
    set [_quit] to 2 any more, and the second call polls the full 400 times
    before it destroys the engine once more. *)
Theorem second_destroy_waits_in_vain (k1 k2 : nat) (s1 s2 : nat -> bool)
    (self : loc) (p : Process) :
  Lib__has_thread self p = true ->
  exists (n : nat) (p1 p2 : Process),
    Lib_destroy (401 + k1) s1 self p = Some p1 /\
    Lib_destroy (401 + k2) s2 self p1 = Some p2 /\
    calls p2 =
      calls p ++ replicate n (pj_handle_events 50) ++ [pj_destroy] ++
      replicate 400 (pj_handle_events 50) ++ [pj_destroy].
Proof.
  intros Ht.
  destruct (destroy_bounded (401 + k1) s1 self p)
    as (n & p1 & H1 & H2 & H3 & H4 & H5 & _); [lia|].
  destruct (destroy_unanswered (401 + k2) s2 self p1)
    as (p2 & G1 & G2 & _); [lia| | |].
  - unfold Lib__has_thread in *. by rewrite H5.
  - right; left. by rewrite H4.
  - exists n, p1, p2. split; [done|]. split; [done|].
    rewrite G2, H3, <- !app_assoc. done.
Qed.

Lemma second_destroy_waits_in_vain_witness :
  exists (n : nat) (p1 p2 : Process),
    Lib_destroy 401 (fun _ => true) 1%positive started_process = Some p1 /\
    Lib_destroy 401 (fun _ => true) 1%positive p1 = Some p2 /\
    calls p2 =
      calls started_process ++
      replicate n (pj_handle_events 50) ++ [pj_destroy] ++
      replicate 400 (pj_handle_events 50) ++ [pj_destroy].
Proof.
  apply (second_destroy_waits_in_vain 0 0 (fun _ => true) (fun _ => true)
           1%positive started_process).
  reflexivity.
Defined.

(** X27: the handshake.  When [self] is the current instance, has a worker
    thread in its loop, and the worker first gets its turn before the [k]-th
    test of the loop condition ([k <= 400]), [Lib.destroy] polls exactly [k]
    times; the worker has then left its loop and set [_quit] to 2. *)
Theorem destroy_stops_when_worker_answers (fuel k : nat)
    (sched : nat -> bool) (self : loc) (p : Process) :
  (k <= 400)%nat -> (k < fuel)%nat ->
  _lib p = Some self -> Lib__has_thread self p = true ->
  (0 < workers p)%nat ->
  sched k = true -> (forall j, (j < k)%nat -> sched j = false) ->
  exists p' : Process,
    Lib_destroy fuel sched self p = Some p' /\
    calls p' = calls p ++ replicate k (pj_handle_events 50) ++ [pj_destroy] /\
    Lib__quit self p' = 2 /\ S (workers p') = workers p /\ _lib p' = None.
Proof.
  intros Hk Hf Hl Ht Hw Hs Hn. unfold Lib_destroy. rewrite Ht.
  destruct (workers p) as [|w] eqn:Ew; [lia|].
  destruct (destroy_while_answered sched self k w fuel Hk Hs Hn 0%nat
              (set__quit self 1 p))
    as (p' & H1 & H2 & H3 & H4 & H5); [lia|lia|done|done| |].
  { unfold Lib__quit. simpl. by rewrite lookup_insert_eq. }
  change (Z.of_nat 0) with 0 in H1. rewrite H1.
  eexists. split; [done|]. simpl in *.
  rewrite Nat.sub_0_r in H2. rewrite H2, <- app_assoc.
  repeat split; try done. by rewrite H4.
Qed.

Lemma destroy_stops_when_worker_answers_witness :
  exists p' : Process,
    Lib_destroy 10 (fun j => bool_decide (j = 3%nat)) 1%positive
      started_process = Some p' /\
    calls p' =
      calls started_process ++
      replicate 3 (pj_handle_events 50) ++ [pj_destroy] /\
    Lib__quit 1%positive p' = 2 /\
    S (workers p') = workers started_process /\ _lib p' = None.
Proof.
  apply (destroy_stops_when_worker_answers 10 3
           (fun j => bool_decide (j = 3%nat)) 1%positive started_process).
  - lia.
  - lia.
  - reflexivity.
  - reflexivity.
  - vm_compute. lia.
  - reflexivity.
  - intros j Hj. apply bool_decide_eq_false. lia.
Defined.

(** X28: the singleton.  Once [Lib()] has succeeded, every further [Lib()]
    raises [Error] with code -1 and "Library instance already exist"
    whatever the engine would answer, and [_lib] stays the first instance.
    The constructor itself does not call the engine, but the rejected
    instance is finalised, and its [__del__] calls [_pjsua.destroy()]: the
    engine that the first instance uses is destroyed. *)
Theorem second_instance_is_rejected (a b : loc) (err : Z) (p : Process) :
  _lib p = None ->
  exists p1 : Process,
    Lib_new a 0 p = (Return tt, p1) /\
    calls p1 = calls p ++ [pj_create] /\
    _lib p1 = Some a /\
    Lib___init__ b err p1 =
      (Raise (Error "__init()__" None (-1) "Library instance already exist"),
       p1) /\
    Lib_new b err p1 =
      (Raise (Error "__init()__" None (-1) "Library instance already exist"),
       Lib___del__ p1) /\
    _lib (Lib___del__ p1) = Some a /\
    calls (Lib___del__ p1) = calls p ++ [pj_create; pj_destroy].
Proof.
  intros H. unfold Lib_new, Lib___init__ at 1. rewrite H. simpl.
  eexists. split; [done|]. split; [done|]. split; [done|].
  split; [done|]. split; [done|]. split; [done|].
  simpl. by rewrite <- app_assoc.
Qed.

Lemma second_instance_is_rejected_witness :
  exists p1 : Process,
    Lib_new 1%positive 0 init_process = (Return tt, p1) /\
    calls p1 = calls init_process ++ [pj_create] /\
    _lib p1 = Some 1%positive /\
    Lib___init__ 2%positive 0 p1 =
      (Raise (Error "__init()__" None (-1) "Library instance already exist"),
       p1) /\
    Lib_new 2%positive 0 p1 =
      (Raise (Error "__init()__" None (-1) "Library instance already exist"),
       Lib___del__ p1) /\
    _lib (Lib___del__ p1) = Some 1%positive /\
    calls (Lib___del__ p1) = calls init_process ++ [pj_create; pj_destroy].
Proof.
  apply (second_instance_is_rejected 1%positive 2%positive 0 init_process).
  reflexivity.
Defined.

(** X29: [Lib.destroy] frees the singleton.  From a state with no instance,
    creating [a], destroying it and creating [b] succeeds and leaves [b] as
    the instance; the engine has seen create, at most 400 polls, destroy and
    create.  When the application then drops [a], the finaliser of [a]
    calls [_pjsua.destroy()] once more, on the engine that [b] uses, and
    [_lib] stays [b].  When the engine refuses the second creation with a
    non-zero status, [Lib()] raises [Error] with that status, the failed
    instance is finalised, so that the engine sees create and destroy, and
    [_lib] stays [None]. *)
Theorem instance_can_be_created_again (a b : loc) (err : Z) (k : nat)
    (sched : nat -> bool) (p : Process) :
  _lib p = None ->
  exists (n : nat) (p1 p2 : Process),
    Lib_new a 0 p = (Return tt, p1) /\
    Lib_destroy (401 + k) sched a p1 = Some p2 /\
    (n <= 400)%nat /\
    calls p2 =
      calls p ++ [pj_create] ++ replicate n (pj_handle_events 50) ++
      [pj_destroy] /\
    (err = 0 ->
     exists p3 : Process,
       Lib_new b err p2 = (Return tt, p3) /\
       _lib p3 = Some b /\
       calls p3 = calls p2 ++ [pj_create] /\
       _lib (Lib___del__ p3) = Some b /\
       calls (Lib___del__ p3) = calls p2 ++ [pj_create; pj_destroy]) /\
    (err <> 0 ->
     exists p3 : Process,
       Lib_new b err p2 =
         (Raise (Error "_pjsua.create()" None err EmptyString), p3) /\
       _lib p3 = None /\
       calls p3 = calls p2 ++ [pj_create; pj_destroy]).
Proof.
  intros H. unfold Lib_new, Lib___init__ at 1. rewrite H. simpl.
  set (p1 := set__lib (Some a) (call_pjsua pj_create p)).
  destruct (destroy_bounded (401 + k) sched a p1)
    as (n & p2 & H1 & H2 & H3 & H4 & _); [lia|].
  exists n, p1, p2. split; [done|]. split; [done|]. split; [done|].
  split; [by rewrite H3; simpl; rewrite <- app_assoc|].
  unfold Lib___init__, _err_check. rewrite H4.
  split; intros He.
  - rewrite decide_False by (intros ?; done).
    eexists. split; [done|]. simpl. by rewrite <- app_assoc.
  - rewrite decide_True by done.
    eexists. split; [done|]. simpl. by rewrite H4, <- app_assoc.
Qed.

Lemma instance_can_be_created_again_witness :
  exists (n : nat) (p1 p2 : Process),
    Lib_new 1%positive 0 init_process = (Return tt, p1) /\
    Lib_destroy 401 (fun _ => true) 1%positive p1 = Some p2 /\
    (n <= 400)%nat /\
    calls p2 =
      calls init_process ++ [pj_create] ++
      replicate n (pj_handle_events 50) ++ [pj_destroy] /\
    (0 = 0 ->
     exists p3 : Process,
       Lib_new 2%positive 0 p2 = (Return tt, p3) /\
       _lib p3 = Some 2%positive /\
       calls p3 = calls p2 ++ [pj_create] /\
       _lib (Lib___del__ p3) = Some 2%positive /\
       calls (Lib___del__ p3) = calls p2 ++ [pj_create; pj_destroy]) /\
    (0 <> 0 ->
     exists p3 : Process,
       Lib_new 2%positive 0 p2 =
         (Raise (Error "_pjsua.create()" None 0 EmptyString), p3) /\
       _lib p3 = None /\
       calls p3 = calls p2 ++ [pj_create; pj_destroy]).
Proof.
  apply (instance_can_be_created_again 1%positive 2%positive 0 0
           (fun _ => true) init_process).
  reflexivity.
Defined.

(** X30: [Lib.player_get_slot] and [Lib.recorder_get_slot] never return a
    slot: they ask the engine and then always raise [Error] with code -1,
    whatever the id and whatever the engine answered. *)
Theorem get_slot_always_raises (self : loc) (id slot : Z) (p : Process) :
  Lib_player_get_slot self id slot p =
    (Raise (Error "player_get_slot()" (Some self) (-1) "Invalid player id"),
     call_pjsua (pj_player_get_conf_port id) p) /\
  Lib_recorder_get_slot self id slot p =
    (Raise (Error "recorder_get_slot()" (Some self) (-1)
              "Invalid recorder id"),
     call_pjsua (pj_recorder_get_conf_port id) p).
Proof. split; reflexivity. Qed.
